(** * AR recorder: the remote offload pipeline of [server/local/app.py]

    A shallow embedding of [upload_to_gpu_server], [download_from_gpu_server],
    [run_on_gpu_server] and [process_session_on_gpu_server], and the
    properties of the offload pipeline proved on it.

    Conventions of the embedding.
    - A Python [str] is a [string]: the well-formed UTF-8 bytes of the text.
      Every character the code looks for (slash, brace, newline, the ASCII
      words of the transport errors) is ASCII, so byte-wise search and
      code-point-wise search agree; [rstrip] knows the UTF-8 form of every
      character that [str.isspace] accepts.
    - [os.path], [glob] and [fnmatch] are the POSIX flavours: [posixpath],
      case-sensitive matching.  A local file is known by its path string.
    - Effects are a state-and-exception monad [M]: the state holds the local
      regular files, the history of started subprocesses and the history of
      temporary files; everything outside the program (configuration, clock,
      directory listings, what a subprocess answers, the JSON decoder) is read
      from a [world].  The state survives a raised exception, as in Python.
    - [print] calls and the timing arithmetic around them are left out: no
      result depends on them.
    - A remote process that never exits keeps the streaming read loop of
      [run_on_gpu_server] spinning; the embedding covers the runs in which
      the child process ends.
    - The local files of the state are the files the program names itself.
      What [ssh] and [scp] keep for themselves (the host keys they add to
      [known_hosts]) is outside it.
    - Paths hold no NUL byte: on one, [glob.glob] raises [ValueError]. *)

From Stdlib Require Import ZArith String Ascii List Lia DecimalString Bool.
From stdpp Require Import gmap strings list.

Local Open Scope string_scope.
Local Open Scope list_scope.

(** ** Python strings *)

Module PyStr.

(** [s.startswith(pre)] *)
Fixpoint startswith (pre s : string) : bool :=
  match pre, s with
  | EmptyString, _ => true
  | String _ _, EmptyString => false
  | String a pre', String b s' => Ascii.eqb a b && startswith pre' s'
  end.

(** [s.endswith(suf)] *)
Fixpoint endswith (suf s : string) : bool :=
  if String.eqb s suf then true
  else match s with
       | EmptyString => false
       | String _ s' => endswith suf s'
       end.

(** [needle in s] *)
Fixpoint contains (needle s : string) : bool :=
  startswith needle s ||
  match s with
  | EmptyString => false
  | String _ s' => contains needle s'
  end.

(** [c in s] for one character *)
Fixpoint has_char (c : ascii) (s : string) : bool :=
  match s with
  | EmptyString => false
  | String a s' => Ascii.eqb a c || has_char c s'
  end.

(** [s[:-n]] for a positive [n] *)
Definition drop_last (n : nat) (s : string) : string :=
  String.substring 0 (String.length s - n) s.

(** [s.replace(a, b)] for single characters *)
Fixpoint replace_char (a b : ascii) (s : string) : string :=
  match s with
  | EmptyString => EmptyString
  | String c s' => String (if Ascii.eqb c a then b else c) (replace_char a b s')
  end.

(** [s.rstrip(c)] for one character *)
Fixpoint rstrip_char (c : ascii) (s : string) : string :=
  match s with
  | EmptyString => EmptyString
  | String a s' =>
      match rstrip_char c s' with
      | EmptyString => if Ascii.eqb a c then EmptyString else String a EmptyString
      | r => String a r
      end
  end.

(** [str(n)] for an [int] *)
Definition str_int (z : Z) : string := NilZero.string_of_int (Z.to_int z).

(** [sep.join(ls)] *)
Definition join (sep : string) (ls : list string) : string := String.concat sep ls.

(** [ls[-n:]] for a positive [n] *)
Definition last_n {A} (n : nat) (ls : list A) : list A :=
  skipn (length ls - n) ls.

(** The characters [str.isspace] accepts, as UTF-8: the ASCII ones are
    tab, LF, VT, FF, CR, FS, GS, RS, US and space. *)
Definition is_ascii_space (a : ascii) : bool :=
  let n := N_of_ascii a in
  ((9 <=? n) && (n <=? 13) || (28 <=? n) && (n <=? 32))%N.

(** U+0085 and U+00A0, given last byte first. *)
Definition is_space2 (b0 b1 : ascii) : bool :=
  (N_of_ascii b1 =? 194)%N &&
  ((N_of_ascii b0 =? 133) || (N_of_ascii b0 =? 160))%N.

(** U+1680, U+2000..U+200A, U+2028, U+2029, U+202F, U+205F and U+3000,
    given last byte first. *)
Definition is_space3 (b0 b1 b2 : ascii) : bool :=
  let n0 := N_of_ascii b0 in
  let n1 := N_of_ascii b1 in
  let n2 := N_of_ascii b2 in
  ((n2 =? 225) && (n1 =? 154) && (n0 =? 128) ||
   (n2 =? 226) && (n1 =? 128) &&
     ((128 <=? n0) && (n0 <=? 138) || (n0 =? 168) || (n0 =? 169) || (n0 =? 175)) ||
   (n2 =? 226) && (n1 =? 129) && (n0 =? 159) ||
   (n2 =? 227) && (n1 =? 128) && (n0 =? 128))%N.

(** Strip white space from the head of a reversed text. *)
Fixpoint lstrip_rev (r : list ascii) : list ascii :=
  match r with
  | [] => []
  | b0 :: r1 =>
      if is_ascii_space b0 then lstrip_rev r1
      else match r1 with
           | [] => r
           | b1 :: r2 =>
               if is_space2 b0 b1 then lstrip_rev r2
               else match r2 with
                    | [] => r
                    | b2 :: r3 => if is_space3 b0 b1 b2 then lstrip_rev r3 else r
                    end
           end
  end.

(** [s.rstrip()] *)
Definition rstrip (s : string) : string :=
  string_of_list_ascii (rev (lstrip_rev (rev (list_ascii_of_string s)))).

(** Text-mode newline translation ([universal_newlines=True]): CR LF and a
    lone CR both read as LF. *)
Fixpoint universal_newlines (s : string) : string :=
  match s with
  | EmptyString => EmptyString
  | String c s' =>
      if Ascii.eqb c "013" then
        match s' with
        | String d _ =>
            if Ascii.eqb d "010" then universal_newlines s'
            else String "010" (universal_newlines s')
        | EmptyString => String "010" EmptyString
        end
      else String c (universal_newlines s')
  end.

(** What successive [readline()] calls return on a text that is read to its
    end: each line with its newline, the last one maybe without. *)
Fixpoint readlines (s : string) : list string :=
  match s with
  | EmptyString => []
  | String c s' =>
      if Ascii.eqb c "010" then String c EmptyString :: readlines s'
      else match readlines s' with
           | [] => [String c EmptyString]
           | l :: ls => String c l :: ls
           end
  end.

(** [s.split("\n")] *)
Fixpoint split_lines (s : string) : list string :=
  match s with
  | EmptyString => [EmptyString]
  | String c s' =>
      if Ascii.eqb c "010" then EmptyString :: split_lines s'
      else match split_lines s' with
           | [] => [String c EmptyString]
           | l :: ls => String c l :: ls
           end
  end.

End PyStr.

(** ** [posixpath] *)

Module PosixPath.
Import PyStr.

Definition sep : ascii := "/".

(** [os.path.join(a, b)] *)
Definition join (a b : string) : string :=
  if startswith "/" b then b
  else if String.eqb a "" || endswith "/" a then a +:+ b
  else a +:+ "/" +:+ b.

(** [(p[:i], p[i:])] for [i = p.rfind("/") + 1] *)
Fixpoint cut (p : string) : string * string :=
  match p with
  | EmptyString => (EmptyString, EmptyString)
  | String c p' =>
      let (h, t) := cut p' in
      if Ascii.eqb c sep then (String c h, t)
      else match h with
           | EmptyString => (EmptyString, String c t)
           | _ => (String c h, t)
           end
  end.

(** The head with its trailing slashes removed, unless it is all slashes. *)
Definition trim_head (h : string) : string :=
  match rstrip_char sep h with
  | EmptyString => h
  | r => r
  end.

(** [os.path.split(p)] *)
Definition split (p : string) : string * string :=
  let (h, t) := cut p in (trim_head h, t).

(** [os.path.basename(p)] *)
Definition basename (p : string) : string := snd (cut p).

(** [os.path.dirname(p)] *)
Definition dirname (p : string) : string := trim_head (fst (cut p)).

(** [p.split("/")] *)
Fixpoint components (p : string) : list string :=
  match p with
  | EmptyString => [EmptyString]
  | String c p' =>
      if Ascii.eqb c sep then EmptyString :: components p'
      else match components p' with
           | [] => [String c EmptyString]
           | x :: xs => String c x :: xs
           end
  end.

(** The loop of [normpath] over the components; [acc] is [new_comps],
    last component first. *)
Fixpoint norm_comps (rooted : bool) (comps acc : list string) : list string :=
  match comps with
  | [] => rev acc
  | comp :: rest =>
      if String.eqb comp "" || String.eqb comp "." then norm_comps rooted rest acc
      else if negb (String.eqb comp "..") then norm_comps rooted rest (comp :: acc)
      else match acc with
           | [] => if rooted then norm_comps rooted rest acc
                   else norm_comps rooted rest (comp :: acc)
           | top :: acc' =>
               if String.eqb top ".." then norm_comps rooted rest (comp :: acc)
               else norm_comps rooted rest acc'
           end
  end.

(** [os.path.normpath(p)] *)
Definition normpath (p : string) : string :=
  if String.eqb p "" then "."
  else
    let slashes :=
      if startswith "/" p then
        if startswith "//" p && negb (startswith "///" p) then "//" else "/"
      else "" in
    let body := PyStr.join "/" (norm_comps (startswith "/" p) (components p) []) in
    let r := slashes +:+ body in
    if String.eqb r "" then "." else r.

(** [os.path.abspath(p)] in the working directory [cwd] *)
Definition abspath (cwd p : string) : string :=
  normpath (if startswith "/" p then p else join cwd p).

End PosixPath.

(** ** [glob] *)

Module Glob.
Import PyStr.

(** [fnmatch] for a pattern whose only wildcard is the star *)
Fixpoint fnmatch (pat : string) (name : string) : bool :=
  match pat with
  | EmptyString => String.eqb name ""
  | String c pat' =>
      if Ascii.eqb c "*" then
        (fix star (n : string) : bool :=
           fnmatch pat' n ||
           match n with
           | EmptyString => false
           | String _ n' => star n'
           end) name
      else match name with
           | EmptyString => false
           | String d name' => Ascii.eqb c d && fnmatch pat' name'
           end
  end.

(** [glob.has_magic] *)
Definition has_magic (s : string) : bool :=
  has_char "*" s || has_char "?" s || has_char "[" s.

(** [glob._ishidden] *)
Definition ishidden (s : string) : bool := startswith "." s.

(** [glob._glob1]: the names of a listing that match, hidden ones left out
    for a pattern that does not itself start with a dot *)
Definition glob1 (listing : list string) (pat : string) : list string :=
  filter (fun n => Is_true (fnmatch pat n))
    (if ishidden pat then listing
     else filter (fun n => Is_true (negb (ishidden n))) listing).

End Glob.

(** ** Values, exceptions, the outside world and the program state *)

(** A decoded JSON value, which is also the Python value the program holds:
    [JNull] is [None], [JFloat m e] is the decimal [m * 10^e]. *)
#[warnings="-register-all"]
Inductive json : Type :=
| JNull
| JBool (b : bool)
| JInt (z : Z)
| JFloat (m e : Z)
| JStr (s : string)
| JArr (items : list json)
| JObj (members : list (string * json)).

(** A Python [dict] with string keys, in insertion order. *)
Definition pydict : Type := list (string * json).

(** [d.get(k)] on the pairs a decoder read: the last pair of a key wins. *)
Fixpoint dict_get (k : string) (d : pydict) : option json :=
  match d with
  | [] => None
  | (k', v) :: d' =>
      match dict_get k d' with
      | Some v' => Some v'
      | None => if String.eqb k' k then Some v else None
      end
  end.

(** [bool(v)] *)
Definition truthy (v : json) : bool :=
  match v with
  | JNull => false
  | JBool b => b
  | JInt z => negb (z =? 0)%Z
  | JFloat m _ => negb (m =? 0)%Z
  | JStr s => negb (String.eqb s "")
  | JArr items => match items with [] => false | _ => true end
  | JObj members => match members with [] => false | _ => true end
  end.

(** [[0.0, 0.0, 0.0]] *)
Definition zero_coordinates : json := JArr [JFloat 0 0; JFloat 0 0; JFloat 0 0].

(** The value is a sequence of exactly three components. *)
Definition three_components (v : json) : Prop :=
  exists a b c, v = JArr [a; b; c].

Inductive exn_class : Type :=
| ValueError | FileNotFoundError | OSError | TimeoutExpired
| JSONDecodeError | AttributeError | Exception_.

(** A raised exception: its class and [str(e)].  The text of an exception
    that a library raises (a decode error, a missing attribute, a timeout
    that nobody catches) is a stand-in; the program never looks at it. *)
Record exn : Type := Exn { exn_class_of : exn_class; exn_str : string }.

(** [config.py] *)
Record config : Type := Config {
  GPU_SERVER_HOST : string;
  GPU_SERVER_PORT : Z;
  GPU_SERVER_USER : string;
  GPU_SERVER_SSH_KEY : string;
  GPU_SERVER_WORK_DIR : string;
  GPU_SERVER_VENV_PATH : string
}.

(** What [subprocess.run(cmd, timeout=...)] meets. *)
Inductive run_result : Type :=
| RunSpawnError (msg : string)
| RunTimeout
| RunExited (returncode : Z) (stdout stderr : string).

(** What [subprocess.Popen(cmd, stderr=STDOUT)] meets when the child ends:
    the decoded text of its output and its exit status. *)
Inductive popen_result : Type :=
| PopenSpawnError (msg : string)
| PopenExited (output : string) (returncode : Z).

(** Everything the program reads from outside itself.  The subprocess
    oracles are indexed by the number of subprocesses started before. *)
Record world : Type := World {
  w_config : config;
  w_cwd : string;                                  (* os.getcwd() *)
  w_now_ms : Z;                                    (* int(time.time() * 1000) *)
  w_isdir : string -> bool;                        (* os.path.isdir *)
  w_listdir : string -> list string;               (* entries of a directory, [] if none *)
  w_glob_dirs : string -> list string;             (* glob of a directory part with wildcards *)
  w_gpu_server_dir : string;                       (* Path(__file__).parent.parent / "gpu_server" *)
  w_tmpname : nat -> string -> string;             (* name tempfile picks, by rank and suffix *)
  w_tar : string -> string -> string + string;     (* tarfile: inl error, inr archive bytes *)
  w_run : nat -> list string -> run_result;
  w_scp_payload : nat -> option string;            (* what a download leaves in its target *)
  w_popen : nat -> list string -> popen_result;
  w_json_loads : string -> option json;            (* json.loads, None for a decode error *)
  w_format_exc : exn -> string                     (* traceback.format_exc() *)
}.

Record state : Type := State {
  files : gmap string string;      (* local regular files and their content *)
  spawned : list (list string);    (* argv of every subprocess started, oldest first *)
  tmp_made : list string           (* names handed out by tempfile, oldest first *)
}.

Inductive outcome (A : Type) : Type :=
| Ret (a : A)
| Raise (e : exn).
Arguments Ret {A} a.
Arguments Raise {A} e.

Definition M (A : Type) : Type := state -> outcome A * state.

Definition ret {A} (a : A) : M A := fun s => (Ret a, s).

Definition raise {A} (c : exn_class) (msg : string) : M A :=
  fun s => (Raise (Exn c msg), s).

Definition reraise {A} (e : exn) : M A := fun s => (Raise e, s).

Definition bind {A B} (c : M A) (k : A -> M B) : M B :=
  fun s =>
    match c s with
    | (Ret a, s1) => k a s1
    | (Raise e, s1) => (Raise e, s1)
    end.

(** [try: body  except Exception as e: handler(e)] *)
Definition try_except {A} (body : M A) (handler : exn -> M A) : M A :=
  fun s =>
    match body s with
    | (Ret a, s1) => (Ret a, s1)
    | (Raise e, s1) => handler e s1
    end.

(** [try: body  finally: cleanup] *)
Definition try_finally {A} (body : M A) (cleanup : M unit) : M A :=
  fun s =>
    match body s with
    | (r, s1) =>
        match cleanup s1 with
        | (Ret _, s2) => (r, s2)
        | (Raise e, s2) => (Raise e, s2)
        end
    end.

Declare Scope py_scope.
Delimit Scope py_scope with py.
Notation "'do' x <- c ; k" := (bind c (fun x => k))
  (at level 10, x name, c at level 100, k at level 200) : py_scope.
Notation "'do' ' p <- c ; k" := (bind c (fun p => k))
  (at level 10, p pattern, c at level 100, k at level 200) : py_scope.
Notation "c >> k" := (bind c (fun _ => k))
  (at level 100, k at level 200, right associativity) : py_scope.
Local Open Scope py_scope.

(** *** The operating system *)

Definition os_path_isfile (p : string) : M bool :=
  fun s => (Ret (bool_decide (is_Some (files s !! p))), s).

Definition os_path_exists (w : world) (p : string) : M bool :=
  fun s => (Ret (bool_decide (is_Some (files s !! p)) || w_isdir w p), s).

Definition os_unlink (p : string) : M unit :=
  fun s =>
    match files s !! p with
    | Some _ => (Ret tt, State (delete p (files s)) (spawned s) (tmp_made s))
    | None => (Raise (Exn FileNotFoundError p), s)
    end.

(** [with tempfile.NamedTemporaryFile(suffix=..., delete=False) as f: f.name]:
    an empty file under a name of tempfile's choosing. *)
Definition named_temporary_file (w : world) (suffix : string) : M string :=
  fun s =>
    let name := w_tmpname w (length (tmp_made s)) suffix in
    (Ret name, State (<[name := ""]> (files s)) (spawned s) (tmp_made s ++ [name])).

(** [with tarfile.open(tar_path, "w:gz") as tar: tar.add(folder, arcname=...)]:
    the file is opened for writing before anything can fail. *)
Definition tarfile_write (w : world) (tar_path folder arcname : string) : M unit :=
  fun s =>
    match w_tar w folder arcname with
    | inl msg => (Raise (Exn OSError msg),
                  State (<[tar_path := ""]> (files s)) (spawned s) (tmp_made s))
    | inr bytes => (Ret tt,
                  State (<[tar_path := bytes]> (files s)) (spawned s) (tmp_made s))
    end.

(** [with open(p, "r") as f] *)
Definition open_read (p : string) : M string :=
  fun s =>
    match files s !! p with
    | Some content => (Ret content, s)
    | None => (Raise (Exn FileNotFoundError p), s)
    end.

(** [json.load(f)] / [json.loads(text)] *)
Definition json_loads (w : world) (text : string) : M json :=
  match w_json_loads w text with
  | Some v => ret v
  | None => raise JSONDecodeError "Expecting value"
  end.

(** [result_data.get(key, default)]: only a [dict] has [get]. *)
Definition py_get (v : json) (key : string) (default : json) : M json :=
  match v with
  | JObj members =>
      match dict_get key members with
      | Some x => ret x
      | None => ret default
      end
  | _ => raise AttributeError "object has no attribute 'get'"
  end.

(** [subprocess.run(cmd, capture_output=True, text=True, timeout=...)].
    [target] is the local file the child writes: the destination of a
    download, nothing for an upload or a shell command.  The expiry of the
    time limit is one of the outcomes the world gives ([RunTimeout]); the
    number of seconds is not carried.  Files that the child keeps for
    itself are not files of the state. *)
Definition subprocess_run (w : world) (cmd : list string) (target : option string)
  : M (Z * string * string) :=
  fun s =>
    let n := length (spawned s) in
    let fs :=
      match target, w_scp_payload w n with
      | Some p, Some content => <[p := content]> (files s)
      | _, _ => files s
      end in
    let s1 := State fs (spawned s ++ [cmd]) (tmp_made s) in
    match w_run w n cmd with
    | RunSpawnError msg => (Raise (Exn OSError msg), State (files s) (spawned s ++ [cmd]) (tmp_made s))
    | RunTimeout => (Raise (Exn TimeoutExpired "timed out"), s1)
    | RunExited rc out err => (Ret (rc, out, err), s1)
    end.

(** [subprocess.Popen(cmd, stdout=PIPE, stderr=STDOUT, text=True, ...)]
    followed to the end of the child.  A child that never ends has no
    outcome here: the read loop of lines 190-198 has no time limit of its
    own, and such a run does not return. *)
Definition popen (w : world) (cmd : list string) : M (string * Z) :=
  fun s =>
    let s1 := State (files s) (spawned s ++ [cmd]) (tmp_made s) in
    match w_popen w (length (spawned s)) cmd with
    | PopenSpawnError msg => (Raise (Exn OSError msg), s1)
    | PopenExited output rc => (Ret (output, rc), s1)
    end.

(** ** The three remote operations *)

Import PyStr.

Definition nl : string := String "010" EmptyString.
Definition dquote : string := String "034" EmptyString.
Definition backslash : ascii := "092".

(** The guard that opens [upload_to_gpu_server], [download_from_gpu_server]
    and [run_on_gpu_server] alike (lines 38-47, 87-96, 135-144): it yields
    [ssh_key_normalized]. *)
Definition checked_ssh_key (w : world) : M string :=
  let c := w_config w in
  if String.eqb (GPU_SERVER_HOST c) EmptyString
     || String.eqb (GPU_SERVER_SSH_KEY c) EmptyString
  then raise ValueError "GPU 서버 설정이 없습니다. config.py를 확인하세요."
  else
    let ssh_key := PosixPath.abspath (w_cwd w) (GPU_SERVER_SSH_KEY c) in
    do found <- os_path_exists w ssh_key;
    if negb found
    then raise FileNotFoundError ("SSH 키 파일을 찾을 수 없습니다: " +:+ ssh_key)
    else ret (replace_char backslash "/" ssh_key).

(** [f"{host}:{port}"] *)
Definition host_port (c : config) : string :=
  GPU_SERVER_HOST c +:+ ":" +:+ str_int (GPU_SERVER_PORT c).

(** [f"{user}@{host}"] *)
Definition user_at_host (c : config) : string :=
  GPU_SERVER_USER c +:+ "@" +:+ GPU_SERVER_HOST c.

Definition scp_options (c : config) (ssh_key_normalized : string) : list string :=
  ["scp"; "-i"; ssh_key_normalized; "-P"; str_int (GPU_SERVER_PORT c);
   "-o"; "StrictHostKeyChecking=no"; "-o"; "ConnectTimeout=30";
   "-o"; "ServerAliveInterval=60"].

(** [result.stderr if result.stderr else result.stdout] *)
Definition diagnostic (stdout stderr : string) : string :=
  if String.eqb stderr EmptyString then stdout else stderr.

Definition transport_error (error_msg : string) : bool :=
  contains "Connection timed out" error_msg || contains "Connection refused" error_msg.

Definition upload_timeout_msg (c : config) : string :=
  "SCP 업로드 타임아웃: GPU 서버(" +:+ host_port c +:+
  ")에 연결할 수 없습니다. VPN이 켜져 있는지 확인하세요.".

Definition upload_connect_msg (c : config) (error_msg : string) : string :=
  "GPU 서버 연결 실패: " +:+ host_port c +:+ "에 연결할 수 없습니다." +:+ nl +:+
  "확인 사항:" +:+ nl +:+
  "1. VPN이 켜져 있는지 확인" +:+ nl +:+
  "2. GPU 서버가 실행 중인지 확인" +:+ nl +:+
  "3. 네트워크 연결 상태 확인" +:+ nl +:+
  "원본 에러: " +:+ error_msg.

Definition upload_failed_msg (error_msg : string) : string :=
  "SCP 업로드 실패: " +:+ error_msg.

Definition download_timeout_msg (c : config) : string :=
  "SCP 다운로드 타임아웃: GPU 서버(" +:+ host_port c +:+ ")에 연결할 수 없습니다.".

Definition download_connect_msg (c : config) (error_msg : string) : string :=
  "GPU 서버 연결 실패: " +:+ host_port c +:+ "에 연결할 수 없습니다." +:+ nl +:+
  "확인 사항:" +:+ nl +:+
  "1. VPN이 켜져 있는지 확인" +:+ nl +:+
  "2. GPU 서버가 실행 중인지 확인" +:+ nl +:+
  "원본 에러: " +:+ error_msg.

Definition download_failed_msg (error_msg : string) : string :=
  "SCP 다운로드 실패: " +:+ error_msg.

Definition upload_cmd (w : world) (ssh_key_normalized local_path remote_path : string)
  : list string :=
  let c := w_config w in
  let local_path_normalized :=
    replace_char backslash "/" (PosixPath.abspath (w_cwd w) local_path) in
  scp_options c ssh_key_normalized ++
  [local_path_normalized; user_at_host c +:+ ":" +:+ remote_path].

Definition upload_to_gpu_server (w : world) (local_path remote_path : string) : M unit :=
  let c := w_config w in
  do ssh_key_normalized <- checked_ssh_key w;
  let scp_cmd := upload_cmd w ssh_key_normalized local_path remote_path in
  do result <-
    try_except (subprocess_run w scp_cmd None)
      (fun e =>
         match exn_class_of e with
         | TimeoutExpired => raise Exception_ (upload_timeout_msg c)
         | _ => reraise e
         end);
  let '(returncode, stdout, stderr) := result in
  if negb (returncode =? 0)%Z then
    let error_msg := diagnostic stdout stderr in
    if transport_error error_msg
    then raise Exception_ (upload_connect_msg c error_msg)
    else raise Exception_ (upload_failed_msg error_msg)
  else ret tt.

Definition download_target (w : world) (local_path : string) : string :=
  replace_char backslash "/" (PosixPath.abspath (w_cwd w) local_path).

Definition download_cmd (w : world) (ssh_key_normalized remote_path local_path : string)
  : list string :=
  let c := w_config w in
  scp_options c ssh_key_normalized ++
  [user_at_host c +:+ ":" +:+ remote_path; download_target w local_path].

Definition download_from_gpu_server (w : world) (remote_path local_path : string) : M unit :=
  let c := w_config w in
  do ssh_key_normalized <- checked_ssh_key w;
  let scp_cmd := download_cmd w ssh_key_normalized remote_path local_path in
  do result <-
    try_except (subprocess_run w scp_cmd (Some (download_target w local_path)))
      (fun e =>
         match exn_class_of e with
         | TimeoutExpired => raise Exception_ (download_timeout_msg c)
         | _ => reraise e
         end);
  let '(returncode, stdout, stderr) := result in
  if negb (returncode =? 0)%Z then
    let error_msg := diagnostic stdout stderr in
    if transport_error error_msg
    then raise Exception_ (download_connect_msg c error_msg)
    else raise Exception_ (download_failed_msg error_msg)
  else ret tt.

Definition ssh_cmd (w : world) (ssh_key_normalized command : string)
    (realtime_output : bool) : list string :=
  let c := w_config w in
  ["ssh"; "-i"; ssh_key_normalized; "-p"; str_int (GPU_SERVER_PORT c);
   "-o"; "StrictHostKeyChecking=no"; "-o"; "ConnectTimeout=30"] ++
  (if realtime_output
   then ["-t"; "-o"; "ServerAliveInterval=60"; "-o"; "ServerAliveCountMax=3"]
   else []) ++
  [user_at_host c; command].

(** The read loop of the streaming branch (lines 187-204) over the lines
    [readline()] still has to return; it ends when [readline()] returns the
    empty string and the child has exited. *)
Fixpoint read_loop (pending : list string) (output_lines : list string) : list string :=
  match pending with
  | [] => output_lines
  | line :: rest =>
      let line := rstrip line in
      if negb (String.eqb line EmptyString)
      then read_loop rest (output_lines ++ [line])
      else read_loop rest output_lines
  end.

(** [output_lines] once the loop is over, for a child that wrote [output]. *)
Definition captured_lines (output : string) : list string :=
  read_loop (readlines (universal_newlines output)) [].

(** ['\n'.join(output_lines[-20:]) if output_lines else "출력 없음"] *)
Definition error_output (output_lines : list string) : string :=
  match output_lines with
  | [] => "출력 없음"
  | _ => PyStr.join nl (last_n 20 output_lines)
  end.

Definition ssh_failed_realtime_msg (returncode : Z) (output_lines : list string) : string :=
  "SSH 명령 실행 실패 (코드: " +:+ str_int returncode +:+ ")" +:+ nl +:+
  "최근 출력:" +:+ nl +:+ error_output output_lines.

Definition ssh_timeout_msg (command : string) : string :=
  "SSH 명령 실행 타임아웃 (600초 초과): " +:+ command.

Definition ssh_failed_msg (returncode : Z) (error_msg : string) : string :=
  "SSH 명령 실행 실패 (코드: " +:+ str_int returncode +:+ "): " +:+ error_msg.

Definition run_on_gpu_server (w : world) (command : string) (realtime_output : bool)
  : M string :=
  do ssh_key_normalized <- checked_ssh_key w;
  let cmd := ssh_cmd w ssh_key_normalized command realtime_output in
  if realtime_output then
    do '(output, returncode) <- popen w cmd;
    try_except
      (let output_lines := captured_lines output in
       if negb (returncode =? 0)%Z
       then raise Exception_ (ssh_failed_realtime_msg returncode output_lines)
       else ret (PyStr.join nl output_lines))
      (fun e =>
         match exn_class_of e with
         | TimeoutExpired => raise Exception_ (ssh_timeout_msg command)
         | _ => reraise e
         end)
  else
    do result <- subprocess_run w cmd None;
    let '(returncode, stdout, stderr) := result in
    if negb (returncode =? 0)%Z
    then raise Exception_ (ssh_failed_msg returncode (diagnostic stdout stderr))
    else ret stdout.

(** ** The pipeline: [process_session_on_gpu_server] *)

(** [glob.glob(pathname)] for a pathname whose last component holds a
    wildcard, as both patterns of the program do, and that holds no NUL
    byte. *)
Definition glob (w : world) (pathname : string) : list string :=
  let (dirname, pattern) := PosixPath.split pathname in
  if String.eqb dirname EmptyString then Glob.glob1 (w_listdir w ".") pattern
  else
    let dirs :=
      if negb (String.eqb dirname pathname) && Glob.has_magic dirname
      then w_glob_dirs w dirname
      else [dirname] in
    flat_map (fun d => map (PosixPath.join d) (Glob.glob1 (w_listdir w d) pattern)) dirs.

(** [f"session_{int(time.time() * 1000)}"] *)
Definition synthesized_name (w : world) : string :=
  "session_" +:+ str_int (w_now_ms w).

(** Lines 249-267: the name before the emptiness check of line 269. *)
Definition find_session_name (w : world) (actual_session_folder : string) : string :=
  let session_folders_in_dir :=
    glob w (PosixPath.join actual_session_folder "session_*") in
  match session_folders_in_dir with
  | first :: _ => PosixPath.basename first
  | [] =>
      let jsonl_files := glob w (PosixPath.join actual_session_folder "*.jsonl") in
      match jsonl_files with
      | first :: _ =>
          let jsonl_basename := PosixPath.basename first in
          if startswith "session_" jsonl_basename && endswith ".jsonl" jsonl_basename
          then drop_last 6 jsonl_basename
          else synthesized_name w
      | [] => synthesized_name w
      end
  end.

(** Lines 269-270. *)
Definition checked_session_name (name actual_session_folder : string) : string :=
  if String.eqb name EmptyString
  then PosixPath.basename (rstrip_char "/" actual_session_folder)
  else name.

(** Lines 240-270: [(actual_session_folder, session_folder_name)]. *)
Definition resolve_session (w : world) (session_folder_path : string)
  : M (string * string) :=
  do is_file <- os_path_isfile session_folder_path;
  let actual_session_folder :=
    if is_file then PosixPath.dirname session_folder_path else session_folder_path in
  let session_folder_name := find_session_name w actual_session_folder in
  ret (actual_session_folder,
       checked_session_name session_folder_name actual_session_folder).

(** [if os.path.exists(p): os.unlink(p)] *)
Definition unlink_if_exists (w : world) (p : string) : M unit :=
  do found <- os_path_exists w p;
  if found then os_unlink p else ret tt.

Definition extract_cmd (c : config) (session_folder_name remote_tar_path : string) : string :=
  "cd " +:+ GPU_SERVER_WORK_DIR c +:+ " && " +:+
  "tar -xzf " +:+ PosixPath.basename remote_tar_path +:+ " && " +:+
  "if [ -d extracted ] && [ ! -d " +:+ session_folder_name +:+
  " ]; then mv extracted " +:+ session_folder_name +:+ "; fi && " +:+
  "rm " +:+ PosixPath.basename remote_tar_path.

(** Stage 1, lines 273-312: pack, upload, extract remotely. *)
Definition upload_session (w : world) (actual_session_folder session_folder_name : string)
  : M unit :=
  let c := w_config w in
  do tar_path <- named_temporary_file w ".tar.gz";
  try_finally
    (tarfile_write w tar_path actual_session_folder session_folder_name >>
     let remote_tar_path :=
       PosixPath.join (GPU_SERVER_WORK_DIR c) (session_folder_name +:+ ".tar.gz") in
     upload_to_gpu_server w tar_path remote_tar_path >>
     do _ <- run_on_gpu_server w (extract_cmd c session_folder_name remote_tar_path) true;
     ret tt)
    (unlink_if_exists w tar_path).

(** One script of stage 2: uploaded when it exists locally. *)
Definition upload_script (w : world) (script : string) : M unit :=
  let local_path := PosixPath.join (w_gpu_server_dir w) script in
  let remote_path := PosixPath.join (GPU_SERVER_WORK_DIR (w_config w)) script in
  do found <- os_path_exists w local_path;
  if found then upload_to_gpu_server w local_path remote_path else ret tt.

(** Stage 2, lines 314-332. *)
Definition upload_scripts (w : world) : M unit :=
  upload_script w "process_and_save_result.py" >>
  upload_script w "inference_with_pose.py".

Definition script_command (c : config) : string :=
  "bash -c 'set -e && " +:+
  "cd " +:+ GPU_SERVER_WORK_DIR c +:+ " && " +:+
  "source " +:+ GPU_SERVER_VENV_PATH c +:+ " && " +:+
  "python_path=$(which python) && " +:+
  "echo " +:+ dquote +:+ "[GPU] 가상환경 Python 경로: $python_path" +:+ dquote +:+ " && " +:+
  "python process_and_save_result.py " +:+ GPU_SERVER_WORK_DIR c +:+ "'".

(** Stage 3, lines 334-351: the captured output of the model run. *)
Definition run_model (w : world) : M string :=
  run_on_gpu_server w (script_command (w_config w)) true.

(** The text after the first opening brace. *)
Fixpoint after_first_open (s : string) : option string :=
  match s with
  | EmptyString => None
  | String c s' => if Ascii.eqb c "{" then Some s' else after_first_open s'
  end.

(** The longest prefix that ends in a closing brace. *)
Fixpoint through_last_close (s : string) : option string :=
  match s with
  | EmptyString => None
  | String c s' =>
      match through_last_close s' with
      | Some r => Some (String c r)
      | None => if Ascii.eqb c "}" then Some (String c EmptyString) else None
      end
  end.

(** [re.search(r'\{.*\}', output, re.DOTALL)], and [.group()] of the match:
    the star is greedy and the dot takes newlines. *)
Definition re_search_braces (output : string) : option string :=
  match after_first_open output with
  | None => None
  | Some rest =>
      match through_last_close rest with
      | None => None
      | Some m => Some (String "{" m)
      end
  end.

(** Lines 366-368 and 377-379: the two fields read off a decoded document. *)
Definition read_fields (result_data : json) : M (json * json) :=
  do cup_coordinates <- py_get result_data "cup_coordinates" zero_coordinates;
  do rotation_axis <- py_get result_data "rotation_axis" JNull;
  ret (cup_coordinates, rotation_axis).

(** Lines 362-368: download the result file and decode it. *)
Definition parse_downloaded (w : world) (remote_result_path local_result_path : string)
  : M (json * json) :=
  download_from_gpu_server w remote_result_path local_result_path >>
  do content <- open_read local_result_path;
  do result_data <- json_loads w content;
  read_fields result_data.

(** Lines 372-385: the fallback on the captured output. *)
Definition parse_output (w : world) (output : string) : M (json * json) :=
  try_except
    (match re_search_braces output with
     | Some matched =>
         do result_data <- json_loads w matched;
         read_fields result_data
     | None => ret (zero_coordinates, JNull)
     end)
    (fun _ => ret (zero_coordinates, JNull)).

(** Stage 4, lines 353-388: [(cup_coordinates, rotation_axis)]. *)
Definition fetch_result (w : world) (session_folder_name output : string)
  : M (json * json) :=
  let result_file_name := session_folder_name +:+ "_result.json" in
  let remote_result_path :=
    PosixPath.join (GPU_SERVER_WORK_DIR (w_config w)) result_file_name in
  do local_result_path <- named_temporary_file w ".json";
  try_finally
    (try_except
       (parse_downloaded w remote_result_path local_result_path)
       (fun _ => parse_output w output))
    (unlink_if_exists w local_result_path).

(** Lines 393-403. *)
Definition success_envelope (cup_coordinates rotation_axis : json) : pydict :=
  let result :=
    [("success", JBool true);
     ("cup_coordinates", cup_coordinates);
     ("message", JStr "처리 완료 (GPU 서버에서 실행됨)")] in
  if truthy rotation_axis then result ++ [("rotation_axis", rotation_axis)]
  else result.

(** Lines 405-412. *)
Definition failure_envelope (w : world) (e : exn) : pydict :=
  let error_msg :=
    "GPU 서버 처리 중 오류 발생: " +:+ exn_str e +:+ nl +:+ w_format_exc w e in
  [("success", JBool false); ("error", JStr (exn_str e)); ("message", JStr error_msg)].

(** Up to the model run: resolution, stage 1 and stage 2. *)
Definition prepare (w : world) (session_folder_path : string) : M string :=
  do '(actual_session_folder, session_folder_name) <- resolve_session w session_folder_path;
  upload_session w actual_session_folder session_folder_name >>
  upload_scripts w >>
  ret session_folder_name.

(** Up to the download: the session name and the captured output. *)
Definition run_stages (w : world) (session_folder_path : string) : M (string * string) :=
  do session_folder_name <- prepare w session_folder_path;
  do output <- run_model w;
  ret (session_folder_name, output).

(** The [try] body up to the parsed result. *)
Definition parsed_result (w : world) (session_folder_path : string) : M (json * json) :=
  do '(session_folder_name, output) <- run_stages w session_folder_path;
  fetch_result w session_folder_name output.

Definition process_session_on_gpu_server (w : world) (session_folder_path : string)
  : M pydict :=
  try_except
    (do '(cup_coordinates, rotation_axis) <- parsed_result w session_folder_path;
     ret (success_envelope cup_coordinates rotation_axis))
    (fun e => ret (failure_envelope w e)).

(** ** A JSON decoder for the concrete scenarios

    [json.loads] is a library function, and the properties below hold for
    whatever decoder the world carries.  The scenarios need one that runs:
    this one reads the fragment of JSON without string escapes and without
    exponents, and rejects everything else. *)

Module MiniJson.

Definition is_ws (c : ascii) : bool :=
  Ascii.eqb c " " || Ascii.eqb c "009" || Ascii.eqb c "010" || Ascii.eqb c "013".

Fixpoint skip_ws (s : string) : string :=
  match s with
  | EmptyString => EmptyString
  | String c s' => if is_ws c then skip_ws s' else s
  end.

(** The characters up to the closing quote, and what follows it. *)
Fixpoint take_string (s : string) : option (string * string) :=
  match s with
  | EmptyString => None
  | String c s' =>
      if Ascii.eqb c "034" then Some (EmptyString, s')
      else if Ascii.eqb c "092" then None
      else match take_string s' with
           | Some (body, rest) => Some (String c body, rest)
           | None => None
           end
  end.

Definition digit_value (c : ascii) : option Z :=
  let n := N_of_ascii c in
  if ((48 <=? n) && (n <=? 57))%N then Some (Z.of_N n - 48)%Z else None.

(** Leading digits read onto [acc]: the value, how many were read, the rest. *)
Fixpoint take_digits (s : string) (acc : Z) (count : nat) : Z * nat * string :=
  match s with
  | EmptyString => (acc, count, s)
  | String c s' =>
      match digit_value c with
      | Some d => take_digits s' (10 * acc + d)%Z (S count)
      | None => (acc, count, s)
      end
  end.

Definition take_number (s : string) : option (json * string) :=
  let (sign, s1) :=
    match s with
    | String c r => if Ascii.eqb c "-" then ((-1)%Z, r) else (1%Z, s)
    | EmptyString => (1%Z, s)
    end in
  match take_digits s1 0 0 with
  | (_, O, _) => None
  | (whole, S _, s2) =>
      match s2 with
      | String c r =>
          if Ascii.eqb c "." then
            match take_digits r whole 0 with
            | (_, O, _) => None
            | (mantissa, S k, s3) => Some (JFloat (sign * mantissa) (- Z.of_nat (S k)), s3)
            end
          else Some (JInt (sign * whole), s2)
      | EmptyString => Some (JInt (sign * whole), s2)
      end
  end.

Definition take_word (word : string) (v : json) (s : string) : option (json * string) :=
  if startswith word s
  then Some (v, String.substring (String.length word) (String.length s) s)
  else None.

Fixpoint value (fuel : nat) (s : string) : option (json * string) :=
  match fuel with
  | O => None
  | S fuel' =>
      match skip_ws s with
      | EmptyString => None
      | String c r =>
          if Ascii.eqb c "{" then
            match skip_ws r with
            | String d r' =>
                if Ascii.eqb d "}" then Some (JObj [], r') else members fuel' r []
            | EmptyString => None
            end
          else if Ascii.eqb c "[" then
            match skip_ws r with
            | String d r' =>
                if Ascii.eqb d "]" then Some (JArr [], r') else items fuel' r []
            | EmptyString => None
            end
          else if Ascii.eqb c "034" then
            match take_string r with
            | Some (body, rest) => Some (JStr body, rest)
            | None => None
            end
          else if Ascii.eqb c "t" then take_word "true" (JBool true) (String c r)
          else if Ascii.eqb c "f" then take_word "false" (JBool false) (String c r)
          else if Ascii.eqb c "n" then take_word "null" JNull (String c r)
          else take_number (String c r)
      end
  end
with items (fuel : nat) (s : string) (acc : list json) : option (json * string) :=
  match fuel with
  | O => None
  | S fuel' =>
      match value fuel' s with
      | None => None
      | Some (v, r) =>
          match skip_ws r with
          | EmptyString => None
          | String c r' =>
              if Ascii.eqb c "," then items fuel' r' (v :: acc)
              else if Ascii.eqb c "]" then Some (JArr (rev (v :: acc)), r')
              else None
          end
      end
  end
with members (fuel : nat) (s : string) (acc : pydict) : option (json * string) :=
  match fuel with
  | O => None
  | S fuel' =>
      match skip_ws s with
      | EmptyString => None
      | String c r =>
          if negb (Ascii.eqb c "034") then None
          else
            match take_string r with
            | None => None
            | Some (key, r1) =>
                match skip_ws r1 with
                | EmptyString => None
                | String c1 r2 =>
                    if negb (Ascii.eqb c1 ":") then None
                    else
                      match value fuel' r2 with
                      | None => None
                      | Some (v, r3) =>
                          match skip_ws r3 with
                          | EmptyString => None
                          | String c3 r4 =>
                              if Ascii.eqb c3 "," then members fuel' r4 ((key, v) :: acc)
                              else if Ascii.eqb c3 "}"
                                   then Some (JObj (rev ((key, v) :: acc)), r4)
                                   else None
                          end
                      end
                end
            end
      end
  end.

Definition loads (s : string) : option json :=
  match value (2 * String.length s + 2) s with
  | Some (v, rest) =>
      match skip_ws rest with
      | EmptyString => Some v
      | String _ _ => None
      end
  | None => None
  end.

End MiniJson.

(** ** Concrete scenarios *)

Module Scenario.

Definition the_config : config :=
  Config "10.28.228.101" 31788 "root" "/home/ar/gpu.pem" "/data/ar_folder"
         "/data/py310/bin/activate".

(** The key file is on disk, nothing else matters locally. *)
Definition start : state :=
  State {[ "/home/ar/gpu.pem" := "PRIVATE KEY" ]} [] [].

(** One extracted upload: [/tmp/up/extracted] with its entries. *)
Definition listing (entries : list string) (d : string) : list string :=
  if String.eqb d "/tmp/up/extracted" then entries else [].

(** A world in which the extracted root holds [entries] and the subprocesses
    answer as given; the scripts of stage 2 are not present locally, so the
    subprocesses of one pipeline run are, in order: 0 the upload of the
    bundle, 1 the remote extraction, 2 the model run, 3 the download. *)
Definition make (c : config) (entries : list string)
    (run : nat -> list string -> run_result)
    (payload : nat -> option string)
    (pop : nat -> list string -> popen_result) : world :=
  World c "/srv/app" 1768285041960
    (fun d => String.eqb d "/tmp/up/extracted")
    (listing entries)
    (fun _ => [])
    "/srv/gpu_server"
    (fun n suffix => "/tmp/tmp" +:+ str_int (Z.of_nat n) +:+ suffix)
    (fun _ _ => inr "TARBALL")
    run payload pop
    MiniJson.loads
    (fun _ => "Traceback (most recent call last): ...").

Definition run_ok (_ : nat) (_ : list string) : run_result :=
  RunExited 0 EmptyString EmptyString.

Definition no_payload (_ : nat) : option string := None.

Definition popen_ok (output : string) (_ : nat) (_ : list string) : popen_result :=
  PopenExited output 0.

(** [{"cup_coordinates": <cup>}] and [{"cup_coordinates": <cup>, "rotation_axis": <rot>}] *)
Definition doc_cup (cup : string) : string :=
  "{" +:+ dquote +:+ "cup_coordinates" +:+ dquote +:+ ": " +:+ cup +:+ "}".

Definition doc_cup_rot (cup rot : string) : string :=
  "{" +:+ dquote +:+ "cup_coordinates" +:+ dquote +:+ ": " +:+ cup +:+ ", " +:+
  dquote +:+ "rotation_axis" +:+ dquote +:+ ": " +:+ rot +:+ "}".

(** Everything succeeds and the result file holds [document]. *)
Definition downloaded (document : string) : world :=
  make the_config ["session_1000"] run_ok (fun _ => Some document)
       (popen_ok ("loading model" +:+ nl +:+ "done" +:+ nl)).

(** The download is refused after a model run that printed [output]. *)
Definition download_refused (output : string) : world :=
  make the_config ["session_1000"]
       (fun n _ => if Nat.eqb n 3
                   then RunExited 1 EmptyString "scp: /data/ar_folder/session_1000_result.json: No such file or directory"
                   else RunExited 0 EmptyString EmptyString)
       no_payload (popen_ok output).

(** The model run, subprocess 2, ends with status [rc] after printing [output]. *)
Definition model_fails (output : string) (rc : Z) : world :=
  make the_config ["session_1000"] run_ok no_payload
       (fun n _ => if Nat.eqb n 2 then PopenExited output rc
                   else PopenExited EmptyString 0).

(** Every transfer meets [r]. *)
Definition transfer_meets (c : config) (r : run_result) : world :=
  make c ["session_1000"] (fun _ _ => r) no_payload (popen_ok EmptyString).

(** The extracted root of the scenarios and the session it holds. *)
Definition root : string := "/tmp/up/extracted".

(** A transcript with a JSON document on a line of its own. *)
Definition noisy_output : string :=
  "loading model" +:+ nl +:+ doc_cup "[1.0, 2.0, 3.0]" +:+ nl +:+ "done".

(** A transcript that holds two JSON documents, each on a line of its own. *)
Definition two_documents_output : string :=
  doc_cup "[1.0, 2.0, 3.0]" +:+ nl +:+
  "{" +:+ dquote +:+ "status" +:+ dquote +:+ ": " +:+ dquote +:+ "ok" +:+ dquote +:+ "}" +:+ nl.

(** What scp prints when the host refuses the connection. *)
Definition refused : string :=
  "ssh: connect to host 10.28.228.101 port 31788: Connection refused".

(** The configuration with the remote user left empty. *)
Definition no_user_config : config :=
  Config "10.28.228.101" 31788 EmptyString "/home/ar/gpu.pem" "/data/ar_folder"
         "/data/py310/bin/activate".

(** A start in which the key file is not on disk. *)
Definition no_key_file : state := State ∅ [] [].

(** An extracted root with several entries. *)
Definition several_entries : world :=
  make the_config ["notes.txt"; "session_1000"; "session_2000.jsonl"]
       run_ok no_payload (popen_ok EmptyString).

(** An extracted root that holds one [.jsonl] file and nothing else. *)
Definition jsonl_only : world :=
  make the_config ["session_42.jsonl"] run_ok no_payload (popen_ok EmptyString).

(** A model that prints carriage returns, blank lines and trailing blanks. *)
Definition untidy_model : world :=
  make the_config ["session_1000"] run_ok no_payload
       (popen_ok ("loading model  " +:+ String "013" nl +:+ String "013" nl +:+
                  "  done " +:+ nl)).

End Scenario.

(** ** Reference definitions, in the words of the specification *)

(** An entry of a directory that matches [session_*]. *)
Definition is_session_entry (name : string) : bool := startswith "session_" name.

(** Section 4.1, cases 1 to 4, in its words, over the entries of the
    extracted root: a subdirectory matching [session_*] gives its name;
    else a file matching [*.jsonl] whose name is [session_<id>.jsonl] gives
    [session_<id>]; else, with a [.jsonl] file of another name or with no
    marker at all, the name is made from the clock. *)
Definition resolve_by_spec (is_dir : string -> bool) (entries : list string) (now_ms : Z)
  : string :=
  match List.find (fun name => is_session_entry name && is_dir name) entries with
  | Some subdirectory => subdirectory
  | None =>
      match List.find (fun name => Glob.fnmatch "*.jsonl" name && negb (is_dir name) &&
                                   is_session_entry name)
                      entries with
      | Some file => drop_last 6 file
      | None => "session_" +:+ str_int now_ms
      end
  end.

(** The directory [glob] lists for the patterns under [root]. *)
Definition listed_dir (root : string) : string :=
  let d := PosixPath.dirname (PosixPath.join root "session_*") in
  if String.eqb d EmptyString then "." else d.

(** Directory entries are file names: not empty, no slash inside. *)
Definition file_name (name : string) : Prop :=
  name <> EmptyString /\ has_char "/" name = false.

Definition listings_hold_file_names (w : world) : Prop :=
  forall d name, In name (w_listdir w d) -> file_name name.

(** Section 4.4, in its words: the two fields of a decoded object,
    [cup_coordinates] defaulting to zeros and [rotation_axis] to [None]. *)
Definition fields_of (members : pydict) : json * json :=
  (match dict_get "cup_coordinates" members with
   | Some cup => cup
   | None => zero_coordinates
   end,
   match dict_get "rotation_axis" members with
   | Some axis => axis
   | None => JNull
   end).

(** The fallback path: decode the brace-delimited substring of the output
    and read the two fields off it; default when there is no such substring
    or it does not decode to an object. *)
Definition fallback_result (w : world) (output : string) : json * json :=
  match re_search_braces output with
  | Some matched =>
      match w_json_loads w matched with
      | Some (JObj members) => fields_of members
      | _ => (zero_coordinates, JNull)
      end
  | None => (zero_coordinates, JNull)
  end.

(** The pair was read, as it stands, off the object that [text] decodes to. *)
Definition read_off (w : world) (text : string) (parsed : json * json) : Prop :=
  exists members,
    w_json_loads w text = Some (JObj members) /\ parsed = fields_of members.

(** The result file of the session [name] as stage 4, started in [s], reads
    it: the download of [<work_dir>/<name>_result.json] into the temporary
    file has returned, and [content] is what that file then holds. *)
Definition result_file_holds (w : world) (name : string) (s : state) (content : string)
  : Prop :=
  let local := w_tmpname w (length (tmp_made s)) ".json" in
  let remote :=
    PosixPath.join (GPU_SERVER_WORK_DIR (w_config w)) (name +:+ "_result.json") in
  let s1 := State (<[local:=EmptyString]> (files s)) (spawned s) (tmp_made s ++ [local]) in
  exists s2,
    download_from_gpu_server w remote local s1 = (Ret tt, s2) /\
    files s2 !! local = Some content.

(** The text a parsed result can come from: the content of the result file,
    or the span of the captured output from its first opening brace to its
    last closing brace. *)
Definition decoded_text (w : world) (name output : string) (s : state) (text : string)
  : Prop :=
  result_file_holds w name s text \/ re_search_braces output = Some text.

(** The three pieces of advice an error message can carry (section 4.2):
    check the VPN, check that the GPU server runs, check the network. *)
Definition advises_vpn (msg : string) : bool := contains "VPN이 켜져 있는지 확인" msg.
Definition advises_host (msg : string) : bool := contains "GPU 서버가 실행 중인지 확인" msg.
Definition advises_network (msg : string) : bool := contains "네트워크 연결 상태 확인" msg.

(** The configuration guard passes: host and key are set and the key file
    is on disk. *)
Definition configured (w : world) (s : state) : Prop :=
  GPU_SERVER_HOST (w_config w) <> EmptyString /\
  GPU_SERVER_SSH_KEY (w_config w) <> EmptyString /\
  (is_Some (files s !! PosixPath.abspath (w_cwd w) (GPU_SERVER_SSH_KEY (w_config w))) \/
   w_isdir w (PosixPath.abspath (w_cwd w) (GPU_SERVER_SSH_KEY (w_config w))) = true).

(** [ssh_key_normalized] *)
Definition normalized_key (w : world) : string :=
  replace_char backslash "/" (PosixPath.abspath (w_cwd w) (GPU_SERVER_SSH_KEY (w_config w))).

(** The state once one more subprocess has been started. *)
Definition started (cmd : list string) (s : state) : state :=
  State (files s) (spawned s ++ [cmd]) (tmp_made s).

(** The names tempfile picks in a pipeline run started in [s]: the bundle
    first, the result file second. *)
Definition bundle_path (w : world) (s : state) : string :=
  w_tmpname w (length (tmp_made s)) ".tar.gz".

Definition result_path (w : world) (s : state) : string :=
  w_tmpname w (S (length (tmp_made s))) ".json".

(** The test of line 201: the stripped line is not empty. *)
Definition nonblank (line : string) : bool := negb (String.eqb line EmptyString).

(** The advice in a text, piece by piece. *)
Definition advice (text : string) : bool * bool * bool :=
  (advises_vpn text, advises_host text, advises_network text).

(** Section 4.2 and 7, in their words: a connectivity error names the host
    and port it could not reach.  Around them stand the words of the program
    itself, [lead] and [words], and after these what the transfer printed:
    [trail], empty after a timeout.  The error carries the advice [vpn],
    [host], [network] when the words of the program hold these pieces and no
    other: a flag that is [false] says that the piece is absent. *)
Definition reports_connectivity (c : config) (r : outcome unit) (trail : string)
    (vpn host network : bool) : Prop :=
  exists lead words,
    r = Raise (Exn Exception_ (lead +:+ host_port c +:+ words +:+ trail)) /\
    advice lead = (false, false, false) /\
    advice words = (vpn, host, network).

(** A transfer error carries the raw diagnostic text after a fixed label. *)
Definition reports_transfer_error (label diag : string) (r : outcome unit) : Prop :=
  r = Raise (Exn Exception_ (label +:+ diag)).

(** The state after a download: one more subprocess, and whatever the
    transfer left in its target. *)
Definition downloaded_into (w : world) (cmd : list string) (target : string) (s : state)
  : state :=
  State (match w_scp_payload w (length (spawned s)) with
         | Some content => <[target := content]> (files s)
         | None => files s
         end)
        (spawned s ++ [cmd]) (tmp_made s).

(** ** Relations between the state before and after a computation *)

(** A computation keeps a relation between the state it starts in and the
    state it ends in, whether it returns or raises. *)
Definition keeps {A} (R : state -> state -> Prop) (c : M A) : Prop :=
  forall s, R s (snd (c s)).

(** Nothing local changed: same files, same temporary files. *)
Definition same_local (s s' : state) : Prop :=
  files s' = files s /\ tmp_made s' = tmp_made s.


From Stdlib Require DecimalZ DecimalPos.

(** ** The HTTP handler: [process_session] and [health_check] *)

(** What the handler answers: the body of a 200 response, or the
    [HTTPException] it raises. *)
Inductive http_response : Type :=
| Response (body : pydict)
| HTTPError (status_code : Z) (detail : json).

(** What the handler meets on the local disk, beside the [world]. *)
Record upload_host : Type := UploadHost {
  h_open_wb : string -> option string;                  (* open(path, "wb"): the OSError, if any *)
  h_unzip : string -> string + list (string * string)   (* extractall: inl error, inr the regular
                                                            files it writes as (path, content),
                                                            the path relative to the folder and
                                                            as zipfile cleans it: no empty, "."
                                                            or ".." component *)
}.

(** Lines 414-417. *)
Definition health_check : pydict :=
  [("status", JStr "ok"); ("message", JStr "Server is running")].

(** [tempfile.TemporaryDirectory()]: a fresh directory under a name of
    tempfile's choosing. *)
Definition temporary_directory (w : world) : M string :=
  fun s =>
    let name := w_tmpname w (length (tmp_made s)) EmptyString in
    (Ret name, State (files s) (spawned s) (tmp_made s ++ [name])).

(** [with open(p, "wb") as f: f.write(content)] *)
Definition open_write (h : upload_host) (p content : string) : M unit :=
  fun s =>
    match h_open_wb h p with
    | Some msg => (Raise (Exn OSError msg), s)
    | None => (Ret tt, State (<[p := content]> (files s)) (spawned s) (tmp_made s))
    end.

(** A regular file stands at [p], under whatever spelling of that path it
    was written: [<dir>/./extracted] and [<dir>/extracted] are one place. *)
Definition stands_at (w : world) (s : state) (p : string) : bool :=
  existsb (fun kv : string * string =>
             String.eqb (PosixPath.abspath (w_cwd w) kv.1) (PosixPath.abspath (w_cwd w) p))
          (map_to_list (files s)).

(** [os.makedirs(p, exist_ok=True)] in a directory that exists: it fails
    when a regular file stands at [p]. *)
Definition os_makedirs (w : world) (p : string) : M unit :=
  fun s =>
    if stands_at w s p
    then (Raise (Exn OSError ("[Errno 17] File exists: '" +:+ p +:+ "'")), s)
    else (Ret tt, s).

(** The files of an archive written under [dir]. *)
Fixpoint write_members (dir : string) (members : list (string * string))
    (fs : gmap string string) : gmap string string :=
  match members with
  | [] => fs
  | (name, content) :: rest =>
      write_members dir rest (<[PosixPath.join dir name := content]> fs)
  end.

(** [with zipfile.ZipFile(zip_path, "r") as zip_ref: zip_ref.extractall(dir)] *)
Definition zip_extractall (h : upload_host) (zip_path dir : string) : M unit :=
  fun s =>
    match files s !! zip_path with
    | None => (Raise (Exn FileNotFoundError zip_path), s)
    | Some bytes =>
        match h_unzip h bytes with
        | inl msg => (Raise (Exn Exception_ msg), s)
        | inr members =>
            (Ret tt, State (write_members dir members (files s)) (spawned s) (tmp_made s))
        end
    end.

(** The path lies inside the directory. *)
Definition under (w : world) (dir p : string) : bool :=
  startswith (dir +:+ "/") (PosixPath.abspath (w_cwd w) p).

(** Leaving the [with] block of the temporary directory: everything inside
    it is deleted. *)
Definition cleanup_directory (w : world) (dir : string) : M unit :=
  fun s =>
    (Ret tt,
     State (filter (fun kv : string * string => under w dir kv.1 = false) (files s))
           (spawned s) (tmp_made s)).

(** [sorted(names)] *)
Fixpoint insert_sorted (x : string) (l : list string) : list string :=
  match l with
  | [] => [x]
  | y :: l' => if String.leb x y then x :: l else y :: insert_sorted x l'
  end.

Definition sorted (l : list string) : list string := fold_right insert_sorted [] l.

(** Lines 455-460: run the pipeline on the folder and turn its envelope into
    the answer, or into the [HTTPException] to raise.  A missing [success]
    key is a [KeyError], which the handler does not tell from any other
    exception. *)
Definition answer_for (w : world) (session_folder : string) : M (pydict + Z * json) :=
  do result <- process_session_on_gpu_server w session_folder;
  match dict_get "success" result with
  | None => raise Exception_ "'success'"
  | Some ok =>
      if truthy ok then ret (inl result)
      else ret (inr (500%Z,
                     match dict_get "error" result with
                     | Some detail => detail
                     | None => JStr "처리 실패"
                     end))
  end.

(** Lines 442-460: find the session folder and process it. *)
Definition locate_and_process (w : world) (extract_dir : string) : M (pydict + Z * json) :=
  let session_folders := sorted (glob w (PosixPath.join extract_dir "session_*")) in
  match session_folders with
  | [] =>
      let jsonl_files := glob w (PosixPath.join extract_dir "*.jsonl") in
      match jsonl_files with
      | [] => ret (inr (400%Z, JStr "세션 폴더를 찾을 수 없습니다"))
      | _ :: _ => answer_for w extract_dir
      end
  | first :: _ => answer_for w first
  end.

(** Lines 428-460: the body of the [with] block. *)
Definition handle_upload (w : world) (h : upload_host)
    (temp_dir filename content : string) : M (pydict + Z * json) :=
  let zip_path := PosixPath.join temp_dir filename in
  open_write h zip_path content >>
  let extract_dir := PosixPath.join temp_dir "extracted" in
  os_makedirs w extract_dir >>
  zip_extractall h zip_path extract_dir >>
  locate_and_process w extract_dir.

(** Lines 419-467.  [filename] is [file.filename], which may be [None]. *)
Definition process_session (w : world) (h : upload_host)
    (filename : option string) (content : string) (s : state) : http_response * state :=
  match filename with
  | None => (HTTPError 400 (JStr "Empty filename"), s)
  | Some name =>
      if String.eqb name EmptyString then (HTTPError 400 (JStr "Empty filename"), s)
      else
        match (do temp_dir <- temporary_directory w;
               try_finally (handle_upload w h temp_dir name content)
                           (cleanup_directory w temp_dir)) s with
        | (Ret (inl result), s') => (Response result, s')
        | (Ret (inr (status_code, detail)), s') => (HTTPError status_code detail, s')
        | (Raise e, s') => (HTTPError 500 (JStr (exn_str e)), s')
        end
  end.

(** ** The settings: [config.py] *)

(** Every module-level name of [config.py]; the six of the GPU server are
    the [config] the pipeline reads. *)
Record settings : Type := Settings {
  SERVER_HOST : string;
  SERVER_PORT : Z;
  CORS_ORIGINS : list string;
  MAX_UPLOAD_SIZE : Z;
  LOG_LEVEL : string;
  gpu_server : config
}.

(** [os.getenv(key, default)] *)
Definition os_getenv (env : gmap string string) (key fallback : string) : string :=
  match env !! key with
  | Some value => value
  | None => fallback
  end.

(** The module body, top to bottom.  [int_of] is [int(text)], [None] for the
    [ValueError] of a text that is no integer; the first such error ends the
    import. *)
Definition load_config (int_of : string -> option Z) (env : gmap string string)
  : option settings :=
  let server_host := os_getenv env "SERVER_HOST" "0.0.0.0" in
  match int_of (os_getenv env "SERVER_PORT" "5000") with
  | None => None
  | Some server_port =>
      match int_of (os_getenv env "MAX_UPLOAD_SIZE" "104857600") with
      | None => None
      | Some max_upload_size =>
          let log_level := os_getenv env "LOG_LEVEL" "INFO" in
          let host := os_getenv env "GPU_SERVER_HOST" "10.28.228.101" in
          match int_of (os_getenv env "GPU_SERVER_PORT" "31788") with
          | None => None
          | Some port =>
              Some (Settings server_host server_port ["*"] max_upload_size log_level
                      (Config host port
                         (os_getenv env "GPU_SERVER_USER" "root")
                         (os_getenv env "GPU_SERVER_SSH_KEY"
                            "C:/Users/hyoun/image_segmentation.pem")
                         (os_getenv env "GPU_SERVER_WORK_DIR"
                            "/data/ephemeral/home/measure_volume_by_multiview/project/ar_folder")
                         (os_getenv env "GPU_SERVER_VENV_PATH"
                            "/data/ephemeral/home/py310/bin/activate")))
          end
      end
  end.

(** ** Reference definitions for the further properties *)

(** The state stage 1 ends in, started in [s]: the bundle made and gone,
    the subprocesses [cmds] started. *)
Definition after_bundle (w : world) (s : state) (cmds : list (list string)) : state :=
  State (delete (bundle_path w s) (files s)) (spawned s ++ cmds)
        (tmp_made s ++ [bundle_path w s]).

(** Where stage 2 looks for a script locally, and where it puts it. *)
Definition script_local (w : world) (script : string) : string :=
  PosixPath.join (w_gpu_server_dir w) script.

Definition script_remote (w : world) (script : string) : string :=
  PosixPath.join (GPU_SERVER_WORK_DIR (w_config w)) script.

(** [os.path.exists(p)] holds. *)
Definition on_disk (w : world) (s : state) (p : string) : Prop :=
  is_Some (files s !! p) \/ w_isdir w p = true.

(** The program a subprocess runs is [scp] or [ssh]. *)
Definition remote_tool (cmd : list string) : Prop :=
  exists args, cmd = "scp" :: args \/ cmd = "ssh" :: args.

(** Between two states at most [k] subprocesses were started, each of them
    [scp] or [ssh]. *)
Definition started_at_most (k : nat) (s s' : state) : Prop :=
  exists cmds,
    spawned s' = spawned s ++ cmds /\ length cmds <= k /\ Forall remote_tool cmds.

(** The temporary directory of an upload that arrives in [s], the archive
    stored in it under the name the client gave, and the folder the archive
    is unpacked to. *)
Definition upload_dir (w : world) (s : state) : string :=
  w_tmpname w (length (tmp_made s)) EmptyString.

Definition archive_path (w : world) (s : state) (name : string) : string :=
  PosixPath.join (upload_dir w s) name.

Definition unpack_dir (w : world) (s : state) : string :=
  PosixPath.join (upload_dir w s) "extracted".

(** The state once the temporary directory is made, once the archive is
    stored, and once its members are unpacked. *)
Definition arrived (w : world) (s : state) : state :=
  State (files s) (spawned s) (tmp_made s ++ [upload_dir w s]).

Definition received (w : world) (s : state) (name content : string) : state :=
  State (<[archive_path w s name := content]> (files s)) (spawned s)
        (tmp_made s ++ [upload_dir w s]).

Definition unpacked (w : world) (s : state) (name content : string)
    (members : list (string * string)) : state :=
  State (write_members (unpack_dir w s) members (files (received w s name content)))
        (spawned s) (tmp_made s ++ [upload_dir w s]).

(** The state with the temporary directory swept. *)
Definition swept (w : world) (dir : string) (s : state) : state :=
  State (filter (fun kv : string * string => under w dir kv.1 = false) (files s))
        (spawned s) (tmp_made s).

(** What the client sees of the end of the handler's body. *)
Definition response_of (r : outcome (pydict + Z * json)) : http_response :=
  match r with
  | Ret (inl result) => Response result
  | Ret (inr (status_code, detail)) => HTTPError status_code detail
  | Raise e => HTTPError 500 (JStr (exn_str e))
  end.

(** The text of the [FileExistsError] of [os.makedirs]. *)
Definition file_exists_msg (p : string) : string :=
  "[Errno 17] File exists: '" +:+ p +:+ "'".

(** ** Scenarios of an upload *)

Module Upload.

(** The temporary directory of the scenarios, the archive in it and the
    folder the archive is unpacked to. *)
Definition temp_dir : string := "/tmp/tmp0".
Definition extract_dir : string := "/tmp/tmp0/extracted".

(** A disk that takes every write, and an archive that holds [members]. *)
Definition host (members : list (string * string)) : upload_host :=
  UploadHost (fun _ => None) (fun _ => inr members).


(** A world in which the unpacked archive shows [top] at its top level and
    [inner] inside [session_1000]. *)
Definition make (top inner : list string)
    (run : nat -> list string -> run_result)
    (payload : nat -> option string)
    (pop : nat -> list string -> popen_result) : world :=
  World Scenario.the_config "/srv/app" 1768285041960
    (fun d => String.eqb d extract_dir || String.eqb d "/tmp/tmp0/extracted/session_1000")
    (fun d => if String.eqb d extract_dir then top
              else if String.eqb d "/tmp/tmp0/extracted/session_1000" then inner
              else [])
    (fun _ => [])
    "/srv/gpu_server"
    (fun n suffix => "/tmp/tmp" +:+ str_int (Z.of_nat n) +:+ suffix)
    (fun _ _ => inr "TARBALL")
    run payload pop
    MiniJson.loads
    (fun _ => "Traceback (most recent call last): ...").

(** Everything succeeds and the result file holds three coordinates. *)
Definition all_well (top inner : list string) : world :=
  make top inner Scenario.run_ok
       (fun _ => Some (Scenario.doc_cup "[0.1, 0.2, 0.3]"))
       (Scenario.popen_ok ("loading model" +:+ nl +:+ "done" +:+ nl)).

(** The model run, subprocess 2, ends with status 3. *)
Definition model_fails (top inner : list string) : world :=
  make top inner Scenario.run_ok Scenario.no_payload
       (fun n _ => if Nat.eqb n 2 then PopenExited "CUDA out of memory" 3
                   else PopenExited EmptyString 0).

End Upload.

(** ** Scenarios of the stages *)

Module Stages.

(** The world [w], but packing a folder fails. *)
Definition unreadable_folder (w : world) (msg : string) : world :=
  World (w_config w) (w_cwd w) (w_now_ms w) (w_isdir w) (w_listdir w) (w_glob_dirs w)
        (w_gpu_server_dir w) (w_tmpname w) (fun _ _ => inl msg)
        (w_run w) (w_scp_payload w) (w_popen w) (w_json_loads w) (w_format_exc w).

(** The world [w], read [delay] milliseconds later. *)
Definition later (w : world) (delay : Z) : world :=
  World (w_config w) (w_cwd w) (w_now_ms w + delay) (w_isdir w) (w_listdir w) (w_glob_dirs w)
        (w_gpu_server_dir w) (w_tmpname w) (w_tar w)
        (w_run w) (w_scp_payload w) (w_popen w) (w_json_loads w) (w_format_exc w).

(** The configuration with the remote host left empty. *)
Definition no_host_config : config :=
  Config EmptyString 31788 "root" "/home/ar/gpu.pem" "/data/ar_folder"
         "/data/py310/bin/activate".

(** A start in which the key file and both scripts of stage 2 are on disk. *)
Definition scripts_on_disk : state :=
  State (<["/srv/gpu_server/process_and_save_result.py" := "import json"]>
           (<["/srv/gpu_server/inference_with_pose.py" := "import torch"]>
              (files Scenario.start)))
        [] [].

(** The result document of the scenarios, and what it decodes to. *)
Definition document : string := Scenario.doc_cup "[0.1, 0.2, 0.3]".

Definition document_members : pydict :=
  [("cup_coordinates", JArr [JFloat 1 (-1); JFloat 2 (-1); JFloat 3 (-1)])].

(** [int(text)] for the plain decimal texts of the scenarios. *)
Definition decimal (text : string) : option Z :=
  option_map Z.of_int (NilZero.int_of_string text).

(** The world [w] under the configuration [c]. *)
Definition configured_by (w : world) (c : config) : world :=
  World c (w_cwd w) (w_now_ms w) (w_isdir w) (w_listdir w) (w_glob_dirs w)
        (w_gpu_server_dir w) (w_tmpname w) (w_tar w)
        (w_run w) (w_scp_payload w) (w_popen w) (w_json_loads w) (w_format_exc w).

(** An environment that sets the host to the empty string. *)
Definition empty_host_env : gmap string string :=
  {[ "GPU_SERVER_HOST" := EmptyString ]}.

End Stages.


(** * Properties *)

(** ** Strings *)

Section StringFacts.

Lemma str_app_cons c a b : String c a +:+ b = String c (a +:+ b).
Proof. reflexivity. Qed.

Lemma str_app_empty_r s : s +:+ EmptyString = s.
Proof. induction s as [|c s IH]; [reflexivity|]. rewrite str_app_cons, IH. reflexivity. Qed.

Lemma str_app_assoc a b c : (a +:+ b) +:+ c = a +:+ (b +:+ c).
Proof. induction a as [|x a IH]; [reflexivity|]. rewrite !str_app_cons, IH. reflexivity. Qed.

Lemma startswith_app pre s : startswith pre (pre +:+ s) = true.
Proof.
  induction pre as [|c pre IH]; [reflexivity|].
  rewrite str_app_cons. simpl. rewrite Ascii.eqb_refl. exact IH.
Qed.

Lemma startswith_inv pre s : startswith pre s = true -> exists r, s = pre +:+ r.
Proof.
  revert s. induction pre as [|c pre IH]; intros s H.
  - exists s. reflexivity.
  - destruct s as [|d s]; [discriminate|]. simpl in H.
    apply andb_true_iff in H as [Hc Hs]. apply Ascii.eqb_eq in Hc. subst d.
    destruct (IH _ Hs) as [r ->]. exists r. reflexivity.
Qed.

Lemma endswith_app a suf : endswith suf (a +:+ suf) = true.
Proof.
  induction a as [|c a IH].
  - destruct suf; simpl; rewrite ?Ascii.eqb_refl, ?String.eqb_refl; reflexivity.
  - rewrite str_app_cons. cbn [endswith]. rewrite IH.
    destruct (String.eqb _ _); reflexivity.
Qed.

Lemma endswith_inv suf s : endswith suf s = true -> exists a, s = a +:+ suf.
Proof.
  induction s as [|c s IH]; intros H.
  - simpl in H. destruct suf; [exists EmptyString; reflexivity|discriminate].
  - cbn [endswith] in H. destruct (String.eqb (String c s) suf) eqn:E.
    + apply String.eqb_eq in E. exists EmptyString. rewrite <- E. reflexivity.
    + destruct (IH H) as [a ->]. exists (String c a). reflexivity.
Qed.

Lemma has_char_app c a b : has_char c (a +:+ b) = has_char c a || has_char c b.
Proof.
  induction a as [|x a IH]; [reflexivity|].
  rewrite str_app_cons. simpl. rewrite IH. apply orb_assoc.
Qed.

Lemma str_length_app a b : String.length (a +:+ b) = String.length a + String.length b.
Proof. induction a as [|x a IH]; [reflexivity|]. rewrite str_app_cons. simpl. rewrite IH. reflexivity. Qed.

Lemma substring_prefix a b : String.substring 0 (String.length a) (a +:+ b) = a.
Proof.
  induction a as [|x a IH].
  - destruct b; reflexivity.
  - rewrite str_app_cons. simpl. f_equal. exact IH.
Qed.

Lemma drop_last_app a suf : drop_last (String.length suf) (a +:+ suf) = a.
Proof.
  unfold drop_last. rewrite str_length_app.
  replace (String.length a + String.length suf - String.length suf) with (String.length a) by lia.
  apply substring_prefix.
Qed.

Lemma startswith_nonempty c pre s : startswith (String c pre) s = true -> s <> EmptyString.
Proof. destruct s; [discriminate|congruence]. Qed.

End StringFacts.

(** ** Paths and patterns *)

Section PathFacts.
Import PosixPath.

Lemma cut_no_slash t : has_char sep t = false -> cut t = (EmptyString, t).
Proof.
  induction t as [|c t IH]; intros H; [reflexivity|].
  cbn [has_char] in H. apply orb_false_iff in H as [Hc Ht].
  cbn [cut]. rewrite (IH Ht), Hc. reflexivity.
Qed.

Lemma cut_app_slash a t :
  has_char sep t = false ->
  cut (a +:+ String sep t) = (a +:+ String sep EmptyString, t).
Proof.
  intros Ht. induction a as [|c a IH].
  - change (EmptyString +:+ String sep t) with (String sep t).
    cbn [cut]. rewrite (cut_no_slash _ Ht). reflexivity.
  - rewrite !str_app_cons. cbn [cut]. rewrite IH.
    destruct (Ascii.eqb c sep); [reflexivity|].
    destruct a; reflexivity.
Qed.

Lemma no_slash_not_absolute b : has_char sep b = false -> startswith "/" b = false.
Proof.
  destruct b as [|c b]; [reflexivity|]. cbn [has_char startswith]. intros H.
  apply orb_false_iff in H as [Hc _]. unfold sep in Hc.
  rewrite Ascii.eqb_sym, Hc. reflexivity.
Qed.

(** Joining a slash-free name onto a folder and cutting again gives the name
    back; the head depends on the folder alone. *)
Lemma cut_join a :
  exists h, forall b, has_char sep b = false -> cut (join a b) = (h, b).
Proof.
  unfold join. destruct (String.eqb a EmptyString) eqn:Ea.
  - exists EmptyString. intros b Hb. rewrite (no_slash_not_absolute _ Hb).
    apply String.eqb_eq in Ea. subst a. cbn. apply cut_no_slash, Hb.
  - destruct (endswith "/" a) eqn:Es.
    + destruct (endswith_inv _ _ Es) as [a0 ->]. exists (a0 +:+ "/").
      intros b Hb. rewrite (no_slash_not_absolute _ Hb). cbn [orb].
      rewrite str_app_assoc. apply (cut_app_slash a0 b Hb).
    + exists (a +:+ "/"). intros b Hb. rewrite (no_slash_not_absolute _ Hb).
      cbn [orb]. apply (cut_app_slash a b Hb).
Qed.

Lemma basename_join a b : has_char sep b = false -> basename (join a b) = b.
Proof.
  intros Hb. destruct (cut_join a) as [h Hh]. unfold basename.
  rewrite (Hh _ Hb). reflexivity.
Qed.

Lemma split_join a :
  exists d, forall b, has_char sep b = false -> split (join a b) = (d, b).
Proof.
  destruct (cut_join a) as [h Hh]. exists (trim_head h). intros b Hb.
  unfold split. rewrite (Hh _ Hb). reflexivity.
Qed.

(** A pattern that ends in its only star matches the names it prefixes. *)
Lemma fnmatch_star_all n : Glob.fnmatch "*" n = true.
Proof.
  cbn. induction n as [|c n IH]; [reflexivity|].
  destruct (String.eqb (String c n) EmptyString); [reflexivity|exact IH].
Qed.

Lemma fnmatch_prefix_star pre n :
  has_char "*" pre = false ->
  Glob.fnmatch (pre +:+ "*") n = startswith pre n.
Proof.
  revert n. induction pre as [|c pre IH]; intros n H.
  - apply fnmatch_star_all.
  - cbn [has_char] in H. apply orb_false_iff in H as [Hc Hpre].
    rewrite str_app_cons. cbn [Glob.fnmatch startswith]. rewrite Hc.
    destruct n as [|d n]; [reflexivity|]. rewrite (IH _ Hpre). reflexivity.
Qed.

Lemma fnmatch_session n : Glob.fnmatch "session_*" n = startswith "session_" n.
Proof. apply (fnmatch_prefix_star "session_"). reflexivity. Qed.

Lemma session_not_hidden n : startswith "session_" n = true -> Glob.ishidden n = false.
Proof.
  destruct n as [|c n]; [discriminate|]. unfold Glob.ishidden.
  cbn [startswith]. destruct (Ascii.eqb "s" c) eqn:E; [|discriminate].
  apply Ascii.eqb_eq in E. subst c. reflexivity.
Qed.

Lemma glob1_In listing pat n :
  In n (Glob.glob1 listing pat) -> In n listing /\ Glob.fnmatch pat n = true.
Proof.
  unfold Glob.glob1. intros H. apply list_elem_of_In in H.
  apply list_elem_of_filter in H as [Hm H]. apply Is_true_true in Hm. split; [|exact Hm].
  destruct (Glob.ishidden pat).
  - apply list_elem_of_In, H.
  - apply list_elem_of_filter in H as [_ H]. apply list_elem_of_In, H.
Qed.

Lemma glob1_session_head listing :
  head (Glob.glob1 listing "session_*") = List.find is_session_entry listing.
Proof.
  unfold Glob.glob1. change (Glob.ishidden "session_*") with false. cbv iota.
  induction listing as [|n l IH]; [reflexivity|].
  cbn [List.find]. unfold is_session_entry at 1.
  rewrite filter_cons. destruct (startswith "session_" n) eqn:E.
  - rewrite decide_True by (rewrite (session_not_hidden _ E); exact I).
    rewrite filter_cons, decide_True by (rewrite fnmatch_session, E; exact I).
    reflexivity.
  - destruct (decide (Is_true (negb (Glob.ishidden n)))).
    + rewrite filter_cons, decide_False; [exact IH|].
      rewrite fnmatch_session, E. exact id.
    + exact IH.
Qed.

End PathFacts.

(** ** Session resolution *)

Section Resolution.
Import PosixPath.
Variable w : world.

Lemma basename_file_name n : file_name n -> basename n = n.
Proof. intros [_ Hn]. unfold basename. rewrite (cut_no_slash _ Hn). reflexivity. Qed.

Lemma dirname_split p : dirname p = fst (split p).
Proof. unfold dirname, split. destruct (cut p). reflexivity. Qed.

(** Whatever the folder, every path [glob] returns for a slash-free pattern
    ends in a listed name that matches the pattern. *)
Lemma glob_elements root pat p :
  has_char sep pat = false ->
  listings_hold_file_names w ->
  In p (glob w (join root pat)) ->
  exists d, In (basename p) (Glob.glob1 (w_listdir w d) pat).
Proof.
  intros Hpat Hw. unfold glob. destruct (split_join root) as [d Hd].
  rewrite (Hd _ Hpat). destruct (String.eqb d EmptyString).
  - intros Hin. exists ".". rewrite basename_file_name; [exact Hin|].
    apply glob1_In in Hin as [Hin _]. exact (Hw _ _ Hin).
  - intros Hin. apply in_flat_map in Hin as [d' [_ Hin]].
    apply in_map_iff in Hin as [n [<- Hn]]. exists d'.
    rewrite basename_join; [exact Hn|].
    apply glob1_In in Hn as [Hn _]. exact (proj2 (Hw _ _ Hn)).
Qed.

(** For a folder without wildcards, [glob] lists one directory. *)
Lemma glob_plain root pat :
  has_char sep pat = false ->
  Glob.has_magic (listed_dir root) = false ->
  (forall n, In n (w_listdir w (listed_dir root)) -> file_name n) ->
  map basename (glob w (join root pat)) = Glob.glob1 (w_listdir w (listed_dir root)) pat.
Proof.
  intros Hpat. unfold listed_dir, glob. rewrite dirname_split.
  destruct (split_join root) as [d Hd].
  rewrite (Hd "session_*" eq_refl), (Hd _ Hpat). cbn [fst].
  destruct (String.eqb d EmptyString); intros Hmagic Hnames.
  - assert (Hall : forall n, In n (Glob.glob1 (w_listdir w ".") pat) -> basename n = n).
    { intros n Hn. apply basename_file_name, Hnames. apply glob1_In in Hn. tauto. }
    induction (Glob.glob1 (w_listdir w ".") pat) as [|n l IH]; [reflexivity|].
    cbn [map]. rewrite (Hall n) by (left; reflexivity).
    f_equal. apply IH. intros m Hm. apply Hall. right. exact Hm.
  - rewrite Hmagic, andb_false_r. cbn [flat_map]. rewrite List.app_nil_r, map_map.
    assert (Hall : forall n, In n (Glob.glob1 (w_listdir w d) pat) -> basename (join d n) = n).
    { intros n Hn. apply basename_join. apply glob1_In in Hn as [Hn _].
      exact (proj2 (Hnames _ Hn)). }
    induction (Glob.glob1 (w_listdir w d) pat) as [|n l IH]; [reflexivity|].
    cbn [map]. rewrite (Hall n) by (left; reflexivity).
    f_equal. apply IH. intros m Hm. apply Hall. right. exact Hm.
Qed.

Lemma startswith_before c pre a b :
  has_char c pre = false ->
  startswith pre (a +:+ String c b) = true -> startswith pre a = true.
Proof.
  revert a. induction pre as [|p pre IH]; intros a Hc H; [reflexivity|].
  cbn [has_char] in Hc. apply orb_false_iff in Hc as [Hp Hpre].
  destruct a as [|x a].
  - change (EmptyString +:+ String c b) with (String c b) in H.
    cbn [startswith] in H. rewrite Hp in H. discriminate.
  - rewrite str_app_cons in H. cbn [startswith] in H |- *.
    apply andb_true_iff in H as [Hx H]. rewrite Hx. exact (IH _ Hpre H).
Qed.

(** [session_<id>.jsonl] without its last six characters is [session_<id>]. *)
Lemma session_jsonl_stem name :
  startswith "session_" name = true -> endswith ".jsonl" name = true ->
  exists stem, name = stem +:+ ".jsonl" /\ drop_last 6 name = stem /\
               startswith "session_" stem = true.
Proof.
  intros Hs He. destruct (endswith_inv _ _ He) as [stem ->]. exists stem.
  split; [reflexivity|]. split.
  - apply (drop_last_app stem ".jsonl").
  - apply (startswith_before "." "session_" stem "jsonl"); [reflexivity|exact Hs].
Qed.

Lemma synthesized_is_session : startswith "session_" (synthesized_name w) = true.
Proof. apply (startswith_app "session_"). Qed.

(** The name of lines 249-267 always begins with [session_]. *)
Lemma find_session_name_prefix root :
  listings_hold_file_names w ->
  startswith "session_" (find_session_name w root) = true.
Proof.
  intros Hw. unfold find_session_name.
  destruct (glob w (join root "session_*")) as [|first rest] eqn:Eg.
  - destruct (glob w (join root "*.jsonl")) as [|first rest] eqn:Ej;
      [apply synthesized_is_session|].
    destruct (startswith "session_" (basename first) && endswith ".jsonl" (basename first)) eqn:E;
      [|apply synthesized_is_session].
    apply andb_true_iff in E as [Hs He].
    destruct (session_jsonl_stem _ Hs He) as [stem [_ [-> H]]]. exact H.
  - destruct (glob_elements root "session_*" first eq_refl Hw) as [d Hd].
    { rewrite Eg. left. reflexivity. }
    apply glob1_In in Hd as [_ Hm]. rewrite fnmatch_session in Hm. exact Hm.
Qed.

End Resolution.

(** C9 -- every name session resolution produces begins with [session_];
    the emptiness check of line 269 never fires, so the base name of the
    extracted root is never used. *)
Theorem session_name_has_prefix (w : world) (path : string) (s : state) :
  listings_hold_file_names w ->
  exists root name,
    resolve_session w path s = (Ret (root, name), s) /\
    String.eqb (find_session_name w root) EmptyString = false /\
    name = find_session_name w root /\
    startswith "session_" name = true.
Proof.
  intros Hw. eexists _, _. split; [reflexivity|].
  set (root := if bool_decide _ then _ else _).
  pose proof (find_session_name_prefix w root Hw) as Hp.
  assert (E : String.eqb (find_session_name w root) EmptyString = false).
  { apply String.eqb_neq. exact (startswith_nonempty _ _ _ Hp). }
  unfold checked_session_name. rewrite E. auto.
Qed.

(** ** The captured output of a streaming run *)

Section Capture.

Lemma read_loop_filter pending acc :
  read_loop pending acc = acc ++ List.filter nonblank (map rstrip pending).
Proof.
  revert acc. induction pending as [|line rest IH]; intros acc.
  - cbn. rewrite List.app_nil_r. reflexivity.
  - cbn [read_loop map List.filter]. unfold nonblank at 1.
    destruct (negb (String.eqb (rstrip line) EmptyString)).
    + rewrite IH, <- List.app_assoc. reflexivity.
    + apply IH.
Qed.

Lemma captured_lines_filter output :
  captured_lines output =
  List.filter nonblank (map rstrip (readlines (universal_newlines output))).
Proof. unfold captured_lines. apply read_loop_filter. Qed.

Lemma lstrip_rev_eq r :
  lstrip_rev r =
  match r with
  | [] => []
  | b0 :: r1 =>
      if is_ascii_space b0 then lstrip_rev r1
      else match r1 with
           | [] => r
           | b1 :: r2 =>
               if is_space2 b0 b1 then lstrip_rev r2
               else match r2 with
                    | [] => r
                    | b2 :: r3 => if is_space3 b0 b1 b2 then lstrip_rev r3 else r
                    end
           end
  end.
Proof. destruct r; reflexivity. Qed.

(** One step of the stripping: it stops, or goes on from a shorter tail. *)
Lemma lstrip_rev_cases r :
  lstrip_rev r = r \/
  exists p r', r = p ++ r' /\ length r' < length r /\ lstrip_rev r = lstrip_rev r'.
Proof.
  rewrite (lstrip_rev_eq r). destruct r as [|b0 r1]; [left; reflexivity|].
  destruct (is_ascii_space b0).
  { right. exists [b0], r1. cbn. auto. }
  destruct r1 as [|b1 r2]; [left; reflexivity|].
  destruct (is_space2 b0 b1).
  { right. exists [b0; b1], r2. cbn. auto. }
  destruct r2 as [|b2 r3]; [left; reflexivity|].
  destruct (is_space3 b0 b1 b2).
  { right. exists [b0; b1; b2], r3. cbn. auto with arith. }
  left. reflexivity.
Qed.

Lemma lstrip_rev_idem r : lstrip_rev (lstrip_rev r) = lstrip_rev r.
Proof.
  remember (length r) as n eqn:Hn. revert r Hn.
  induction n as [n IH] using lt_wf_ind. intros r ->.
  destruct (lstrip_rev_cases r) as [E|(p & r' & _ & Hlt & E)].
  - rewrite E. exact E.
  - rewrite E. exact (IH _ Hlt r' eq_refl).
Qed.

Lemma lstrip_rev_suffix r : exists p, r = p ++ lstrip_rev r.
Proof.
  remember (length r) as n eqn:Hn. revert r Hn.
  induction n as [n IH] using lt_wf_ind. intros r ->.
  destruct (lstrip_rev_cases r) as [E|(p & r' & Hr & Hlt & E)].
  - exists []. rewrite E. reflexivity.
  - destruct (IH _ Hlt r' eq_refl) as [q Hq]. exists (p ++ q).
    rewrite E, <- List.app_assoc, <- Hq. exact Hr.
Qed.

Lemma rstrip_idem s : rstrip (rstrip s) = rstrip s.
Proof.
  unfold rstrip.
  rewrite list_ascii_of_string_of_list_ascii, rev_involutive, lstrip_rev_idem.
  reflexivity.
Qed.

Lemma has_char_In c s : has_char c s = true <-> In c (list_ascii_of_string s).
Proof.
  induction s as [|a s IH]; cbn [has_char list_ascii_of_string In].
  - split; [discriminate|tauto].
  - rewrite orb_true_iff, IH, Ascii.eqb_eq. tauto.
Qed.

Lemma list_ascii_app a b :
  list_ascii_of_string (a +:+ b) = list_ascii_of_string a ++ list_ascii_of_string b.
Proof.
  induction a as [|x a IH]; [reflexivity|].
  rewrite str_app_cons. cbn [list_ascii_of_string]. rewrite IH. reflexivity.
Qed.

(** Stripping removes characters, it never adds one. *)
Lemma has_char_rstrip c s : has_char c s = false -> has_char c (rstrip s) = false.
Proof.
  intros H. destruct (has_char c (rstrip s)) eqn:E; [|reflexivity].
  apply has_char_In in E. unfold rstrip in E.
  rewrite list_ascii_of_string_of_list_ascii in E. apply in_rev in E.
  destruct (lstrip_rev_suffix (rev (list_ascii_of_string s))) as [p Hp].
  assert (Hin : In c (list_ascii_of_string s)).
  { apply in_rev. rewrite Hp. apply in_or_app. right. exact E. }
  apply has_char_In in Hin. congruence.
Qed.

Lemma rstrip_newline body : rstrip (body +:+ nl) = rstrip body.
Proof.
  unfold rstrip. rewrite list_ascii_app, rev_app_distr. reflexivity.
Qed.

(** A line as [readline()] returns it holds a newline at its end only. *)
Lemma readlines_shape s :
  Forall (fun l => exists body,
            has_char "010" body = false /\ (l = body \/ l = body +:+ nl))
         (readlines s).
Proof.
  induction s as [|c s IH]; [constructor|].
  cbn [readlines]. destruct (Ascii.eqb c "010") eqn:Ec.
  - constructor; [|exact IH]. exists EmptyString. split; [reflexivity|].
    right. apply Ascii.eqb_eq in Ec. subst c. reflexivity.
  - destruct (readlines s) as [|l ls].
    + constructor; [|constructor]. exists (String c EmptyString). split; [|left; reflexivity].
      cbn [has_char]. rewrite Ec. reflexivity.
    + apply Forall_cons in IH as [(body & Hb & Hl) IH]. constructor; [|exact IH].
      exists (String c body). split.
      * cbn [has_char]. rewrite Ec, Hb. reflexivity.
      * destruct Hl as [->| ->]; [left|right]; reflexivity.
Qed.

Lemma split_lines_single a : has_char "010" a = false -> split_lines a = [a].
Proof.
  induction a as [|c a IH]; intros H; [reflexivity|].
  cbn [has_char] in H. apply orb_false_iff in H as [Hc Ha].
  cbn [split_lines]. rewrite Hc, (IH Ha). reflexivity.
Qed.

Lemma split_lines_app a rest :
  has_char "010" a = false ->
  split_lines (a +:+ nl +:+ rest) = a :: split_lines rest.
Proof.
  induction a as [|c a IH]; intros H; [reflexivity|].
  cbn [has_char] in H. apply orb_false_iff in H as [Hc Ha].
  rewrite str_app_cons. cbn [split_lines]. rewrite Hc, (IH Ha). reflexivity.
Qed.

(** Splitting the joined text at its newlines gives the lines back. *)
Lemma split_lines_join lines :
  lines <> [] ->
  Forall (fun l => has_char "010" l = false) lines ->
  split_lines (PyStr.join nl lines) = lines.
Proof.
  unfold PyStr.join. induction lines as [|l ls IH]; intros Hne Hall; [contradiction|].
  apply Forall_cons in Hall as [Hl Hls]. destruct ls as [|l' ls].
  - apply split_lines_single, Hl.
  - change (String.concat nl (l :: l' :: ls))
      with (l +:+ nl +:+ String.concat nl (l' :: ls)).
    rewrite (split_lines_app _ _ Hl), IH; [reflexivity|discriminate|exact Hls].
Qed.

(** What the loop keeps: stripped, not blank, free of newlines. *)
Lemma captured_lines_clean output :
  Forall (fun l => l <> EmptyString /\ rstrip l = l /\ has_char "010" l = false)
         (captured_lines output).
Proof.
  rewrite captured_lines_filter. apply List.Forall_forall. intros l Hl.
  apply List.filter_In in Hl as [Hin Hnb]. apply in_map_iff in Hin as [raw [<- Hraw]].
  split; [|split].
  - unfold nonblank in Hnb. apply negb_true_iff, String.eqb_neq in Hnb. exact Hnb.
  - apply rstrip_idem.
  - pose proof (readlines_shape (universal_newlines output)) as Hs.
    rewrite List.Forall_forall in Hs. destruct (Hs _ Hraw) as (body & Hb & [->| ->]).
    + apply has_char_rstrip, Hb.
    + rewrite rstrip_newline. apply has_char_rstrip, Hb.
Qed.

End Capture.

(** ** The configuration guard *)

Section Guard.
Variable w : world.

Lemma checked_ssh_key_ok s :
  configured w s -> checked_ssh_key w s = (Ret (normalized_key w), s).
Proof.
  intros (Hh & Hk & Hf). unfold checked_ssh_key, normalized_key.
  apply String.eqb_neq in Hh, Hk. rewrite Hh, Hk. cbn [orb].
  unfold bind, os_path_exists.
  replace (bool_decide _ || w_isdir w _) with true; [reflexivity|].
  symmetry. apply orb_true_iff. destruct Hf as [Hf|Hf]; [left|right; exact Hf].
  apply bool_decide_eq_true. exact Hf.
Qed.

Lemma checked_ssh_key_unset s :
  GPU_SERVER_HOST (w_config w) = EmptyString \/
  GPU_SERVER_SSH_KEY (w_config w) = EmptyString ->
  checked_ssh_key w s =
  (Raise (Exn ValueError "GPU 서버 설정이 없습니다. config.py를 확인하세요."), s).
Proof.
  intros H. unfold checked_ssh_key.
  replace (String.eqb _ _ || String.eqb _ _) with true; [reflexivity|].
  symmetry. apply orb_true_iff. rewrite !String.eqb_eq. exact H.
Qed.

Lemma checked_ssh_key_missing s :
  GPU_SERVER_HOST (w_config w) <> EmptyString ->
  GPU_SERVER_SSH_KEY (w_config w) <> EmptyString ->
  files s !! PosixPath.abspath (w_cwd w) (GPU_SERVER_SSH_KEY (w_config w)) = None ->
  w_isdir w (PosixPath.abspath (w_cwd w) (GPU_SERVER_SSH_KEY (w_config w))) = false ->
  checked_ssh_key w s =
  (Raise (Exn FileNotFoundError
            ("SSH 키 파일을 찾을 수 없습니다: " +:+
             PosixPath.abspath (w_cwd w) (GPU_SERVER_SSH_KEY (w_config w)))), s).
Proof.
  intros Hh Hk Hf Hd. unfold checked_ssh_key.
  apply String.eqb_neq in Hh, Hk. rewrite Hh, Hk. cbn [orb].
  unfold bind, os_path_exists. rewrite Hf, Hd.
  rewrite bool_decide_eq_false_2 by (intros [x Hx]; discriminate). reflexivity.
Qed.

(** The guard never touches the state. *)
Lemma checked_ssh_key_state s : snd (checked_ssh_key w s) = s.
Proof.
  unfold checked_ssh_key. destruct (_ || _); [reflexivity|].
  unfold bind, os_path_exists. destruct (negb _); reflexivity.
Qed.

End Guard.

(** ** Remote execution *)

Lemma last_n_is_tail {A} n (l : list A) :
  exists front, l = front ++ last_n n l /\ length (last_n n l) = Nat.min n (length l).
Proof.
  unfold last_n. exists (firstn (length l - n) l). split.
  - symmetry. apply firstn_skipn.
  - rewrite length_skipn. lia.
Qed.

Lemma run_realtime (w : world) (command : string) (s : state) (output : string) (rc : Z) :
  configured w s ->
  w_popen w (length (spawned s)) (ssh_cmd w (normalized_key w) command true)
    = PopenExited output rc ->
  run_on_gpu_server w command true s =
  (if negb (rc =? 0)%Z
   then Raise (Exn Exception_ (ssh_failed_realtime_msg rc (captured_lines output)))
   else Ret (PyStr.join nl (captured_lines output)),
   started (ssh_cmd w (normalized_key w) command true) s).
Proof.
  intros Hc Hp. unfold run_on_gpu_server, bind. rewrite (checked_ssh_key_ok w s Hc).
  unfold popen. rewrite Hp. unfold try_except, started.
  destruct (negb (rc =? 0)%Z); reflexivity.
Qed.

(** C10 -- in streaming mode the executor returns the output lines of the
    remote process, each right-stripped, the empty ones dropped, joined by
    newlines; no line of that transcript is blank, ends in white space or
    holds a newline, and splitting the transcript at its newlines gives the
    kept lines back.  [run_model] hands this transcript to the parser. *)
Theorem streaming_transcript_is_clean
    (w : world) (command : string) (s : state) (output : string) :
  configured w s ->
  w_popen w (length (spawned s)) (ssh_cmd w (normalized_key w) command true)
    = PopenExited output 0 ->
  let lines :=
    List.filter nonblank (map rstrip (readlines (universal_newlines output))) in
  run_on_gpu_server w command true s =
    (Ret (PyStr.join nl lines), started (ssh_cmd w (normalized_key w) command true) s) /\
  Forall (fun l => l <> EmptyString /\ rstrip l = l /\ has_char "010" l = false) lines /\
  (lines <> [] -> split_lines (PyStr.join nl lines) = lines).
Proof.
  intros Hc Hp lines. subst lines. rewrite <- captured_lines_filter.
  pose proof (captured_lines_clean output) as Hclean.
  split; [|split].
  - rewrite (run_realtime w command s output 0 Hc Hp). reflexivity.
  - exact Hclean.
  - intros Hne. apply split_lines_join; [exact Hne|].
    eapply Forall_impl; [exact Hclean|]. intros l (_ & _ & H). exact H.
Qed.

(** C4 -- a streaming run whose process ends with a non-zero status raises
    an exception whose text carries the exit code and the last 20 captured
    lines (or the marker for no output); when that run is the model run of
    the pipeline, the pipeline returns the failure envelope of that error. *)
Theorem nonzero_exit_fails_the_run
    (w : world) (command : string) (s : state) (output : string) (rc : Z) :
  configured w s ->
  w_popen w (length (spawned s)) (ssh_cmd w (normalized_key w) command true)
    = PopenExited output rc ->
  rc <> 0%Z ->
  let lines := captured_lines output in
  let tail :=
    match lines with
    | [] => "출력 없음"
    | _ => PyStr.join nl (last_n 20 lines)
    end in
  let e :=
    Exn Exception_
      ("SSH 명령 실행 실패 (코드: " +:+ str_int rc +:+ ")" +:+ nl +:+
       "최근 출력:" +:+ nl +:+ tail) in
  let s' := started (ssh_cmd w (normalized_key w) command true) s in
  run_on_gpu_server w command true s = (Raise e, s') /\
  (exists front, lines = front ++ last_n 20 lines /\
                 length (last_n 20 lines) = Nat.min 20 (length lines)) /\
  (forall path s0 name,
     prepare w path s0 = (Ret name, s) ->
     command = script_command (w_config w) ->
     process_session_on_gpu_server w path s0 = (Ret (failure_envelope w e), s') /\
     dict_get "success" (failure_envelope w e) = Some (JBool false) /\
     dict_get "error" (failure_envelope w e) = Some (JStr (exn_str e))).
Proof.
  intros Hc Hp Hrc lines tail e s'.
  assert (Hrun : run_on_gpu_server w command true s = (Raise e, s')).
  { rewrite (run_realtime w command s output rc Hc Hp).
    apply Z.eqb_neq in Hrc. rewrite Hrc. reflexivity. }
  split; [exact Hrun|]. split; [apply last_n_is_tail|].
  intros path s0 name Hprep ->. split; [|split; reflexivity].
  unfold process_session_on_gpu_server, try_except, parsed_result, run_stages, bind.
  rewrite Hprep. unfold run_model. rewrite Hrun. reflexivity.
Qed.

(** ** Transfers *)

Section Transfer.

Lemma contains_prefix n b : contains n (n +:+ b) = true.
Proof.
  destruct (n +:+ b) eqn:E; cbn [contains]; rewrite <- E, startswith_app; reflexivity.
Qed.

Lemma contains_empty s : contains EmptyString s = true.
Proof. destruct s; reflexivity. Qed.

Lemma startswith_app_l n a b : startswith n a = true -> startswith n (a +:+ b) = true.
Proof.
  intros H. destruct (startswith_inv _ _ H) as [r ->].
  rewrite str_app_assoc. apply startswith_app.
Qed.

Lemma contains_app_l n a b : contains n a = true -> contains n (a +:+ b) = true.
Proof.
  induction a as [|x a IH]; intros H.
  - cbn in H. rewrite orb_false_r in H. destruct n; [|discriminate].
    apply contains_empty.
  - cbn [contains] in H. rewrite str_app_cons. cbn [contains].
    apply orb_true_iff in H as [H|H].
    + rewrite <- str_app_cons, (startswith_app_l _ _ _ H). reflexivity.
    + rewrite (IH H). apply orb_true_r.
Qed.

Lemma contains_app_r n a b : contains n b = true -> contains n (a +:+ b) = true.
Proof.
  intros H. induction a as [|x a IH]; [exact H|].
  rewrite str_app_cons. cbn [contains]. rewrite IH. apply orb_true_r.
Qed.

End Transfer.

Ltac find_piece :=
  first [ reflexivity
        | apply contains_prefix
        | apply contains_app_l; reflexivity
        | apply contains_app_r; find_piece ].

Section TransferRuns.
Variable w : world.

Lemma upload_run local remote s :
  configured w s ->
  upload_to_gpu_server w local remote s =
  (match w_run w (length (spawned s)) (upload_cmd w (normalized_key w) local remote) with
   | RunSpawnError msg => Raise (Exn OSError msg)
   | RunTimeout => Raise (Exn Exception_ (upload_timeout_msg (w_config w)))
   | RunExited rc out err =>
       if negb (rc =? 0)%Z then
         if transport_error (diagnostic out err)
         then Raise (Exn Exception_ (upload_connect_msg (w_config w) (diagnostic out err)))
         else Raise (Exn Exception_ (upload_failed_msg (diagnostic out err)))
       else Ret tt
   end,
   started (upload_cmd w (normalized_key w) local remote) s).
Proof.
  intros Hc. unfold upload_to_gpu_server, bind. rewrite (checked_ssh_key_ok w s Hc).
  unfold try_except, subprocess_run, started.
  destruct (w_run w _ _) as [msg| |rc out err]; try reflexivity.
  destruct (negb (rc =? 0)%Z); [|reflexivity].
  destruct (transport_error _); reflexivity.
Qed.

Lemma download_run remote local s :
  configured w s ->
  download_from_gpu_server w remote local s =
  (match w_run w (length (spawned s)) (download_cmd w (normalized_key w) remote local) with
   | RunSpawnError msg => Raise (Exn OSError msg)
   | RunTimeout => Raise (Exn Exception_ (download_timeout_msg (w_config w)))
   | RunExited rc out err =>
       if negb (rc =? 0)%Z then
         if transport_error (diagnostic out err)
         then Raise (Exn Exception_ (download_connect_msg (w_config w) (diagnostic out err)))
         else Raise (Exn Exception_ (download_failed_msg (diagnostic out err)))
       else Ret tt
   end,
   match w_run w (length (spawned s)) (download_cmd w (normalized_key w) remote local) with
   | RunSpawnError _ => started (download_cmd w (normalized_key w) remote local) s
   | _ => downloaded_into w (download_cmd w (normalized_key w) remote local)
            (download_target w local) s
   end).
Proof.
  intros Hc. unfold download_from_gpu_server, bind. rewrite (checked_ssh_key_ok w s Hc).
  unfold try_except, subprocess_run, started, downloaded_into.
  destruct (w_run w _ _) as [msg| |rc out err]; try reflexivity.
  destruct (negb (rc =? 0)%Z); [|reflexivity].
  destruct (transport_error _); reflexivity.
Qed.

End TransferRuns.

(** C5, as the code has it -- with the configuration in place, an upload or
    a download starts exactly one subprocess.  A timeout, or a non-zero exit
    whose diagnostic holds a timed-out or refused connection, raises a
    connectivity error that names host and port; the advice in its own
    words is, and is no more than: VPN, host and network for a refused
    upload, the VPN alone for an upload that timed out, VPN and host for a
    refused download, none for a download that timed out.  After a refused
    connection the error ends with the diagnostic.  Any other non-zero exit
    raises a transfer error that carries the raw diagnostic. *)
Theorem transfer_failure_mapping (w : world) (local remote : string) (s : state) :
  configured w s ->
  let c := w_config w in
  let n := length (spawned s) in
  let up := upload_cmd w (normalized_key w) local remote in
  let down := download_cmd w (normalized_key w) remote local in
  let uploaded := upload_to_gpu_server w local remote s in
  let fetched := download_from_gpu_server w remote local s in
  spawned (snd uploaded) = spawned s ++ [up] /\
  spawned (snd fetched) = spawned s ++ [down] /\
  (w_run w n up = RunTimeout ->
   reports_connectivity c (fst uploaded) EmptyString true false false) /\
  (w_run w n down = RunTimeout ->
   reports_connectivity c (fst fetched) EmptyString false false false) /\
  (forall rc out err, rc <> 0%Z -> transport_error (diagnostic out err) = true ->
     (w_run w n up = RunExited rc out err ->
      reports_connectivity c (fst uploaded) (diagnostic out err) true true true) /\
     (w_run w n down = RunExited rc out err ->
      reports_connectivity c (fst fetched) (diagnostic out err) true true false)) /\
  (forall rc out err, rc <> 0%Z -> transport_error (diagnostic out err) = false ->
     (w_run w n up = RunExited rc out err ->
      reports_transfer_error "SCP 업로드 실패: " (diagnostic out err) (fst uploaded)) /\
     (w_run w n down = RunExited rc out err ->
      reports_transfer_error "SCP 다운로드 실패: " (diagnostic out err) (fst fetched))).
Proof.
  intros Hc c n up down uploaded fetched. subst uploaded fetched.
  rewrite (upload_run w local remote s Hc), (download_run w remote local s Hc).
  fold n up down c. cbn [fst snd].
  split; [reflexivity|]. split; [destruct (w_run w n down); reflexivity|].
  split; [|split; [|split]].
  - intros ->.
    exists "SCP 업로드 타임아웃: GPU 서버(",
           ")에 연결할 수 없습니다. VPN이 켜져 있는지 확인하세요.".
    split; [reflexivity|]. split; vm_compute; reflexivity.
  - intros ->.
    exists "SCP 다운로드 타임아웃: GPU 서버(", ")에 연결할 수 없습니다.".
    split; [reflexivity|]. split; vm_compute; reflexivity.
  - intros rc out err Hrc Ht. apply Z.eqb_neq in Hrc. split; intros ->.
    + rewrite Hrc, Ht. cbn [negb].
      exists "GPU 서버 연결 실패: ",
             ("에 연결할 수 없습니다." +:+ nl +:+
              "확인 사항:" +:+ nl +:+
              "1. VPN이 켜져 있는지 확인" +:+ nl +:+
              "2. GPU 서버가 실행 중인지 확인" +:+ nl +:+
              "3. 네트워크 연결 상태 확인" +:+ nl +:+
              "원본 에러: ").
      split; [unfold upload_connect_msg; rewrite !str_app_assoc; reflexivity|].
      split; vm_compute; reflexivity.
    + rewrite Hrc, Ht. cbn [negb].
      exists "GPU 서버 연결 실패: ",
             ("에 연결할 수 없습니다." +:+ nl +:+
              "확인 사항:" +:+ nl +:+
              "1. VPN이 켜져 있는지 확인" +:+ nl +:+
              "2. GPU 서버가 실행 중인지 확인" +:+ nl +:+
              "원본 에러: ").
      split; [unfold download_connect_msg; rewrite !str_app_assoc; reflexivity|].
      split; vm_compute; reflexivity.
  - intros rc out err Hrc Ht. apply Z.eqb_neq in Hrc. split; intros ->.
    + rewrite Hrc, Ht. reflexivity.
    + rewrite Hrc, Ht. reflexivity.
Qed.

(** C6, as the code has it -- when the remote host or the key is not
    configured, or the key file is not on disk, each of the three remote
    operations raises a configuration error ([ValueError] or
    [FileNotFoundError]) and leaves the state as it was: no subprocess has
    been started.  The remote user is not looked at. *)
Theorem config_guard_precedes_network (w : world) (s : state) :
  GPU_SERVER_HOST (w_config w) = EmptyString \/
  GPU_SERVER_SSH_KEY (w_config w) = EmptyString \/
  (files s !! PosixPath.abspath (w_cwd w) (GPU_SERVER_SSH_KEY (w_config w)) = None /\
   w_isdir w (PosixPath.abspath (w_cwd w) (GPU_SERVER_SSH_KEY (w_config w))) = false) ->
  exists e,
    (exn_class_of e = ValueError \/ exn_class_of e = FileNotFoundError) /\
    forall local remote command realtime_output,
      upload_to_gpu_server w local remote s = (Raise e, s) /\
      download_from_gpu_server w remote local s = (Raise e, s) /\
      run_on_gpu_server w command realtime_output s = (Raise e, s).
Proof.
  intros H.
  assert (Hg : exists e, (exn_class_of e = ValueError \/ exn_class_of e = FileNotFoundError)
                         /\ checked_ssh_key w s = (Raise e, s)).
  { destruct (String.eqb_spec (GPU_SERVER_HOST (w_config w)) EmptyString) as [Hh|Hh].
    { eexists. split; cycle 1; [apply checked_ssh_key_unset; auto|left; reflexivity]. }
    destruct (String.eqb_spec (GPU_SERVER_SSH_KEY (w_config w)) EmptyString) as [Hk|Hk].
    { eexists. split; cycle 1; [apply checked_ssh_key_unset; auto|left; reflexivity]. }
    destruct H as [H|[H|[Hf Hd]]]; [contradiction|contradiction|].
    eexists. split; cycle 1; [apply checked_ssh_key_missing; assumption|right; reflexivity]. }
  destruct Hg as (e & Hclass & Hg). exists e. split; [exact Hclass|].
  intros local remote command realtime_output.
  unfold upload_to_gpu_server, download_from_gpu_server, run_on_gpu_server, bind.
  rewrite Hg. auto.
Qed.

(** ** What a computation does to the local state *)

Section Keeps.
Context {R : state -> state -> Prop}.
Hypothesis R_refl : forall s, R s s.
Hypothesis R_trans : forall s1 s2 s3, R s1 s2 -> R s2 s3 -> R s1 s3.

Lemma keeps_ret {A} (a : A) : keeps R (ret a).
Proof. intros s. apply R_refl. Qed.

Lemma keeps_raise {A} c msg : keeps R (@raise A c msg).
Proof. intros s. apply R_refl. Qed.

Lemma keeps_reraise {A} e : keeps R (@reraise A e).
Proof. intros s. apply R_refl. Qed.

Lemma keeps_bind {A B} (c : M A) (k : A -> M B) :
  keeps R c -> (forall a, keeps R (k a)) -> keeps R (bind c k).
Proof.
  intros Hc Hk s. unfold bind. specialize (Hc s).
  destruct (c s) as [[a|e] s1]; cbn [snd] in *; [|exact Hc].
  exact (R_trans _ _ _ Hc (Hk a s1)).
Qed.

Lemma keeps_try_except {A} (body : M A) (handler : exn -> M A) :
  keeps R body -> (forall e, keeps R (handler e)) -> keeps R (try_except body handler).
Proof.
  intros Hb Hh s. unfold try_except. specialize (Hb s).
  destruct (body s) as [[a|e] s1]; cbn [snd] in *; [exact Hb|].
  exact (R_trans _ _ _ Hb (Hh e s1)).
Qed.

Lemma keeps_try_finally {A} (body : M A) (cleanup : M unit) :
  keeps R body -> keeps R cleanup -> keeps R (try_finally body cleanup).
Proof.
  intros Hb Hc s. unfold try_finally. specialize (Hb s).
  destruct (body s) as [r s1]. cbn [snd] in Hb. specialize (Hc s1).
  destruct (cleanup s1) as [[u|e] s2]; cbn [snd] in *; exact (R_trans _ _ _ Hb Hc).
Qed.

End Keeps.

Lemma same_local_refl s : same_local s s.
Proof. split; reflexivity. Qed.

Lemma same_local_trans s1 s2 s3 : same_local s1 s2 -> same_local s2 s3 -> same_local s1 s3.
Proof. intros [H1 H2] [H3 H4]. split; congruence. Qed.

Ltac keeps_local :=
  repeat first
    [ apply (keeps_bind same_local_trans)
    | apply (keeps_try_except same_local_trans)
    | apply (keeps_try_finally same_local_trans)
    | apply (keeps_ret same_local_refl)
    | apply (keeps_raise same_local_refl)
    | apply (keeps_reraise same_local_refl)
    | match goal with |- forall _, _ => intro end ].

Section LocalSteps.
Variable w : world.

Lemma keeps_os_path_exists p : keeps same_local (os_path_exists w p).
Proof. intros s. apply same_local_refl. Qed.

Lemma keeps_open_read p : keeps same_local (open_read p).
Proof. intros s. unfold open_read. destruct (files s !! p); apply same_local_refl. Qed.

Lemma keeps_json_loads text : keeps same_local (json_loads w text).
Proof. unfold json_loads. destruct (w_json_loads w text); keeps_local. Qed.

Lemma keeps_py_get v key default : keeps same_local (py_get v key default).
Proof.
  unfold py_get. destruct v as [| | | | | |members]; try (intro; apply same_local_refl).
  destruct (dict_get key members); intro; apply same_local_refl.
Qed.

Lemma keeps_read_fields v : keeps same_local (read_fields v).
Proof. unfold read_fields. keeps_local; apply keeps_py_get. Qed.

Lemma keeps_subprocess_run cmd : keeps same_local (subprocess_run w cmd None).
Proof. intros s. unfold subprocess_run. destruct (w_run w _ _); split; reflexivity. Qed.

Lemma keeps_popen cmd : keeps same_local (popen w cmd).
Proof. intros s. unfold popen. destruct (w_popen w _ _); split; reflexivity. Qed.

Lemma keeps_checked_ssh_key : keeps same_local (checked_ssh_key w).
Proof. intros s. rewrite checked_ssh_key_state. apply same_local_refl. Qed.

Lemma keeps_upload local remote : keeps same_local (upload_to_gpu_server w local remote).
Proof.
  unfold upload_to_gpu_server.
  apply (keeps_bind same_local_trans); [apply keeps_checked_ssh_key|].
  intros key. apply (keeps_bind same_local_trans).
  - apply (keeps_try_except same_local_trans);
      [apply keeps_subprocess_run|].
    intros e. destruct (exn_class_of e); intros s; apply same_local_refl.
  - intros [[rc out] err]. destruct (negb _); [|intros s; apply same_local_refl].
    destruct (transport_error _); intros s; apply same_local_refl.
Qed.

Lemma keeps_run command realtime : keeps same_local (run_on_gpu_server w command realtime).
Proof.
  unfold run_on_gpu_server.
  apply (keeps_bind same_local_trans); [apply keeps_checked_ssh_key|].
  intros key. destruct realtime.
  - apply (keeps_bind same_local_trans); [apply keeps_popen|].
    intros [output rc]. apply (keeps_try_except same_local_trans).
    + destruct (negb _); intros s; apply same_local_refl.
    + intros e. destruct (exn_class_of e); intros s; apply same_local_refl.
  - apply (keeps_bind same_local_trans); [apply keeps_subprocess_run|].
    intros [[rc out] err]. destruct (negb _); intros s; apply same_local_refl.
Qed.

Lemma keeps_upload_script script : keeps same_local (upload_script w script).
Proof.
  unfold upload_script.
  apply (keeps_bind same_local_trans); [apply keeps_os_path_exists|].
  intros [|]; [apply keeps_upload|intros s; apply same_local_refl].
Qed.

Lemma keeps_upload_scripts : keeps same_local (upload_scripts w).
Proof.
  unfold upload_scripts.
  apply (keeps_bind same_local_trans); intros; apply keeps_upload_script.
Qed.

Lemma keeps_run_model : keeps same_local (run_model w).
Proof. apply keeps_run. Qed.

(** The fallback is a pure function of the captured output. *)
Lemma parse_output_run output s :
  parse_output w output s = (Ret (fallback_result w output), s).
Proof.
  unfold parse_output, try_except, fallback_result.
  destruct (re_search_braces output) as [m|]; [|reflexivity].
  unfold bind, json_loads. destruct (w_json_loads w m) as [v|]; [|reflexivity].
  destruct v as [| | | | | |members]; try reflexivity.
  unfold ret, read_fields, bind, py_get, fields_of.
  destruct (dict_get "cup_coordinates" members), (dict_get "rotation_axis" members);
    reflexivity.
Qed.

End LocalSteps.

(** ** The stages and their temporary files *)

Section Stages.
Variable w : world.

Lemma unlink_present p s :
  is_Some (files s !! p) ->
  unlink_if_exists w p s = (Ret tt, State (delete p (files s)) (spawned s) (tmp_made s)).
Proof.
  intros [x Hx]. unfold unlink_if_exists, bind, os_path_exists, os_unlink.
  rewrite bool_decide_eq_true_2 by (exists x; exact Hx). cbn [orb]. rewrite Hx. reflexivity.
Qed.

(** Stage 1 leaves one more temporary name behind, and no file under it. *)
Lemma upload_session_effect actual name s :
  let tar := w_tmpname w (length (tmp_made s)) ".tar.gz" in
  let s' := snd (upload_session w actual name s) in
  tmp_made s' = tmp_made s ++ [tar] /\ files s' = delete tar (files s).
Proof.
  intros tar s'. subst s'.
  destruct (upload_session w actual name s) as [r' s'] eqn:E. cbn [snd].
  unfold upload_session, bind at 1, named_temporary_file in E.
  fold tar in E. cbv beta iota in E. unfold try_finally in E.
  set (s1 := State (<[tar:=EmptyString]> (files s)) (spawned s) (tmp_made s ++ [tar])) in E.
  match type of E with context [match ?b s1 with _ => _ end] => set (body := b) in E end.
  assert (Hbody : tmp_made (snd (body s1)) = tmp_made s1 /\
                  exists x, files (snd (body s1)) = <[tar:=x]> (files s1)).
  { subst body. unfold bind at 1, tarfile_write.
    destruct (w_tar w actual name) as [msg|bytes]; cbn [snd].
    - split; [reflexivity|]. eexists. reflexivity.
    - match goal with |- context [snd (?rest ?t)] =>
        assert (Hk : same_local t (snd (rest t))) end.
      { apply (keeps_bind same_local_trans); [apply keeps_upload|]. intros _.
        apply (keeps_bind same_local_trans); [apply keeps_run|]. intros _.
        apply (keeps_ret same_local_refl). }
      destruct Hk as [Hf Ht]. split; [exact Ht|]. eexists. exact Hf. }
  destruct (body s1) as [r s2]. cbn [snd] in Hbody. destruct Hbody as [Ht [x Hf]].
  assert (Hsome : is_Some (files s2 !! tar)) by (rewrite Hf, lookup_insert_eq; eauto).
  rewrite (unlink_present tar s2 Hsome) in E. injection E as _ <-.
  cbn [tmp_made files]. rewrite Ht, Hf. subst s1. cbn [tmp_made files].
  split; [reflexivity|]. rewrite !delete_insert_eq. reflexivity.
Qed.

Lemma download_effect remote local s :
  let s' := snd (download_from_gpu_server w remote local s) in
  tmp_made s' = tmp_made s /\
  (files s' = files s \/ exists c, files s' = <[download_target w local := c]> (files s)).
Proof.
  cbv zeta. destruct (download_from_gpu_server w remote local s) as [r s'] eqn:E.
  cbn [snd]. unfold download_from_gpu_server, bind at 1 in E.
  pose proof (checked_ssh_key_state w s) as Hs.
  destruct (checked_ssh_key w s) as [[key|e] s0]; cbn [snd] in Hs; subst s0;
    [|injection E as _ <-; auto].
  unfold bind, try_except, subprocess_run in E.
  destruct (w_run w _ _) as [msg| |rc out err]; cbn in E;
    try destruct (w_scp_payload w _);
    repeat match type of E with
           | context [if ?b then _ else _] => destruct b
           end; injection E as _ <-; cbn [tmp_made files]; eauto.
Qed.

Lemma parse_downloaded_effect remote local s :
  let s' := snd (parse_downloaded w remote local s) in
  tmp_made s' = tmp_made s /\
  (files s' = files s \/ exists c, files s' = <[download_target w local := c]> (files s)).
Proof.
  cbv zeta. destruct (parse_downloaded w remote local s) as [r s'] eqn:E.
  cbn [snd]. unfold parse_downloaded, bind at 1 in E.
  pose proof (download_effect remote local s) as Hd. cbv zeta in Hd.
  destruct (download_from_gpu_server w remote local s) as [[u|e] s1];
    cbn [snd] in Hd; [|injection E as _ <-; exact Hd].
  match type of E with ?rest s1 = _ =>
    assert (Hk : same_local s1 (snd (rest s1))) end.
  { apply (keeps_bind same_local_trans); [apply keeps_open_read|]. intros content.
    apply (keeps_bind same_local_trans); [apply keeps_json_loads|]. intros v.
    apply keeps_read_fields. }
  rewrite E in Hk. cbn [snd] in Hk. destruct Hk as [Hf Ht]. rewrite Hf, Ht. exact Hd.
Qed.

(** Stage 4 always returns: the parsed file when the primary path went
    through, the fallback on the captured output when it raised; and the
    temporary file is deleted either way. *)
Lemma fetch_result_run name output s :
  let local := w_tmpname w (length (tmp_made s)) ".json" in
  let remote :=
    PosixPath.join (GPU_SERVER_WORK_DIR (w_config w)) (name +:+ "_result.json") in
  let s1 := State (<[local:=EmptyString]> (files s)) (spawned s) (tmp_made s ++ [local]) in
  let primary := parse_downloaded w remote local s1 in
  fetch_result w name output s =
  (match fst primary with
   | Ret parsed => Ret parsed
   | Raise _ => Ret (fallback_result w output)
   end,
   State (delete local (files (snd primary))) (spawned (snd primary))
         (tmp_made s ++ [local])).
Proof.
  intros local remote s1 primary.
  unfold fetch_result, bind, named_temporary_file. fold local remote s1.
  cbv beta iota. unfold try_finally, try_except. fold primary.
  pose proof (parse_downloaded_effect remote local s1) as He. cbv zeta in He.
  fold primary in He. destruct primary as [r s2]. cbn [fst snd] in He |- *.
  destruct He as [Ht Hf].
  assert (Hsome : is_Some (files s2 !! local)).
  { destruct Hf as [Hf|[c Hf]]; rewrite Hf; subst s1; cbn [files].
    - rewrite lookup_insert_eq. eauto.
    - destruct (decide (download_target w local = local)) as [E|E].
      + rewrite E, lookup_insert_eq. eauto.
      + rewrite lookup_insert_ne, lookup_insert_eq by exact E. eauto. }
  destruct r as [parsed|e].
  - rewrite (unlink_present local s2 Hsome). rewrite Ht. reflexivity.
  - rewrite parse_output_run, (unlink_present local s2 Hsome). rewrite Ht. reflexivity.
Qed.

(** With the name of the result file canonical, stage 4 returns and leaves
    the local files as they were, less the file under that name. *)
Lemma fetch_result_effect name output s :
  let local := w_tmpname w (length (tmp_made s)) ".json" in
  download_target w local = local ->
  exists parsed s',
    fetch_result w name output s = (Ret parsed, s') /\
    tmp_made s' = tmp_made s ++ [local] /\ files s' = delete local (files s).
Proof.
  intros local Hc. rewrite fetch_result_run. fold local.
  match goal with |- context [parse_downloaded w ?r local ?s1] =>
    pose proof (parse_downloaded_effect r local s1) as He;
    destruct (parse_downloaded w r local s1) as [res s2] end.
  cbv zeta in He. cbn [fst snd tmp_made files] in He |- *. destruct He as [_ Hf].
  rewrite Hc in Hf.
  assert (Hdel : delete local (files s2) = delete local (files s)).
  { destruct Hf as [->|[c ->]]; rewrite ?delete_insert_eq; reflexivity. }
  rewrite Hdel. destruct res as [parsed|e]; eexists _, _; split; try reflexivity; auto.
Qed.

(** Up to the model run, the local state changes by the bundle alone, which
    is gone again. *)
Lemma prepare_effect path s :
  let s' := snd (prepare w path s) in
  tmp_made s' = tmp_made s ++ [bundle_path w s] /\
  files s' = delete (bundle_path w s) (files s).
Proof.
  cbv zeta. destruct (prepare w path s) as [r s'] eqn:E. cbn [snd].
  unfold prepare, bind at 1, resolve_session, bind at 1, os_path_isfile, ret in E.
  cbv beta iota in E. unfold bind at 1 in E.
  match type of E with context [upload_session w ?a ?n s] =>
    pose proof (upload_session_effect a n s) as Hu;
    destruct (upload_session w a n s) as [[u|e] s1] end;
    cbv zeta in Hu; cbn [snd] in Hu; [|injection E as _ <-; exact Hu].
  unfold bind at 1 in E. pose proof (keeps_upload_scripts w s1) as [Hf Ht].
  destruct (upload_scripts w s1) as [[u'|e] s2]; cbn [snd] in Hf, Ht;
    injection E as _ <-; rewrite Hf, Ht; exact Hu.
Qed.

End Stages.

(** ** The brace-delimited substring *)

Section Braces.

Lemma after_first_open_spec s rest :
  after_first_open s = Some rest ->
  exists before, s = before +:+ String "{" rest /\ has_char "{" before = false.
Proof.
  induction s as [|c s IH]; intros H; [discriminate|].
  cbn [after_first_open] in H. destruct (Ascii.eqb c "{") eqn:Ec.
  - injection H as <-. apply Ascii.eqb_eq in Ec. subst c.
    exists EmptyString. split; reflexivity.
  - destruct (IH H) as (before & -> & Hb). exists (String c before). split; [reflexivity|].
    cbn [has_char]. rewrite Ec, Hb. reflexivity.
Qed.

Lemma through_last_close_none s :
  through_last_close s = None -> has_char "}" s = false.
Proof.
  induction s as [|c s IH]; intros H; [reflexivity|].
  cbn [through_last_close] in H. destruct (through_last_close s); [discriminate|].
  destruct (Ascii.eqb c "}") eqn:Ec; [discriminate|].
  cbn [has_char]. rewrite Ec, (IH eq_refl). reflexivity.
Qed.

Lemma through_last_close_spec s m :
  through_last_close s = Some m ->
  exists inner after,
    m = inner +:+ "}" /\ s = m +:+ after /\ has_char "}" after = false.
Proof.
  revert m. induction s as [|c s IH]; intros m H; [discriminate|].
  cbn [through_last_close] in H. destruct (through_last_close s) as [r|] eqn:E.
  - injection H as <-. destruct (IH r eq_refl) as (inner & after & -> & Hs & Ha).
    exists (String c inner), after. split; [reflexivity|]. split; [|exact Ha].
    rewrite Hs at 1. reflexivity.
  - destruct (Ascii.eqb c "}") eqn:Ec; [|discriminate]. injection H as <-.
    apply Ascii.eqb_eq in Ec. subst c. exists EmptyString, s.
    split; [reflexivity|]. split; [reflexivity|]. apply through_last_close_none, E.
Qed.

Lemma through_last_close_some s :
  has_char "}" s = true -> exists m, through_last_close s = Some m.
Proof.
  induction s as [|c s IH]; intros H; [discriminate|].
  cbn [has_char] in H. cbn [through_last_close].
  destruct (through_last_close s) as [r|]; [eauto|].
  destruct (Ascii.eqb c "}"); [eauto|]. cbn [orb] in H. destruct (IH H). discriminate.
Qed.

Lemma after_first_open_some a x :
  exists pre, after_first_open (a +:+ String "{" x) = Some (pre +:+ x).
Proof.
  induction a as [|c a IH].
  - exists EmptyString. reflexivity.
  - rewrite str_app_cons. cbn [after_first_open]. destruct (Ascii.eqb c "{").
    + exists (a +:+ "{"). rewrite str_app_assoc. reflexivity.
    + exact IH.
Qed.

(** The match of the pattern runs from the first opening brace of the
    output to its last closing brace. *)
Lemma re_search_braces_span output m :
  re_search_braces output = Some m ->
  exists before inner after,
    output = before +:+ m +:+ after /\
    m = "{" +:+ inner +:+ "}" /\
    has_char "{" before = false /\ has_char "}" after = false.
Proof.
  unfold re_search_braces. destruct (after_first_open output) as [rest|] eqn:Eo; [|discriminate].
  destruct (through_last_close rest) as [r|] eqn:Ec; [|discriminate].
  intros H. injection H as <-.
  destruct (after_first_open_spec _ _ Eo) as (before & -> & Hb).
  destruct (through_last_close_spec _ _ Ec) as (inner & after & -> & Hr & Ha).
  exists before, inner, after. split; [|auto]. rewrite Hr at 1. reflexivity.
Qed.

(** The pattern finds a match whenever the output holds an opening brace
    with a closing brace somewhere after it. *)
Lemma re_search_braces_finds a inner b :
  exists m, re_search_braces (a +:+ "{" +:+ inner +:+ "}" +:+ b) = Some m.
Proof.
  unfold re_search_braces.
  change ("{" +:+ inner +:+ "}" +:+ b) with (String "{" (inner +:+ "}" +:+ b)).
  destruct (after_first_open_some a (inner +:+ "}" +:+ b)) as [pre ->].
  destruct (through_last_close_some (pre +:+ inner +:+ "}" +:+ b)) as [m ->]; [|eauto].
  rewrite !has_char_app. cbn. rewrite !orb_true_r. reflexivity.
Qed.

End Braces.

(** ** The parsed result and the envelope *)

Section Parsing.
Variable w : world.

Lemma read_fields_ret v parsed s s' :
  read_fields v s = (Ret parsed, s') ->
  exists members, v = JObj members /\ parsed = fields_of members.
Proof.
  unfold read_fields, bind, py_get, fields_of.
  destruct v as [| | | | | |members]; try discriminate.
  intros H. exists members. split; [reflexivity|].
  destruct (dict_get "cup_coordinates" members), (dict_get "rotation_axis" members);
    cbn in H; injection H as <- _; reflexivity.
Qed.

Lemma parse_downloaded_ret remote local parsed s s' :
  parse_downloaded w remote local s = (Ret parsed, s') ->
  exists s1 content,
    download_from_gpu_server w remote local s = (Ret tt, s1) /\
    files s1 !! local = Some content /\
    read_off w content parsed.
Proof.
  unfold parse_downloaded, bind at 1.
  destruct (download_from_gpu_server w remote local s) as [[[]|e] s1]; [|discriminate].
  unfold bind at 1, open_read.
  destruct (files s1 !! local) as [content|] eqn:Efile; [|discriminate].
  unfold bind at 1, json_loads.
  destruct (w_json_loads w content) as [v|] eqn:Ev; [|discriminate].
  unfold ret. intros H. apply read_fields_ret in H as (members & -> & ->).
  exists s1, content. split; [reflexivity|]. split; [exact Efile|].
  exists members. auto.
Qed.

(** The ways the primary path raises: the download fails, the file does
    not decode, or it decodes to something that is not an object. *)
Lemma primary_path_raises remote local s :
  (forall e s',
     download_from_gpu_server w remote local s = (Raise e, s') ->
     parse_downloaded w remote local s = (Raise e, s')) /\
  (forall u s' content,
     download_from_gpu_server w remote local s = (Ret u, s') ->
     files s' !! local = Some content ->
     (w_json_loads w content = None ->
      exists e, parse_downloaded w remote local s = (Raise e, s') /\
                exn_class_of e = JSONDecodeError) /\
     (forall v, w_json_loads w content = Some v ->
                (forall members, v <> JObj members) ->
      exists e, parse_downloaded w remote local s = (Raise e, s') /\
                exn_class_of e = AttributeError)).
Proof.
  split.
  - intros e s' H. unfold parse_downloaded, bind at 1. rewrite H. reflexivity.
  - intros u s' content H Hfile.
    assert (Hstep : parse_downloaded w remote local s =
                    (do result_data <- json_loads w content; read_fields result_data) s').
    { unfold parse_downloaded, bind at 1. rewrite H. unfold bind at 1, open_read.
      rewrite Hfile. reflexivity. }
    rewrite Hstep. unfold bind, json_loads. split.
    + intros ->. eexists. split; reflexivity.
    + intros v -> Hv. unfold ret, read_fields, bind, py_get.
      destruct v as [| | | | | |members];
        try (eexists; split; reflexivity).
      destruct (Hv members eq_refl).
Qed.

Lemma fallback_result_cases output :
  fallback_result w output = (zero_coordinates, JNull) \/
  exists matched,
    re_search_braces output = Some matched /\
    read_off w matched (fallback_result w output).
Proof.
  unfold fallback_result. destruct (re_search_braces output) as [m|]; [|auto].
  destruct (w_json_loads w m) as [v|] eqn:Ev; [|auto].
  destruct v as [| | | | | |members]; auto. right. exists m. split; [reflexivity|].
  exists members. auto.
Qed.

(** Whatever stage 4 returns was read off the result file it downloaded, or
    off the brace span of the captured output, or is the default pair. *)
Lemma fetch_result_provenance name output parsed s s' :
  fetch_result w name output s = (Ret parsed, s') ->
  (exists content, result_file_holds w name s content /\ read_off w content parsed) \/
  (exists matched, re_search_braces output = Some matched /\ read_off w matched parsed) \/
  parsed = (zero_coordinates, JNull).
Proof.
  rewrite fetch_result_run.
  match goal with |- context [parse_downloaded w ?r ?l ?s1] =>
    destruct (parse_downloaded w r l s1) as [[p|e] s2] eqn:E end; cbn [fst snd].
  - intros H. injection H as <- _. left.
    destruct (parse_downloaded_ret _ _ _ _ _ E) as (s3 & content & Hd & Hfile & Hread).
    exists content. split; [|exact Hread]. exists s3. split; [exact Hd|exact Hfile].
  - intros H. injection H as <- _. right.
    destruct (fallback_result_cases output) as [Hdefault|Hspan]; [right|left]; assumption.
Qed.

Lemma success_envelope_fields cup rot :
  dict_get "success" (success_envelope cup rot) = Some (JBool true) /\
  dict_get "cup_coordinates" (success_envelope cup rot) = Some cup /\
  dict_get "message" (success_envelope cup rot)
    = Some (JStr "처리 완료 (GPU 서버에서 실행됨)") /\
  dict_get "rotation_axis" (success_envelope cup rot)
    = (if truthy rot then Some rot else None).
Proof. unfold success_envelope. destruct (truthy rot); repeat split; reflexivity. Qed.

End Parsing.

(** ** The pipeline *)

(** C1, as the code has it -- when the primary path of stage 4 raises (the
    download fails, or the file does not decode to an object:
    [primary_path_raises]), the result is the fallback on the captured
    output: the text from its first opening brace to its last closing brace
    is decoded as one document and its two fields are read; when there is no
    such text, or it does not decode to an object, the result is [[0,0,0]]
    with no rotation axis.  The pipeline then returns an envelope with
    [success = true]. *)
Theorem fallback_on_failed_download
    (w : world) (name output : string) (s : state) (e : exn) (s2 : state) :
  let local := w_tmpname w (length (tmp_made s)) ".json" in
  let remote :=
    PosixPath.join (GPU_SERVER_WORK_DIR (w_config w)) (name +:+ "_result.json") in
  let s1 := State (<[local:=EmptyString]> (files s)) (spawned s) (tmp_made s ++ [local]) in
  let s3 := State (delete local (files s2)) (spawned s2) (tmp_made s ++ [local]) in
  parse_downloaded w remote local s1 = (Raise e, s2) ->
  fetch_result w name output s = (Ret (fallback_result w output), s3) /\
  (forall m, re_search_braces output = Some m ->
     (exists before inner after,
        output = before +:+ m +:+ after /\ m = "{" +:+ inner +:+ "}" /\
        has_char "{" before = false /\ has_char "}" after = false) /\
     (w_json_loads w m = None -> fallback_result w output = (zero_coordinates, JNull)) /\
     (forall v, w_json_loads w m = Some v -> (forall members, v <> JObj members) ->
        fallback_result w output = (zero_coordinates, JNull)) /\
     (forall members, w_json_loads w m = Some (JObj members) ->
        fallback_result w output = fields_of members)) /\
  ((forall a inner b, output <> a +:+ "{" +:+ inner +:+ "}" +:+ b) ->
     fallback_result w output = (zero_coordinates, JNull)) /\
  (forall path s0,
     run_stages w path s0 = (Ret (name, output), s) ->
     exists envelope,
       process_session_on_gpu_server w path s0 = (Ret envelope, s3) /\
       dict_get "success" envelope = Some (JBool true) /\
       dict_get "cup_coordinates" envelope = Some (fst (fallback_result w output))).
Proof.
  intros local remote s1 s3 Hprimary.
  assert (Hfetch : fetch_result w name output s = (Ret (fallback_result w output), s3)).
  { rewrite fetch_result_run. fold local remote s1. rewrite Hprimary. reflexivity. }
  split; [exact Hfetch|]. split; [|split].
  - intros m Hm. split; [exact (re_search_braces_span _ _ Hm)|].
    unfold fallback_result. rewrite Hm. split; [|split].
    + intros ->. reflexivity.
    + intros v -> Hv. destruct v as [| | | | | |members]; try reflexivity.
      destruct (Hv members eq_refl).
    + intros members ->. reflexivity.
  - intros Hno. unfold fallback_result.
    destruct (re_search_braces output) as [m|] eqn:Hm; [|reflexivity].
    destruct (re_search_braces_span _ _ Hm) as (a & inner & b & Ho & -> & _).
    exfalso. apply (Hno a inner b). rewrite Ho, !str_app_assoc. reflexivity.
  - intros path s0 Hstages.
    destruct (fallback_result w output) as [cup rot] eqn:Efb.
    exists (success_envelope cup rot). split.
    + unfold process_session_on_gpu_server, try_except, parsed_result, bind.
      rewrite Hstages, Hfetch. reflexivity.
    + destruct (success_envelope_fields cup rot) as (Hs & Hc & _). auto.
Qed.

(** C3, as the code has it -- every parsed result comes from a run of the
    stages that returned a session name and a captured output, and it was
    read off the JSON object that the content of the downloaded result file
    decodes to, or off the object that the brace span of that captured
    output decodes to, or it is the default.  So its [cup_coordinates] is
    the three-component default or, unchecked, the [cup_coordinates] entry
    of that very object, and its [rotation_axis] is [None] or, unchecked,
    the [rotation_axis] entry of the same object. *)
Theorem parsed_result_provenance
    (w : world) (path : string) (s : state) (cup rot : json) (s' : state) :
  parsed_result w path s = (Ret (cup, rot), s') ->
  exists name output s1,
    run_stages w path s = (Ret (name, output), s1) /\
    fetch_result w name output s1 = (Ret (cup, rot), s') /\
    ((exists content,
        result_file_holds w name s1 content /\ read_off w content (cup, rot)) \/
     (exists matched,
        re_search_braces output = Some matched /\ read_off w matched (cup, rot)) \/
     (cup, rot) = (zero_coordinates, JNull)) /\
    ((cup = zero_coordinates /\ three_components cup) \/
     exists text members,
       decoded_text w name output s1 text /\
       w_json_loads w text = Some (JObj members) /\
       dict_get "cup_coordinates" members = Some cup) /\
    (rot = JNull \/
     exists text members,
       decoded_text w name output s1 text /\
       w_json_loads w text = Some (JObj members) /\
       dict_get "rotation_axis" members = Some rot).
Proof.
  unfold parsed_result, bind.
  destruct (run_stages w path s) as [[[name output]|e] s1]; [|discriminate].
  intros H. exists name, output, s1. split; [reflexivity|]. split; [exact H|].
  apply fetch_result_provenance in H. split; [exact H|].
  assert (Hzero : three_components zero_coordinates)
    by (unfold three_components, zero_coordinates; eauto).
  assert (Hread : forall text,
            decoded_text w name output s1 text -> read_off w text (cup, rot) ->
            ((cup = zero_coordinates /\ three_components cup) \/
             exists text members,
               decoded_text w name output s1 text /\
               w_json_loads w text = Some (JObj members) /\
               dict_get "cup_coordinates" members = Some cup) /\
            (rot = JNull \/
             exists text members,
               decoded_text w name output s1 text /\
               w_json_loads w text = Some (JObj members) /\
               dict_get "rotation_axis" members = Some rot)).
  { intros text Hsource (members & Hload & Hfields).
    unfold fields_of in Hfields. injection Hfields as -> ->. split.
    - destruct (dict_get "cup_coordinates" members) as [v|] eqn:E.
      + right. eauto.
      + left. auto.
    - destruct (dict_get "rotation_axis" members) as [v|] eqn:E.
      + right. eauto.
      + left. reflexivity. }
  destruct H as [(content & Hfile & Hr)|[(matched & Hspan & Hr)|Hdefault]].
  - apply (Hread content); [left; exact Hfile|exact Hr].
  - apply (Hread matched); [right; exact Hspan|exact Hr].
  - injection Hdefault as -> ->. split; left; auto.
Qed.

(** C7, as the code has it -- the envelope of a successful invocation holds
    [success = true], the parsed [cup_coordinates] and a message; it holds
    [rotation_axis] exactly when the parsed value is true in Python's sense:
    always for a value of three components, never for [None]. *)
Theorem success_envelope_shape
    (w : world) (path : string) (s : state) (envelope : pydict) (s' : state) :
  process_session_on_gpu_server w path s = (Ret envelope, s') ->
  dict_get "success" envelope = Some (JBool true) ->
  exists cup rot,
    parsed_result w path s = (Ret (cup, rot), s') /\
    dict_get "cup_coordinates" envelope = Some cup /\
    (exists msg, dict_get "message" envelope = Some (JStr msg)) /\
    dict_get "rotation_axis" envelope = (if truthy rot then Some rot else None) /\
    (three_components rot -> dict_get "rotation_axis" envelope = Some rot) /\
    (rot = JNull -> dict_get "rotation_axis" envelope = None).
Proof.
  unfold process_session_on_gpu_server, try_except, bind.
  destruct (parsed_result w path s) as [[[cup rot]|e] s1].
  - intros H _. injection H as <- <-. exists cup, rot.
    destruct (success_envelope_fields cup rot) as (_ & Hc & Hm & Hr).
    split; [reflexivity|]. split; [exact Hc|]. split; [eauto|]. split; [exact Hr|].
    rewrite Hr. split.
    + intros (a & b & c & ->). reflexivity.
    + intros ->. reflexivity.
  - intros H Hs. injection H as <- _. discriminate.
Qed.

(** C8 -- every pipeline invocation returns an envelope, and when it does,
    the temporary files it made -- the bundle, and the result file if the
    run came that far -- are gone, and every other local file is as it was.
    The name tempfile picks for the result file is taken to be canonical, so
    that the download writes that very file. *)
Theorem temporary_files_are_removed (w : world) (path : string) (s : state) :
  download_target w (result_path w s) = result_path w s ->
  exists envelope s' made,
    process_session_on_gpu_server w path s = (Ret envelope, s') /\
    (made = [bundle_path w s] \/ made = [bundle_path w s; result_path w s]) /\
    tmp_made s' = tmp_made s ++ made /\
    (forall p, In p made -> files s' !! p = None) /\
    (forall p, ~ In p made -> files s' !! p = files s !! p).
Proof.
  intros Hcanon.
  assert (Hone : forall s1,
            tmp_made s1 = tmp_made s ++ [bundle_path w s] ->
            files s1 = delete (bundle_path w s) (files s) ->
            (forall p, In p [bundle_path w s] -> files s1 !! p = None) /\
            (forall p, ~ In p [bundle_path w s] -> files s1 !! p = files s !! p)).
  { intros s1 _ ->. split; intros p Hp.
    - destruct Hp as [<-|[]]. apply lookup_delete_eq.
    - apply lookup_delete_ne. intros E. apply Hp. left. exact E. }
  unfold process_session_on_gpu_server, try_except, parsed_result, bind at 1 2,
    run_stages, bind at 1.
  pose proof (prepare_effect w path s) as Hp. cbv zeta in Hp.
  destruct (prepare w path s) as [[name|e] s1]; cbn [snd] in Hp; destruct Hp as [Ht1 Hf1].
  2:{ eexists _, s1, [bundle_path w s]. split; [reflexivity|]. split; [auto|].
      split; [exact Ht1|]. apply Hone; assumption. }
  unfold bind at 1. pose proof (keeps_run_model w s1) as [Hf2 Ht2].
  destruct (run_model w s1) as [[output|e] s2]; cbn [snd] in Hf2, Ht2.
  2:{ eexists _, s2, [bundle_path w s]. split; [reflexivity|]. split; [auto|].
      rewrite Ht2. split; [exact Ht1|]. apply Hone; congruence. }
  unfold ret at 1.
  assert (Hlocal : w_tmpname w (length (tmp_made s2)) ".json" = result_path w s).
  { unfold result_path. rewrite Ht2, Ht1, length_app. cbn [length].
    rewrite Nat.add_1_r. reflexivity. }
  destruct (fetch_result_effect w name output s2) as (parsed & s3 & Hfetch & Ht3 & Hf3).
  { rewrite Hlocal. exact Hcanon. }
  rewrite Hfetch. destruct parsed as [cup rot].
  rewrite Hlocal in Ht3, Hf3.
  eexists _, s3, [bundle_path w s; result_path w s]. split; [reflexivity|]. split; [auto|].
  split; [rewrite Ht3, Ht2, Ht1, <- List.app_assoc; reflexivity|].
  rewrite Hf3, Hf2, Hf1. split; intros p Hp.
  - destruct (decide (result_path w s = p)) as [<-|Hne]; [apply lookup_delete_eq|].
    rewrite lookup_delete_ne by exact Hne.
    destruct Hp as [<-|[<-|[]]]; [apply lookup_delete_eq|contradiction].
  - rewrite !lookup_delete_ne; [reflexivity| |]; intros E; apply Hp; cbn; auto.
Qed.

(** ** The theorems at work on the scenarios *)

Section Scenarios.
Import Scenario.

Lemma scenario_configured c entries run payload pop s :
  GPU_SERVER_HOST c <> EmptyString ->
  GPU_SERVER_SSH_KEY c = "/home/ar/gpu.pem" ->
  files s !! "/home/ar/gpu.pem" = Some "PRIVATE KEY" ->
  configured (make c entries run payload pop) s.
Proof.
  intros Hh Hk Hf. unfold configured. cbn [w_config w_cwd make]. rewrite Hk.
  split; [exact Hh|]. split; [discriminate|]. left.
  change (PosixPath.abspath "/srv/app" "/home/ar/gpu.pem") with "/home/ar/gpu.pem".
  rewrite Hf. eauto.
Qed.

(** C2 -- a root that holds the regular file [session_42.jsonl] and nothing
    else.  The pattern [session_*] of line 251 matches files as well as
    folders, so the file is taken for the session entry and its whole name,
    extension included, is the session name; the branch of lines 256-261,
    which strips the extension as the comment of line 259 says, is not
    reached.  In the words of section 4.1 the session is [session_42]. *)
Theorem session_jsonl_file_keeps_its_extension :
  w_listdir jsonl_only root = ["session_42.jsonl"] /\
  w_isdir jsonl_only (PosixPath.join root "session_42.jsonl") = false /\
  glob jsonl_only (PosixPath.join root "session_*")
    = [PosixPath.join root "session_42.jsonl"] /\
  resolve_session jsonl_only root start = (Ret (root, "session_42.jsonl"), start) /\
  resolve_by_spec (fun name => w_isdir jsonl_only (PosixPath.join root name))
    (w_listdir jsonl_only root) (w_now_ms jsonl_only) = "session_42".
Proof. repeat split; vm_compute; reflexivity. Qed.

Lemma session_name_has_prefix_witness :
  listings_hold_file_names several_entries /\
  exists name,
    fst (resolve_session several_entries root start) = Ret (root, name) /\
    startswith "session_" name = true.
Proof.
  assert (Hw : listings_hold_file_names several_entries).
  { intros d n Hn. unfold several_entries, make, listing in Hn. cbn [w_listdir] in Hn.
    destruct (String.eqb d "/tmp/up/extracted"); [|destruct Hn].
    destruct Hn as [<-|[<-|[<-|[]]]]; split; solve [discriminate | reflexivity]. }
  split; [exact Hw|].
  destruct (session_name_has_prefix several_entries root start Hw)
    as (r & name & Hrun & _ & _ & Hprefix).
  exists name. rewrite Hrun. cbn [fst]. split; [|exact Hprefix].
  assert (Hr : fst (fst (resolve_session several_entries root start)
                     , snd (resolve_session several_entries root start))
               = Ret (r, name)) by (rewrite Hrun; reflexivity).
  vm_compute in Hr. injection Hr as <- _. reflexivity.
Defined.

Lemma streaming_transcript_is_clean_witness :
  fst (run_on_gpu_server untidy_model "python run.py" true start)
  = Ret ("loading model" +:+ nl +:+ "  done").
Proof.
  destruct (streaming_transcript_is_clean untidy_model "python run.py" start
              ("loading model  " +:+ String "013" nl +:+ String "013" nl +:+
               "  done " +:+ nl)) as (Hrun & _ & _).
  - apply scenario_configured; [discriminate|reflexivity|reflexivity].
  - reflexivity.
  - rewrite Hrun. vm_compute. reflexivity.
Defined.

Lemma nonzero_exit_fails_the_run_witness :
  exists envelope,
    fst (process_session_on_gpu_server (model_fails noisy_output 2) root start)
      = Ret envelope /\
    dict_get "success" envelope = Some (JBool false) /\
    exists text, dict_get "error" envelope = Some (JStr text) /\
                 contains "(코드: 2)" text = true /\ endswith "done" text = true.
Proof.
  set (w := model_fails noisy_output 2).
  set (s := snd (prepare w root start)).
  destruct (nonzero_exit_fails_the_run w (script_command (w_config w)) s noisy_output 2)
    as (_ & _ & Hpipeline).
  - apply scenario_configured; [discriminate|reflexivity|]. vm_compute. reflexivity.
  - vm_compute. reflexivity.
  - discriminate.
  - destruct (Hpipeline root start "session_1000") as (Hrun & Hsuccess & Herror).
    + vm_compute. reflexivity.
    + reflexivity.
    + eexists. rewrite Hrun. cbn [fst]. split; [reflexivity|]. split; [exact Hsuccess|].
      eexists. split; [exact Herror|]. split; vm_compute; reflexivity.
Defined.

Lemma transfer_failure_mapping_witness :
  reports_connectivity the_config
    (fst (upload_to_gpu_server (transfer_meets the_config (RunExited 1 EmptyString refused))
            "/tmp/bundle.tar.gz" "/data/ar_folder/bundle.tar.gz" start))
    refused true true true /\
  reports_transfer_error "SCP 다운로드 실패: " "scp: no such file"
    (fst (download_from_gpu_server
            (transfer_meets the_config (RunExited 1 EmptyString "scp: no such file"))
            "/data/ar_folder/r.json" "/tmp/r.json" start)).
Proof.
  split.
  - destruct (transfer_failure_mapping
                (transfer_meets the_config (RunExited 1 EmptyString refused))
                "/tmp/bundle.tar.gz" "/data/ar_folder/bundle.tar.gz" start)
      as (_ & _ & _ & _ & Hconn & _).
    + apply scenario_configured; [discriminate|reflexivity|reflexivity].
    + apply (Hconn 1%Z EmptyString refused); [discriminate|reflexivity|reflexivity].
  - destruct (transfer_failure_mapping
                (transfer_meets the_config (RunExited 1 EmptyString "scp: no such file"))
                "/tmp/r.json" "/data/ar_folder/r.json" start)
      as (_ & _ & _ & _ & _ & Hother).
    + apply scenario_configured; [discriminate|reflexivity|reflexivity].
    + apply (Hother 1%Z EmptyString "scp: no such file");
        [discriminate|reflexivity|reflexivity].
Defined.

(** C5 does not hold of a download that times out: the error names host
    and port and gives no advice at all. *)
Lemma download_timeout_gives_no_advice :
  let w := transfer_meets the_config RunTimeout in
  let fetched := download_from_gpu_server w "/data/ar_folder/r.json" "/tmp/r.json" start in
  w_run w 0 (download_cmd w (normalized_key w) "/data/ar_folder/r.json" "/tmp/r.json")
    = RunTimeout /\
  (exists msg,
     fst fetched = Raise (Exn Exception_ msg) /\
     advises_vpn msg = false /\ advises_host msg = false /\ advises_network msg = false) /\
  ~ reports_connectivity the_config (fst fetched) EmptyString true true true.
Proof.
  cbv zeta. split; [reflexivity|]. split.
  - eexists. split; [vm_compute; reflexivity|]. repeat split; vm_compute; reflexivity.
  - intros (lead & words & Hr & _ & Hwords).
    assert (Hvpn : advises_vpn words = true) by (injection Hwords; auto).
    assert (Hmsg : advises_vpn (lead +:+ host_port the_config +:+ words +:+ EmptyString)
                   = true).
    { unfold advises_vpn. apply contains_app_r, contains_app_r, contains_app_l, Hvpn. }
    set (msg := lead +:+ host_port the_config +:+ words +:+ EmptyString) in *.
    assert (Hlit : fst (download_from_gpu_server (transfer_meets the_config RunTimeout)
                          "/data/ar_folder/r.json" "/tmp/r.json" start)
                   = Raise (Exn Exception_ (download_timeout_msg the_config)))
      by (vm_compute; reflexivity).
    rewrite Hlit in Hr. injection Hr as Hr. rewrite <- Hr in Hmsg.
    vm_compute in Hmsg. discriminate.
Qed.

Lemma config_guard_precedes_network_witness :
  exists e,
    upload_to_gpu_server (transfer_meets the_config RunTimeout)
      "/tmp/bundle.tar.gz" "/data/ar_folder/bundle.tar.gz" no_key_file
    = (Raise e, no_key_file) /\
    exn_class_of e = FileNotFoundError /\ spawned no_key_file = [].
Proof.
  destruct (config_guard_precedes_network (transfer_meets the_config RunTimeout) no_key_file)
    as (e & Hclass & Hall).
  - right. right. split; reflexivity.
  - destruct (Hall "/tmp/bundle.tar.gz" "/data/ar_folder/bundle.tar.gz" "true" true)
      as (Hup & _).
    exists e. split; [exact Hup|]. split; [|reflexivity].
    vm_compute in Hup. injection Hup as <-. reflexivity.
Defined.

(** C6 does not hold of the remote user: with the user left empty the
    upload is attempted all the same. *)
Lemma unset_user_is_not_checked :
  let w := transfer_meets no_user_config (RunExited 0 EmptyString EmptyString) in
  let uploaded :=
    upload_to_gpu_server w "/tmp/bundle.tar.gz" "/data/ar_folder/bundle.tar.gz" start in
  GPU_SERVER_USER (w_config w) = EmptyString /\
  fst uploaded = Ret tt /\
  spawned (snd uploaded) =
    [upload_cmd w "/home/ar/gpu.pem" "/tmp/bundle.tar.gz" "/data/ar_folder/bundle.tar.gz"] /\
  ~ (exists e, uploaded = (Raise e, start)).
Proof.
  cbv zeta. split; [reflexivity|]. split; [vm_compute; reflexivity|].
  split; [vm_compute; reflexivity|].
  intros [e He]. vm_compute in He. discriminate.
Qed.

Lemma fallback_on_failed_download_witness :
  fst (fetch_result (transfer_meets the_config (RunExited 1 EmptyString "scp: no such file"))
         "session_1000" noisy_output start)
  = Ret (JArr [JFloat 10 (-1); JFloat 20 (-1); JFloat 30 (-1)], JNull).
Proof.
  set (w := transfer_meets the_config (RunExited 1 EmptyString "scp: no such file")).
  destruct (parse_downloaded w
              (PosixPath.join (GPU_SERVER_WORK_DIR (w_config w))
                 ("session_1000" +:+ "_result.json"))
              (w_tmpname w (length (tmp_made start)) ".json")
              (State (<[w_tmpname w (length (tmp_made start)) ".json":=EmptyString]>
                        (files start))
                     (spawned start)
                     (tmp_made start ++ [w_tmpname w (length (tmp_made start)) ".json"])))
    as [[parsed|e] s2] eqn:E.
  - vm_compute in E. discriminate.
  - destruct (fallback_on_failed_download w "session_1000" noisy_output start e s2 E)
      as (Hfetch & _).
    rewrite Hfetch. vm_compute. reflexivity.
Defined.

(** C1 does not hold of a captured output that holds two JSON documents.
    The first brace-delimited document decodes, to the coordinates 1, 2, 3;
    but the text that is decoded runs from the first opening brace to the
    last closing brace, which is both documents and the line break between
    them, and the result is the default. *)
Lemma first_document_is_not_decoded_alone :
  let w := download_refused two_documents_output in
  let first_document := doc_cup "[1.0, 2.0, 3.0]" in
  (exists rest,
     fst (run_stages w root start) = Ret ("session_1000", first_document +:+ rest)) /\
  w_json_loads w first_document
    = Some (JObj [("cup_coordinates",
                   JArr [JFloat 10 (-1); JFloat 20 (-1); JFloat 30 (-1)])]) /\
  (exists e, fst (download_from_gpu_server w "/data/ar_folder/session_1000_result.json"
                    "/tmp/tmp1.json" (snd (run_stages w root start))) = Raise e) /\
  fst (parsed_result w root start) = Ret (zero_coordinates, JNull) /\
  fst (process_session_on_gpu_server w root start)
    = Ret (success_envelope zero_coordinates JNull).
Proof.
  cbv zeta. split; [eexists; vm_compute; reflexivity|].
  split; [vm_compute; reflexivity|].
  split; [eexists; vm_compute; reflexivity|].
  split; vm_compute; reflexivity.
Qed.

Lemma parsed_result_provenance_witness :
  exists cup rot,
    fst (parsed_result (downloaded (doc_cup_rot "[0.1, 0.2, 0.3]" "[0, 0, 1]")) root start)
      = Ret (cup, rot) /\
    read_off (downloaded (doc_cup_rot "[0.1, 0.2, 0.3]" "[0, 0, 1]"))
      (doc_cup_rot "[0.1, 0.2, 0.3]" "[0, 0, 1]") (cup, rot).
Proof.
  set (w := downloaded (doc_cup_rot "[0.1, 0.2, 0.3]" "[0, 0, 1]")).
  destruct (parsed_result w root start) as [[[cup rot]|e] s'] eqn:E.
  - destruct (parsed_result_provenance w root start cup rot s' E)
      as (name & output & s1 & Hstages & _ & Hsource & _).
    exists cup, rot. split; [reflexivity|].
    vm_compute in Hstages. injection Hstages as <- <- <-.
    destruct Hsource as [(content & (s2 & Hd & Hfile) & Hread)|[(m & Hspan & _)|Hdefault]].
    + vm_compute in Hd. injection Hd as <-.
      vm_compute in Hfile. injection Hfile as <-. exact Hread.
    + vm_compute in Hspan. discriminate.
    + vm_compute in E. injection E as <- _ _. discriminate.
  - vm_compute in E. discriminate.
Defined.

(** C3 does not hold of a result file whose [cup_coordinates] holds two
    numbers: they are passed on as they are. *)
Lemma two_coordinates_pass_through :
  let w := downloaded (doc_cup "[0.1, 0.2]") in
  fst (parsed_result w root start) = Ret (JArr [JFloat 1 (-1); JFloat 2 (-1)], JNull) /\
  ~ three_components (JArr [JFloat 1 (-1); JFloat 2 (-1)]).
Proof.
  cbv zeta. split; [vm_compute; reflexivity|].
  intros (a & b & c & H). discriminate.
Qed.

Lemma success_envelope_shape_witness :
  exists envelope,
    fst (process_session_on_gpu_server
           (downloaded (doc_cup_rot "[0.1, 0.2, 0.3]" "[0, 0, 1]")) root start)
      = Ret envelope /\
    dict_get "rotation_axis" envelope = Some (JArr [JInt 0; JInt 0; JInt 1]).
Proof.
  set (w := downloaded (doc_cup_rot "[0.1, 0.2, 0.3]" "[0, 0, 1]")).
  destruct (process_session_on_gpu_server w root start) as [[envelope|e] s'] eqn:E.
  - destruct (success_envelope_shape w root start envelope s' E)
      as (cup & rot & Hparsed & _ & _ & Haxis & _).
    + vm_compute in E. injection E as <- _. reflexivity.
    + exists envelope. split; [reflexivity|]. rewrite Haxis.
      vm_compute in Hparsed. injection Hparsed as _ <- _. reflexivity.
  - vm_compute in E. discriminate.
Defined.

(** C7 does not hold of a result file whose [rotation_axis] is the empty
    list: the parsed result holds it, the envelope does not. *)
Lemma empty_axis_is_dropped :
  let w := downloaded (doc_cup_rot "[0.1, 0.2, 0.3]" "[]") in
  exists cup envelope,
    fst (parsed_result w root start) = Ret (cup, JArr []) /\
    JArr [] <> JNull /\
    fst (process_session_on_gpu_server w root start) = Ret envelope /\
    dict_get "success" envelope = Some (JBool true) /\
    dict_get "rotation_axis" envelope = None.
Proof.
  cbv zeta. eexists _, _. split; [vm_compute; reflexivity|]. split; [discriminate|].
  split; [vm_compute; reflexivity|]. split; reflexivity.
Qed.

Lemma temporary_files_are_removed_witness :
  exists envelope s',
    process_session_on_gpu_server (downloaded (doc_cup "[0.1, 0.2, 0.3]")) root start
      = (Ret envelope, s') /\
    tmp_made s' = ["/tmp/tmp0.tar.gz"; "/tmp/tmp1.json"] /\
    files s' !! "/tmp/tmp0.tar.gz" = None /\
    files s' !! "/tmp/tmp1.json" = None /\
    files s' !! "/home/ar/gpu.pem" = Some "PRIVATE KEY".
Proof.
  set (w := downloaded (doc_cup "[0.1, 0.2, 0.3]")).
  destruct (temporary_files_are_removed w root start)
    as (envelope & s' & made & Hrun & Hmade & Htmp & Hgone & Hkept).
  - reflexivity.
  - exists envelope, s'. split; [exact Hrun|].
    assert (Hm : made = ["/tmp/tmp0.tar.gz"; "/tmp/tmp1.json"]).
    { destruct Hmade as [->| ->]; [|reflexivity].
      vm_compute in Hrun. injection Hrun as _ <-. discriminate Htmp. }
    subst made. split; [exact Htmp|].
    split; [apply Hgone; left; reflexivity|].
    split; [apply Hgone; right; left; reflexivity|].
    rewrite Hkept; [reflexivity|]. intros [H|[H|[]]]; discriminate.
Defined.

End Scenarios.


(** * Further properties of the pipeline and of the HTTP handler *)

(** ** The pipeline as a whole *)

Section Outcome.
Variable w : world.

(** The envelope is the success envelope of the parsed result, or the
    failure envelope of the exception that stopped the run. *)
Lemma pipeline_outcome path s :
  process_session_on_gpu_server w path s =
  match parsed_result w path s with
  | (Ret (cup, rot), s') => (Ret (success_envelope cup rot), s')
  | (Raise e, s') => (Ret (failure_envelope w e), s')
  end.
Proof.
  unfold process_session_on_gpu_server, try_except, bind.
  destruct (parsed_result w path s) as [[[cup rot]|e] s']; reflexivity.
Qed.

(** Stage 4 returns whatever the download and the decoder do. *)
Lemma fetch_result_returns name output s :
  exists parsed s', fetch_result w name output s = (Ret parsed, s').
Proof.
  rewrite fetch_result_run.
  match goal with |- context [parse_downloaded w ?r ?l ?s1] =>
    destruct (parse_downloaded w r l s1) as [[p|e] s2] end; cbn [fst snd]; eauto.
Qed.

End Outcome.

(** X2 -- once the model run has returned, the pipeline reports success,
    whatever becomes of the download and of the decoding. *)
Theorem success_once_model_ran
    (w : world) (path : string) (s : state) (name output : string) (s1 : state) :
  run_stages w path s = (Ret (name, output), s1) ->
  exists cup rot s',
    process_session_on_gpu_server w path s = (Ret (success_envelope cup rot), s') /\
    fetch_result w name output s1 = (Ret (cup, rot), s') /\
    dict_get "success" (success_envelope cup rot) = Some (JBool true).
Proof.
  intros Hstages. rewrite pipeline_outcome. unfold parsed_result, bind. rewrite Hstages.
  destruct (fetch_result_returns w name output s1) as ([cup rot] & s' & Hfetch).
  rewrite Hfetch. exists cup, rot, s'. split; [reflexivity|]. split; [reflexivity|].
  apply success_envelope_fields.
Qed.

(** ** Stage by stage *)

Section StageRuns.
Variable w : world.

Lemma configured_files s s' :
  (forall p, is_Some (files s !! p) -> is_Some (files s' !! p)) ->
  configured w s -> configured w s'.
Proof.
  intros Hsub (Hh & Hk & Hf). split; [exact Hh|]. split; [exact Hk|].
  destruct Hf as [Hf|Hf]; [left; apply Hsub, Hf|right; exact Hf].
Qed.

Lemma configured_started cmd s : configured w s -> configured w (started cmd s).
Proof. apply configured_files. intros p Hp. exact Hp. Qed.

Lemma configured_insert p content sp tm s :
  configured w s -> configured w (State (<[p:=content]> (files s)) sp tm).
Proof.
  apply configured_files. intros q Hq. cbn [files].
  destruct (decide (p = q)) as [->|Hne].
  - rewrite lookup_insert_eq. eauto.
  - rewrite lookup_insert_ne by exact Hne. exact Hq.
Qed.

Lemma run_realtime_cases command s :
  configured w s ->
  run_on_gpu_server w command true s =
  (match w_popen w (length (spawned s)) (ssh_cmd w (normalized_key w) command true) with
   | PopenSpawnError msg => Raise (Exn OSError msg)
   | PopenExited output rc =>
       if negb (rc =? 0)%Z
       then Raise (Exn Exception_ (ssh_failed_realtime_msg rc (captured_lines output)))
       else Ret (PyStr.join nl (captured_lines output))
   end,
   started (ssh_cmd w (normalized_key w) command true) s).
Proof.
  intros Hc. unfold run_on_gpu_server, bind. rewrite (checked_ssh_key_ok w s Hc).
  unfold popen, started. destruct (w_popen w _ _) as [msg|output rc]; [reflexivity|].
  unfold try_except. destruct (negb (rc =? 0)%Z); reflexivity.
Qed.

Lemma run_batch_cases command s :
  configured w s ->
  run_on_gpu_server w command false s =
  (match w_run w (length (spawned s)) (ssh_cmd w (normalized_key w) command false) with
   | RunSpawnError msg => Raise (Exn OSError msg)
   | RunTimeout => Raise (Exn TimeoutExpired "timed out")
   | RunExited rc out err =>
       if negb (rc =? 0)%Z
       then Raise (Exn Exception_ (ssh_failed_msg rc (diagnostic out err)))
       else Ret out
   end,
   started (ssh_cmd w (normalized_key w) command false) s).
Proof.
  intros Hc. unfold run_on_gpu_server, bind. rewrite (checked_ssh_key_ok w s Hc).
  unfold subprocess_run, started. destruct (w_run w _ _) as [msg| |rc out err]; try reflexivity.
  destruct (negb (rc =? 0)%Z); reflexivity.
Qed.

Lemma bundle_gone tar x y (fs : gmap string string) :
  delete tar (<[tar:=x]> (<[tar:=y]> fs)) = delete tar fs.
Proof. rewrite !delete_insert_eq. reflexivity. Qed.

(** Stage 1 when packing fails: nothing is started. *)
Lemma upload_session_unpacked actual name s msg :
  w_tar w actual name = inl msg ->
  upload_session w actual name s = (Raise (Exn OSError msg), after_bundle w s []).
Proof.
  intros Htar. unfold upload_session, bind at 1, named_temporary_file.
  cbv beta iota. unfold try_finally, bind at 1, tarfile_write. rewrite Htar.
  rewrite unlink_present by (cbn [files]; rewrite lookup_insert_eq; eauto).
  unfold after_bundle, bundle_path. cbn [files spawned tmp_made].
  rewrite bundle_gone, List.app_nil_r. reflexivity.
Qed.

(** Stage 1 when packing succeeds, by what the two subprocesses meet. *)
Lemma upload_session_run actual name s bytes :
  configured w s ->
  w_tar w actual name = inr bytes ->
  let c := w_config w in
  let remote := PosixPath.join (GPU_SERVER_WORK_DIR c) (name +:+ ".tar.gz") in
  let up := upload_cmd w (normalized_key w) (bundle_path w s) remote in
  let ex := ssh_cmd w (normalized_key w) (extract_cmd c name remote) true in
  let n := length (spawned s) in
  upload_session w actual name s =
  match w_run w n up with
  | RunSpawnError msg => (Raise (Exn OSError msg), after_bundle w s [up])
  | RunTimeout => (Raise (Exn Exception_ (upload_timeout_msg c)), after_bundle w s [up])
  | RunExited rc out err =>
      if negb (rc =? 0)%Z then
        (Raise (Exn Exception_
                  (if transport_error (diagnostic out err)
                   then upload_connect_msg c (diagnostic out err)
                   else upload_failed_msg (diagnostic out err))),
         after_bundle w s [up])
      else
        match w_popen w (S n) ex with
        | PopenSpawnError msg => (Raise (Exn OSError msg), after_bundle w s [up; ex])
        | PopenExited output rc' =>
            if negb (rc' =? 0)%Z
            then (Raise (Exn Exception_ (ssh_failed_realtime_msg rc' (captured_lines output))),
                  after_bundle w s [up; ex])
            else (Ret tt, after_bundle w s [up; ex])
        end
  end.
Proof.
  intros Hc Htar c remote up ex n.
  unfold upload_session, bind at 1, named_temporary_file. cbv beta iota.
  fold (bundle_path w s). set (tar := bundle_path w s) in *.
  unfold try_finally, bind at 1, tarfile_write. rewrite Htar.
  set (s2 := State (<[tar:=bytes]> (<[tar:=EmptyString]> (files s))) (spawned s)
                   (tmp_made s ++ [tar])).
  assert (Hc2 : configured w s2).
  { apply (configured_files s); [|exact Hc]. intros p Hp. cbn [files s2].
    destruct (decide (tar = p)) as [<-|Hne]; [rewrite lookup_insert_eq; eauto|].
    rewrite !lookup_insert_ne by exact Hne. exact Hp. }
  assert (Hsome : forall cmd cmds,
            is_Some (files (State (files s2) cmd cmds) !! tar)).
  { intros. cbn [files s2]. rewrite lookup_insert_eq. eauto. }
  assert (Hend : forall (r : outcome unit) sp,
            (let (o, s4) := unlink_if_exists w tar (State (files s2) sp (tmp_made s2)) in
             match o with
             | Ret _ => (r, s4)
             | Raise e => (Raise e, s4)
             end) = (r, State (delete tar (files s)) sp (tmp_made s ++ [tar]))).
  { intros r sp. rewrite unlink_present by apply Hsome.
    cbn [files spawned tmp_made s2]. rewrite bundle_gone. reflexivity. }
  cbn [files spawned tmp_made]. fold s2. fold c. fold remote.
  unfold bind at 1. rewrite (upload_run w tar remote s2 Hc2).
  fold c up. change (length (spawned s2)) with n.
  unfold after_bundle. fold tar.
  destruct (w_run w n up) as [msg| |rc out err].
  - apply (Hend _ (spawned s ++ [up])).
  - apply (Hend _ (spawned s ++ [up])).
  - destruct (negb (rc =? 0)%Z).
    + destruct (transport_error (diagnostic out err)); apply (Hend _ (spawned s ++ [up])).
    + unfold bind at 1.
      rewrite (run_realtime_cases (extract_cmd c name remote) (started up s2)
                 (configured_started up s2 Hc2)).
      fold ex. replace (length (spawned (started up s2))) with (S n)
        by (cbn [spawned started s2]; rewrite length_app; cbn [length]; subst n; lia).
      replace (spawned s ++ [up; ex]) with ((spawned s ++ [up]) ++ [ex])
        by (rewrite <- List.app_assoc; reflexivity).
      destruct (w_popen w (S n) ex) as [msg|output rc']; [apply Hend|].
      destruct (negb (rc' =? 0)%Z); apply Hend.
Qed.

End StageRuns.

Section PipelineStops.
Variable w : world.

(** A stage 1 that raises ends the pipeline with the failure envelope. *)
Lemma pipeline_stops_in_stage1 path s root name e s' :
  resolve_session w path s = (Ret (root, name), s) ->
  upload_session w root name s = (Raise e, s') ->
  process_session_on_gpu_server w path s = (Ret (failure_envelope w e), s').
Proof.
  intros Hres Hup. rewrite pipeline_outcome.
  unfold parsed_result, run_stages, prepare, bind. rewrite Hres, Hup. reflexivity.
Qed.

(** Stage 1 when the guard of the upload raises. *)
Lemma upload_session_guarded actual name s bytes e :
  w_tar w actual name = inr bytes ->
  (forall sp tm,
     checked_ssh_key w
       (State (<[bundle_path w s:=bytes]> (<[bundle_path w s:=EmptyString]> (files s))) sp tm)
     = (Raise e,
        State (<[bundle_path w s:=bytes]> (<[bundle_path w s:=EmptyString]> (files s))) sp tm)) ->
  upload_session w actual name s = (Raise e, after_bundle w s []).
Proof.
  intros Htar Hguard. unfold upload_session, bind at 1, named_temporary_file.
  cbv beta iota. fold (bundle_path w s). set (tar := bundle_path w s) in *.
  unfold try_finally, bind at 1, tarfile_write. rewrite Htar.
  cbn [files spawned tmp_made].
  unfold bind at 1, upload_to_gpu_server, bind at 1. rewrite Hguard.
  rewrite unlink_present by (cbn [files]; rewrite lookup_insert_eq; eauto).
  unfold after_bundle. fold tar. cbn [files spawned tmp_made].
  rewrite bundle_gone, List.app_nil_r. reflexivity.
Qed.

End PipelineStops.

(** X3 -- when packing the session folder fails, the pipeline returns the
    failure envelope of that error, has started no subprocess, and has
    deleted the bundle file it had made. *)
Theorem packaging_failure_starts_nothing
    (w : world) (path : string) (s : state) (root name msg : string) :
  resolve_session w path s = (Ret (root, name), s) ->
  w_tar w root name = inl msg ->
  process_session_on_gpu_server w path s
    = (Ret (failure_envelope w (Exn OSError msg)), after_bundle w s []) /\
  spawned (after_bundle w s []) = spawned s /\
  files (after_bundle w s []) !! bundle_path w s = None.
Proof.
  intros Hres Htar. split; [|split].
  - apply (pipeline_stops_in_stage1 w path s root name _ _ Hres).
    apply upload_session_unpacked, Htar.
  - cbn. apply List.app_nil_r.
  - cbn. apply lookup_delete_eq.
Qed.

(** X4 -- when the remote host or the key is not configured, the pipeline
    still packs the bundle, then stops at the guard of the upload: it
    returns the failure envelope of the configuration error, has started no
    subprocess, and has deleted the bundle. *)
Theorem unconfigured_pipeline_starts_nothing
    (w : world) (path : string) (s : state) (root name bytes : string) :
  resolve_session w path s = (Ret (root, name), s) ->
  w_tar w root name = inr bytes ->
  GPU_SERVER_HOST (w_config w) = EmptyString \/
  GPU_SERVER_SSH_KEY (w_config w) = EmptyString ->
  let e := Exn ValueError "GPU 서버 설정이 없습니다. config.py를 확인하세요." in
  process_session_on_gpu_server w path s = (Ret (failure_envelope w e), after_bundle w s []) /\
  dict_get "error" (failure_envelope w e) = Some (JStr (exn_str e)) /\
  spawned (after_bundle w s []) = spawned s /\
  files (after_bundle w s []) !! bundle_path w s = None.
Proof.
  intros Hres Htar Hunset e. split; [|split; [reflexivity|split]].
  - apply (pipeline_stops_in_stage1 w path s root name _ _ Hres).
    apply (upload_session_guarded w root name s bytes e Htar).
    intros sp tm. apply checked_ssh_key_unset, Hunset.
  - cbn. apply List.app_nil_r.
  - cbn. apply lookup_delete_eq.
Qed.

(** X5 -- a bundle upload that fails stops the pipeline at once: the remote
    extraction, the scripts and the model run are never started.  One
    subprocess has been started, the failure envelope carries the error of
    the upload, and the bundle is deleted. *)
Theorem failed_upload_stops_the_pipeline
    (w : world) (path : string) (s : state) (root name bytes : string)
    (rc : Z) (out err : string) :
  configured w s ->
  resolve_session w path s = (Ret (root, name), s) ->
  w_tar w root name = inr bytes ->
  let c := w_config w in
  let remote := PosixPath.join (GPU_SERVER_WORK_DIR c) (name +:+ ".tar.gz") in
  let up := upload_cmd w (normalized_key w) (bundle_path w s) remote in
  w_run w (length (spawned s)) up = RunExited rc out err ->
  rc <> 0%Z ->
  exists text,
    process_session_on_gpu_server w path s
      = (Ret (failure_envelope w (Exn Exception_ text)), after_bundle w s [up]) /\
    (text = upload_connect_msg c (diagnostic out err) \/
     text = upload_failed_msg (diagnostic out err)) /\
    spawned (after_bundle w s [up]) = spawned s ++ [up] /\
    files (after_bundle w s [up]) !! bundle_path w s = None.
Proof.
  intros Hc Hres Htar c remote up Hrun Hrc.
  pose proof (upload_session_run w root name s bytes Hc Htar) as Hstage.
  cbv zeta in Hstage. fold c remote up in Hstage. rewrite Hrun in Hstage.
  apply Z.eqb_neq in Hrc. rewrite Hrc in Hstage. cbn [negb] in Hstage.
  eexists. split; [|split; [|split]].
  - apply (pipeline_stops_in_stage1 w path s root name _ _ Hres). exact Hstage.
  - destruct (transport_error (diagnostic out err)); auto.
  - reflexivity.
  - cbn. apply lookup_delete_eq.
Qed.

(** X6 -- a stage 1 that goes through has started two subprocesses, in this
    order: the upload of the bundle to [<work_dir>/<name>.tar.gz], then the
    streaming shell command that unpacks that very archive, renames a folder
    [extracted] to [<name>] and removes the archive. *)
Theorem stage1_uploads_then_unpacks
    (w : world) (root name : string) (s : state) (bytes out err output : string) :
  configured w s ->
  w_tar w root name = inr bytes ->
  let c := w_config w in
  let remote := PosixPath.join (GPU_SERVER_WORK_DIR c) (name +:+ ".tar.gz") in
  let up := upload_cmd w (normalized_key w) (bundle_path w s) remote in
  let ex := ssh_cmd w (normalized_key w) (extract_cmd c name remote) true in
  w_run w (length (spawned s)) up = RunExited 0 out err ->
  w_popen w (S (length (spawned s))) ex = PopenExited output 0 ->
  upload_session w root name s = (Ret tt, after_bundle w s [up; ex]) /\
  last up = Some (user_at_host c +:+ ":" +:+ remote) /\
  last ex = Some (extract_cmd c name remote) /\
  (has_char "/" name = false ->
   extract_cmd c name remote =
     "cd " +:+ GPU_SERVER_WORK_DIR c +:+ " && tar -xzf " +:+ name +:+ ".tar.gz" +:+
     " && if [ -d extracted ] && [ ! -d " +:+ name +:+ " ]; then mv extracted " +:+
     name +:+ "; fi && rm " +:+ name +:+ ".tar.gz").
Proof.
  intros Hc Htar c remote up ex Hrun Hpopen.
  pose proof (upload_session_run w root name s bytes Hc Htar) as Hstage.
  cbv zeta in Hstage. fold c remote up ex in Hstage.
  rewrite Hrun, Hpopen in Hstage. split; [exact Hstage|].
  split; [reflexivity|]. split; [reflexivity|].
  intros Hname. unfold extract_cmd, remote.
  rewrite basename_join
    by (rewrite has_char_app; unfold PosixPath.sep; rewrite Hname; reflexivity).
  rewrite !str_app_assoc. reflexivity.
Qed.

(** ** Stage 2: the scripts *)

Section Stage2.
Variable w : world.

Lemma upload_script_absent script s :
  files s !! script_local w script = None ->
  w_isdir w (script_local w script) = false ->
  upload_script w script s = (Ret tt, s).
Proof.
  intros Hfile Hdir. unfold upload_script, bind, os_path_exists.
  fold (script_local w script). rewrite Hdir, bool_decide_eq_false_2; [reflexivity|].
  rewrite Hfile. intros [x Hx]. discriminate.
Qed.

Lemma upload_script_present script s :
  on_disk w s (script_local w script) ->
  upload_script w script s =
  upload_to_gpu_server w (script_local w script) (script_remote w script) s.
Proof.
  intros Hdisk. unfold upload_script, bind, os_path_exists.
  fold (script_local w script) (script_remote w script).
  destruct Hdisk as [Hfile|Hdir].
  - rewrite bool_decide_eq_true_2 by exact Hfile. reflexivity.
  - rewrite Hdir, orb_true_r. reflexivity.
Qed.

Lemma on_disk_started cmd s p : on_disk w s p -> on_disk w (started cmd s) p.
Proof. intros H. exact H. Qed.

End Stage2.

(** X7 -- a script that is not on the local disk is skipped without a word:
    with neither script present, stage 2 returns at once, starts no
    subprocess and changes nothing, whether or not the remote host is
    configured. *)
Theorem absent_scripts_are_skipped (w : world) (s : state) :
  (forall script,
     In script ["process_and_save_result.py"; "inference_with_pose.py"] ->
     files s !! script_local w script = None /\ w_isdir w (script_local w script) = false) ->
  upload_scripts w s = (Ret tt, s).
Proof.
  intros Habsent. unfold upload_scripts, bind.
  destruct (Habsent "process_and_save_result.py") as [Hf1 Hd1]; [cbn; auto|].
  destruct (Habsent "inference_with_pose.py") as [Hf2 Hd2]; [cbn; auto|].
  rewrite (upload_script_absent w _ s Hf1 Hd1).
  apply (upload_script_absent w _ s Hf2 Hd2).
Qed.

(** X8 -- with both scripts on disk, stage 2 uploads
    [process_and_save_result.py] first and [inference_with_pose.py] second,
    each to the work directory under its own name, and the second only when
    the first upload has exited with status 0: any other end of the first
    upload raises after that one subprocess. *)
Theorem scripts_go_up_in_order (w : world) (s : state) :
  configured w s ->
  on_disk w s (script_local w "process_and_save_result.py") ->
  on_disk w s (script_local w "inference_with_pose.py") ->
  let up script :=
    upload_cmd w (normalized_key w) (script_local w script) (script_remote w script) in
  let first := up "process_and_save_result.py" in
  let second := up "inference_with_pose.py" in
  (forall out err,
     w_run w (length (spawned s)) first = RunExited 0 out err ->
     snd (upload_scripts w s) = State (files s) (spawned s ++ [first; second]) (tmp_made s)) /\
  ((forall out err, w_run w (length (spawned s)) first <> RunExited 0 out err) ->
   exists e, upload_scripts w s = (Raise e, started first s)) /\
  last first =
    Some (user_at_host (w_config w) +:+ ":" +:+
          PosixPath.join (GPU_SERVER_WORK_DIR (w_config w)) "process_and_save_result.py") /\
  last second =
    Some (user_at_host (w_config w) +:+ ":" +:+
          PosixPath.join (GPU_SERVER_WORK_DIR (w_config w)) "inference_with_pose.py").
Proof.
  intros Hc H1 H2 up first second.
  assert (Hstage : upload_scripts w s =
            match upload_to_gpu_server w (script_local w "process_and_save_result.py")
                    (script_remote w "process_and_save_result.py") s with
            | (Ret _, s1) => upload_script w "inference_with_pose.py" s1
            | (Raise e, s1) => (Raise e, s1)
            end).
  { unfold upload_scripts, bind. rewrite (upload_script_present w _ s H1). reflexivity. }
  rewrite (upload_run w _ _ s Hc) in Hstage. fold (up "process_and_save_result.py") in Hstage.
  fold first in Hstage.
  split; [|split; [|split; reflexivity]].
  - intros out err Hrun. rewrite Hstage, Hrun. cbn [negb Z.eqb].
    rewrite (upload_script_present w _ (started first s) (on_disk_started w first s _ H2)).
    rewrite (upload_run w _ _ (started first s) (configured_started w first s Hc)).
    cbn [snd]. unfold started. cbn [spawned files tmp_made].
    rewrite <- List.app_assoc. reflexivity.
  - intros Hnot. rewrite Hstage.
    destruct (w_run w (length (spawned s)) first) as [msg| |rc out err] eqn:Hrun; eauto.
    destruct (Z.eqb_spec rc 0) as [->|Hrc]; [destruct (Hnot out err eq_refl)|].
    cbn [negb]. destruct (transport_error (diagnostic out err)); eauto.
Qed.

(** ** The batch branch of [run_on_gpu_server] *)

(** X9 -- a batch run that passes the guard starts one subprocess.  On exit
    status 0 it returns the standard output as it stands; on any other
    status it raises with the status and the standard error, or the standard
    output when the standard error is empty.  A timeout is not turned into a
    message of the program's own: the [TimeoutExpired] of the subprocess
    propagates. *)
Theorem batch_run_outcomes (w : world) (command : string) (s : state) :
  configured w s ->
  let cmd := ssh_cmd w (normalized_key w) command false in
  let met := w_run w (length (spawned s)) cmd in
  let r := run_on_gpu_server w command false s in
  snd r = started cmd s /\
  (forall out err, met = RunExited 0 out err -> fst r = Ret out) /\
  (forall rc out err,
     met = RunExited rc out err -> rc <> 0%Z ->
     fst r = Raise (Exn Exception_
                      ("SSH 명령 실행 실패 (코드: " +:+ str_int rc +:+ "): " +:+
                       (if String.eqb err EmptyString then out else err)))) /\
  (met = RunTimeout -> exists e, fst r = Raise e /\ exn_class_of e = TimeoutExpired).
Proof.
  intros Hc cmd met r. subst r. rewrite (run_batch_cases w command s Hc).
  fold cmd. fold met. cbn [fst snd]. split; [reflexivity|]. split; [|split].
  - intros out err ->. reflexivity.
  - intros rc out err -> Hrc. apply Z.eqb_neq in Hrc. rewrite Hrc. reflexivity.
  - intros ->. eexists. split; reflexivity.
Qed.

(** ** Stage 4: the result *)

Section Stage4.
Variable w : world.

Lemma read_fields_obj members s :
  read_fields (JObj members) s = (Ret (fields_of members), s).
Proof.
  unfold read_fields, bind, py_get, fields_of.
  destruct (dict_get "cup_coordinates" members);
    destruct (dict_get "rotation_axis" members); reflexivity.
Qed.

(** The primary path when the download brings a document that decodes to an
    object. *)
Lemma parse_downloaded_document remote local s out err content members :
  configured w s ->
  download_target w local = local ->
  w_run w (length (spawned s)) (download_cmd w (normalized_key w) remote local)
    = RunExited 0 out err ->
  w_scp_payload w (length (spawned s)) = Some content ->
  w_json_loads w content = Some (JObj members) ->
  parse_downloaded w remote local s =
  (Ret (fields_of members),
   State (<[local:=content]> (files s))
         (spawned s ++ [download_cmd w (normalized_key w) remote local]) (tmp_made s)).
Proof.
  intros Hc Hcanon Hrun Hpayload Hloads.
  unfold parse_downloaded, bind at 1. rewrite (download_run w remote local s Hc), Hrun.
  cbn [negb Z.eqb]. unfold downloaded_into. rewrite Hpayload, Hcanon.
  unfold bind at 1, open_read. cbn [files]. rewrite lookup_insert_eq.
  unfold bind at 1, json_loads. rewrite Hloads. unfold ret at 1.
  apply read_fields_obj.
Qed.

Lemma after_first_open_exact before x :
  has_char "{" before = false -> after_first_open (before +:+ String "{" x) = Some x.
Proof.
  induction before as [|c before IH]; intros H; [reflexivity|].
  cbn [has_char] in H. apply orb_false_iff in H as [Hc Hrest].
  rewrite str_app_cons. cbn [after_first_open]. rewrite Hc. apply IH, Hrest.
Qed.

Lemma through_last_close_absent s :
  has_char "}" s = false -> through_last_close s = None.
Proof.
  induction s as [|c s IH]; intros H; [reflexivity|].
  cbn [has_char] in H. apply orb_false_iff in H as [Hc Hrest].
  cbn [through_last_close]. rewrite (IH Hrest), Hc. reflexivity.
Qed.

Lemma through_last_close_exact inner after :
  has_char "}" after = false ->
  through_last_close (inner +:+ String "}" after) = Some (inner +:+ "}").
Proof.
  intros H. induction inner as [|c inner IH].
  - change (EmptyString +:+ String "}" after) with (String "}" after).
    cbn [through_last_close]. rewrite (through_last_close_absent after H). reflexivity.
  - rewrite !str_app_cons. cbn [through_last_close]. rewrite IH. reflexivity.
Qed.

(** The match of the pattern runs from the first opening brace to the last
    closing brace. *)
Lemma re_search_braces_exact before inner after :
  has_char "{" before = false ->
  has_char "}" after = false ->
  re_search_braces (before +:+ ("{" +:+ inner +:+ "}") +:+ after)
    = Some ("{" +:+ inner +:+ "}").
Proof.
  intros Hb Ha. unfold re_search_braces.
  replace (before +:+ ("{" +:+ inner +:+ "}") +:+ after)
    with (before +:+ String "{" (inner +:+ String "}" after))
    by (rewrite !str_app_assoc; reflexivity).
  rewrite (after_first_open_exact before _ Hb), (through_last_close_exact inner after Ha).
  reflexivity.
Qed.

(** Stage 4 when the download brings a document that decodes to an object. *)
Lemma fetch_result_document name output s out err content members :
  configured w s ->
  let local := w_tmpname w (length (tmp_made s)) ".json" in
  let remote :=
    PosixPath.join (GPU_SERVER_WORK_DIR (w_config w)) (name +:+ "_result.json") in
  let cmd := download_cmd w (normalized_key w) remote local in
  download_target w local = local ->
  w_run w (length (spawned s)) cmd = RunExited 0 out err ->
  w_scp_payload w (length (spawned s)) = Some content ->
  w_json_loads w content = Some (JObj members) ->
  fetch_result w name output s =
    (Ret (fields_of members),
     State (delete local (files s)) (spawned s ++ [cmd]) (tmp_made s ++ [local])).
Proof.
  intros Hc local remote cmd Hcanon Hrun Hpayload Hloads.
  pose proof (fetch_result_run w name output s) as Hfetch. cbv zeta in Hfetch.
  fold local remote in Hfetch.
  rewrite (parse_downloaded_document remote local _ out err content members) in Hfetch.
  - rewrite Hfetch. cbn [fst snd files spawned tmp_made].
    rewrite bundle_gone. reflexivity.
  - apply configured_insert, Hc.
  - exact Hcanon.
  - exact Hrun.
  - exact Hpayload.
  - exact Hloads.
Qed.

End Stage4.

(** X10 -- when the download succeeds and the file it leaves decodes to a
    JSON object, the result is read off that object and the captured output
    of the model run plays no part; the download is the one subprocess
    started, and the temporary result file is gone afterwards. *)
Theorem downloaded_document_wins
    (w : world) (name output : string) (s : state)
    (out err content : string) (members : pydict) :
  configured w s ->
  let local := w_tmpname w (length (tmp_made s)) ".json" in
  let remote :=
    PosixPath.join (GPU_SERVER_WORK_DIR (w_config w)) (name +:+ "_result.json") in
  let cmd := download_cmd w (normalized_key w) remote local in
  download_target w local = local ->
  w_run w (length (spawned s)) cmd = RunExited 0 out err ->
  w_scp_payload w (length (spawned s)) = Some content ->
  w_json_loads w content = Some (JObj members) ->
  fetch_result w name output s =
    (Ret (fields_of members),
     State (delete local (files s)) (spawned s ++ [cmd]) (tmp_made s ++ [local])) /\
  hd_error cmd = Some "scp" /\
  last cmd = Some local.
Proof.
  intros Hc local remote cmd Hcanon Hrun Hpayload Hloads.
  split; [|split; [reflexivity|]].
  - exact (fetch_result_document w name output s out err content members
             Hc Hcanon Hrun Hpayload Hloads).
  - unfold cmd, download_cmd. rewrite Hcanon. reflexivity.
Qed.

(** X11 -- the fallback takes the text from the first opening brace of the
    captured output to its last closing brace, whatever stands between them,
    and that text alone decides the result: the two fields of the object it
    decodes to, the defaults otherwise.  It never raises and changes
    nothing. *)
Theorem fallback_reads_outermost_braces
    (w : world) (before inner after : string) (s : state) :
  has_char "{" before = false ->
  has_char "}" after = false ->
  let document := "{" +:+ inner +:+ "}" in
  parse_output w (before +:+ document +:+ after) s =
    (Ret match w_json_loads w document with
         | Some (JObj members) => fields_of members
         | _ => (zero_coordinates, JNull)
         end, s).
Proof.
  intros Hb Ha document. rewrite parse_output_run. unfold fallback_result.
  unfold document. rewrite (re_search_braces_exact before inner after Hb Ha). reflexivity.
Qed.

(** ** Names made from the clock *)

Lemma str_int_inj a b : str_int a = str_int b -> a = b.
Proof.
  unfold str_int. intros H. apply DecimalZ.to_int_inj.
  assert (Hnn : forall z, Z.to_int z <> Decimal.Pos Decimal.Nil /\
                          Z.to_int z <> Decimal.Neg Decimal.Nil).
  { intros [|p|p]; cbn; split; try discriminate;
      intros [= E]; exact (DecimalPos.Unsigned.to_uint_nonnil p E). }
  pose proof (NilZero.isi _ (proj1 (Hnn a)) (proj2 (Hnn a))) as Ea.
  pose proof (NilZero.isi _ (proj1 (Hnn b)) (proj2 (Hnn b))) as Eb.
  rewrite H, Eb in Ea. injection Ea as Ea. symmetry. exact Ea.
Qed.

Lemma str_app_inv_l p a b : p +:+ a = p +:+ b -> a = b.
Proof.
  induction p as [|c p IH]; intros H; [exact H|].
  rewrite !str_app_cons in H. injection H as H. apply IH, H.
Qed.

(** X12 -- the name made from the clock tells the milliseconds apart: two
    runs that read different clock values never get the same name. *)
Theorem clock_names_are_distinct (w1 w2 : world) :
  w_now_ms w1 <> w_now_ms w2 -> synthesized_name w1 <> synthesized_name w2.
Proof.
  intros Hne Heq. apply Hne. unfold synthesized_name in Heq.
  apply str_int_inj, (str_app_inv_l "session_"), Heq.
Qed.

(** ** The subprocesses of a run *)

Section Subprocesses.

Lemma started_at_most_refl k s : started_at_most k s s.
Proof.
  exists []. split; [symmetry; apply List.app_nil_r|]. split; [cbn; lia|constructor].
Qed.

Lemma started_at_most_le k k' s s' :
  started_at_most k s s' -> k <= k' -> started_at_most k' s s'.
Proof. intros (cmds & Hs & Hl & Hf) Hk. exists cmds. split; [exact Hs|]. split; [lia|exact Hf]. Qed.

Lemma started_at_most_trans k1 k2 s1 s2 s3 :
  started_at_most k1 s1 s2 -> started_at_most k2 s2 s3 -> started_at_most (k1 + k2) s1 s3.
Proof.
  intros (c1 & Hs1 & Hl1 & Hf1) (c2 & Hs2 & Hl2 & Hf2). exists (c1 ++ c2).
  split; [rewrite Hs2, Hs1, <- List.app_assoc; reflexivity|].
  split; [rewrite length_app; lia|]. apply Forall_app. split; assumption.
Qed.

Lemma started_same_spawned k s s' : spawned s' = spawned s -> started_at_most k s s'.
Proof.
  intros H. exists []. split; [rewrite H; symmetry; apply List.app_nil_r|].
  split; [cbn; lia|constructor].
Qed.

Lemma started_one cmd fs tm s :
  remote_tool cmd -> started_at_most 1 s (State fs (spawned s ++ [cmd]) tm).
Proof.
  intros H. exists [cmd]. split; [reflexivity|]. split; [cbn; lia|].
  constructor; [exact H|constructor].
Qed.

Lemma starts_weaken {A} k k' (c : M A) :
  keeps (started_at_most k) c -> k <= k' -> keeps (started_at_most k') c.
Proof. intros H Hk s. exact (started_at_most_le _ _ _ _ (H s) Hk). Qed.

Lemma starts_pure {A} k (c : M A) : (forall s, spawned (snd (c s)) = spawned s) ->
  keeps (started_at_most k) c.
Proof. intros H s. apply started_same_spawned, H. Qed.

Lemma starts_bind {A B} k1 k2 (c : M A) (f : A -> M B) :
  keeps (started_at_most k1) c -> (forall a, keeps (started_at_most k2) (f a)) ->
  keeps (started_at_most (k1 + k2)) (bind c f).
Proof.
  intros Hc Hf s. unfold bind. specialize (Hc s).
  destruct (c s) as [[a|e] s1]; cbn [snd] in *.
  - exact (started_at_most_trans _ _ _ _ _ Hc (Hf a s1)).
  - apply (started_at_most_le k1); [exact Hc|lia].
Qed.

Lemma starts_try_except {A} k1 k2 (body : M A) (handler : exn -> M A) :
  keeps (started_at_most k1) body -> (forall e, keeps (started_at_most k2) (handler e)) ->
  keeps (started_at_most (k1 + k2)) (try_except body handler).
Proof.
  intros Hb Hh s. unfold try_except. specialize (Hb s).
  destruct (body s) as [[a|e] s1]; cbn [snd] in *.
  - apply (started_at_most_le k1); [exact Hb|lia].
  - exact (started_at_most_trans _ _ _ _ _ Hb (Hh e s1)).
Qed.

Lemma starts_try_finally {A} k1 k2 (body : M A) (cleanup : M unit) :
  keeps (started_at_most k1) body -> keeps (started_at_most k2) cleanup ->
  keeps (started_at_most (k1 + k2)) (try_finally body cleanup).
Proof.
  intros Hb Hc s. unfold try_finally. specialize (Hb s).
  destruct (body s) as [r s1]. cbn [snd] in Hb. specialize (Hc s1).
  destruct (cleanup s1) as [[u|e] s2]; cbn [snd] in *;
    exact (started_at_most_trans _ _ _ _ _ Hb Hc).
Qed.

Variable w : world.

Lemma starts_checked_ssh_key : keeps (started_at_most 0) (checked_ssh_key w).
Proof. intros s. rewrite checked_ssh_key_state. apply started_at_most_refl. Qed.

Lemma starts_subprocess_run cmd target :
  remote_tool cmd -> keeps (started_at_most 1) (subprocess_run w cmd target).
Proof.
  intros H s. unfold subprocess_run.
  destruct (w_run w _ _); cbn [snd]; apply started_one, H.
Qed.

Lemma starts_popen cmd : remote_tool cmd -> keeps (started_at_most 1) (popen w cmd).
Proof.
  intros H s. unfold popen. destruct (w_popen w _ _); cbn [snd]; apply started_one, H.
Qed.

Lemma starts_upload local remote :
  keeps (started_at_most 1) (upload_to_gpu_server w local remote).
Proof.
  unfold upload_to_gpu_server.
  apply (starts_bind 0 1); [apply starts_checked_ssh_key|]. intros key.
  apply (starts_bind 1 0).
  - apply (starts_try_except 1 0).
    + apply starts_subprocess_run. eexists. left. reflexivity.
    + intros e. destruct (exn_class_of e); intros s; apply started_at_most_refl.
  - intros [[rc out] err]. destruct (negb _); [|intros s; apply started_at_most_refl].
    destruct (transport_error _); intros s; apply started_at_most_refl.
Qed.

Lemma starts_download remote local :
  keeps (started_at_most 1) (download_from_gpu_server w remote local).
Proof.
  unfold download_from_gpu_server.
  apply (starts_bind 0 1); [apply starts_checked_ssh_key|]. intros key.
  apply (starts_bind 1 0).
  - apply (starts_try_except 1 0).
    + apply starts_subprocess_run. eexists. left. reflexivity.
    + intros e. destruct (exn_class_of e); intros s; apply started_at_most_refl.
  - intros [[rc out] err]. destruct (negb _); [|intros s; apply started_at_most_refl].
    destruct (transport_error _); intros s; apply started_at_most_refl.
Qed.

Lemma starts_run command realtime :
  keeps (started_at_most 1) (run_on_gpu_server w command realtime).
Proof.
  unfold run_on_gpu_server.
  apply (starts_bind 0 1); [apply starts_checked_ssh_key|]. intros key.
  destruct realtime.
  - apply (starts_bind 1 0).
    + apply starts_popen. eexists. right. reflexivity.
    + intros [output rc]. apply (starts_try_except 0 0).
      * destruct (negb _); intros s; apply started_at_most_refl.
      * intros e. destruct (exn_class_of e); intros s; apply started_at_most_refl.
  - apply (starts_bind 1 0).
    + apply starts_subprocess_run. eexists. right. reflexivity.
    + intros [[rc out] err]. destruct (negb _); intros s; apply started_at_most_refl.
Qed.

Lemma starts_unlink_if_exists p : keeps (started_at_most 0) (unlink_if_exists w p).
Proof.
  apply starts_pure. intros s. unfold unlink_if_exists, bind, os_path_exists, os_unlink.
  destruct (_ || _); [|reflexivity]. destruct (files s !! p); reflexivity.
Qed.

Lemma starts_upload_session actual name :
  keeps (started_at_most 2) (upload_session w actual name).
Proof.
  unfold upload_session.
  apply (starts_bind 0 2); [apply starts_pure; reflexivity|]. intros tar.
  apply (starts_try_finally 2 0); [|apply starts_unlink_if_exists].
  apply (starts_bind 0 2).
  { apply starts_pure. intros s. unfold tarfile_write. destruct (w_tar w _ _); reflexivity. }
  intros _. apply (starts_bind 1 1); [apply starts_upload|]. intros _.
  apply (starts_bind 1 0); [apply starts_run|]. intros _ s. apply started_at_most_refl.
Qed.

Lemma starts_upload_script script : keeps (started_at_most 1) (upload_script w script).
Proof.
  unfold upload_script. apply (starts_bind 0 1); [apply starts_pure; reflexivity|].
  intros [|]; [apply starts_upload|intros s; apply started_at_most_refl].
Qed.

Lemma starts_parse_output output : keeps (started_at_most 0) (parse_output w output).
Proof. apply starts_pure. intros s. rewrite parse_output_run. reflexivity. Qed.

Lemma starts_parse_downloaded remote local :
  keeps (started_at_most 1) (parse_downloaded w remote local).
Proof.
  unfold parse_downloaded. apply (starts_bind 1 0); [apply starts_download|]. intros _.
  apply starts_pure. intros s. unfold bind, open_read.
  destruct (files s !! local) as [content|]; [|reflexivity].
  unfold json_loads. destruct (w_json_loads w content) as [v|]; [|reflexivity].
  unfold ret at 1. destruct (read_fields v s) as [r s'] eqn:E. cbn [snd].
  pose proof (keeps_read_fields v s) as Hk. rewrite E in Hk. cbn [snd] in Hk.
  unfold read_fields, bind, py_get in E.
  destruct v; try (injection E as _ <-; reflexivity).
  repeat match type of E with
         | context [match ?d with Some _ => _ | None => _ end] => destruct d
         end; injection E as _ <-; reflexivity.
Qed.

Lemma starts_fetch_result name output :
  keeps (started_at_most 1) (fetch_result w name output).
Proof.
  unfold fetch_result. apply (starts_bind 0 1); [apply starts_pure; reflexivity|].
  intros local. apply (starts_try_finally 1 0); [|apply starts_unlink_if_exists].
  apply (starts_try_except 1 0); [apply starts_parse_downloaded|].
  intros _. apply starts_parse_output.
Qed.

Lemma starts_pipeline path :
  keeps (started_at_most 6) (process_session_on_gpu_server w path).
Proof.
  unfold process_session_on_gpu_server.
  apply (starts_try_except 6 0); [|intros e s; apply started_at_most_refl].
  apply (starts_bind 6 0); [|intros [cup rot] s; apply started_at_most_refl].
  unfold parsed_result. apply (starts_bind 5 1); [|intros [name output]; apply starts_fetch_result].
  unfold run_stages. apply (starts_bind 4 1).
  - unfold prepare. apply (starts_bind 0 4); [apply starts_pure; reflexivity|].
    intros [root name]. apply (starts_bind 2 2); [apply starts_upload_session|]. intros _.
    apply (starts_bind 2 0); [|intros _ s; apply started_at_most_refl].
    unfold upload_scripts. apply (starts_bind 1 1); intros; apply starts_upload_script.
  - intros name. apply (starts_bind 1 0); [apply starts_run|].
    intros output s. apply started_at_most_refl.
Qed.

End Subprocesses.

(** X14 -- one pipeline run starts at most six subprocesses, each of them
    [scp] or [ssh], and the history of subprocesses only grows: there is
    room for the bundle upload, the remote unpacking, an upload for each of
    the two scripts, the model run and the download of the result, and for
    nothing more. *)
Theorem pipeline_starts_at_most_six (w : world) (path : string) (s : state) :
  exists cmds,
    spawned (snd (process_session_on_gpu_server w path s)) = spawned s ++ cmds /\
    length cmds <= 6 /\
    Forall (fun cmd => hd_error cmd = Some "scp" \/ hd_error cmd = Some "ssh") cmds.
Proof.
  destruct (starts_pipeline w path s) as (cmds & Hs & Hl & Hf).
  exists cmds. split; [exact Hs|]. split; [exact Hl|].
  eapply Forall_impl; [exact Hf|].
  intros cmd [args [->| ->]]; [left|right]; reflexivity.
Qed.

(** ** The HTTP handler *)

Section Handler.
Variable w : world.

(** After the pipeline: its envelope as the answer when the result was
    parsed, status 500 with the text of the exception otherwise.  The
    envelope always holds [success], and a failure envelope always holds
    [error]. *)
Lemma answer_for_run folder s :
  answer_for w folder s =
  match parsed_result w folder s with
  | (Ret (cup, rot), s') => (Ret (inl (success_envelope cup rot)), s')
  | (Raise e, s') => (Ret (inr (500%Z, JStr (exn_str e))), s')
  end.
Proof.
  unfold answer_for, bind. rewrite pipeline_outcome.
  destruct (parsed_result w folder s) as [[[cup rot]|e] s']; [|reflexivity].
  unfold success_envelope. destruct (truthy rot); reflexivity.
Qed.

Lemma sorted_nil l : sorted l = [] -> l = [].
Proof.
  destruct l as [|x l]; [reflexivity|]. unfold sorted. cbn [fold_right].
  destruct (fold_right insert_sorted [] l) as [|y l']; cbn [insert_sorted];
    [discriminate|]. destruct (String.leb x y); discriminate.
Qed.

Lemma locate_and_process_run dir s :
  locate_and_process w dir s =
  match sorted (glob w (PosixPath.join dir "session_*")) with
  | first :: _ => answer_for w first s
  | [] =>
      match glob w (PosixPath.join dir "*.jsonl") with
      | [] => (Ret (inr (400%Z, JStr "세션 폴더를 찾을 수 없습니다")), s)
      | _ :: _ => answer_for w dir s
      end
  end.
Proof.
  unfold locate_and_process.
  destruct (sorted _); [destruct (glob w (PosixPath.join dir "*.jsonl"))|]; reflexivity.
Qed.

Variable h : upload_host.

(** The body of the [with] block, step by step. *)
Lemma handle_upload_run name content s :
  handle_upload w h (upload_dir w s) name content (arrived w s) =
  match h_open_wb h (archive_path w s name) with
  | Some msg => (Raise (Exn OSError msg), arrived w s)
  | None =>
      if stands_at w (received w s name content) (unpack_dir w s)
      then (Raise (Exn OSError (file_exists_msg (unpack_dir w s))),
            received w s name content)
      else
        match h_unzip h content with
        | inl msg => (Raise (Exn Exception_ msg), received w s name content)
        | inr members =>
            locate_and_process w (unpack_dir w s) (unpacked w s name content members)
        end
  end.
Proof.
  unfold handle_upload, bind at 1, open_write. fold (archive_path w s name).
  destruct (h_open_wb h (archive_path w s name)) as [msg|]; [reflexivity|].
  cbn [files spawned tmp_made arrived]. fold (received w s name content).
  unfold bind at 1, os_makedirs. fold (unpack_dir w s).
  destruct (stands_at w (received w s name content) (unpack_dir w s)); [reflexivity|].
  unfold bind at 1, zip_extractall.
  replace (files (received w s name content) !! archive_path w s name) with (Some content)
    by (symmetry; apply lookup_insert_eq).
  destruct (h_unzip h content) as [msg|members]; reflexivity.
Qed.

(** The handler around its body: the answer of the body, and the temporary
    directory swept whatever that answer is. *)
Lemma process_session_run name content s :
  name <> EmptyString ->
  process_session w h (Some name) content s =
  (response_of (fst (handle_upload w h (upload_dir w s) name content (arrived w s))),
   swept w (upload_dir w s)
         (snd (handle_upload w h (upload_dir w s) name content (arrived w s)))).
Proof.
  intros Hname. unfold process_session.
  destruct (String.eqb_spec name EmptyString) as [E|_]; [contradiction|].
  unfold bind, temporary_directory, try_finally, cleanup_directory.
  fold (upload_dir w s). fold (arrived w s).
  destruct (handle_upload w h (upload_dir w s) name content (arrived w s))
    as [[[result|[code detail]]|e] s1]; reflexivity.
Qed.

(** The pipeline, run by the handler, ends in a success envelope or in
    status 500. *)
Lemma answer_for_cases folder s :
  (exists cup rot s',
     parsed_result w folder s = (Ret (cup, rot), s') /\
     answer_for w folder s = (Ret (inl (success_envelope cup rot)), s')) \/
  (exists e s',
     parsed_result w folder s = (Raise e, s') /\
     answer_for w folder s = (Ret (inr (500%Z, JStr (exn_str e))), s')).
Proof.
  rewrite answer_for_run. destruct (parsed_result w folder s) as [[[cup rot]|e] s'].
  - left. eauto.
  - right. eauto.
Qed.

Lemma answer_for_spawned folder s :
  started_at_most 6 s (snd (answer_for w folder s)).
Proof.
  pose proof (starts_pipeline w folder s) as H.
  unfold answer_for, bind.
  destruct (process_session_on_gpu_server w folder s) as [[result|e] s1];
    cbn [snd] in *; [|exact H].
  destruct (dict_get "success" result) as [ok|]; [|exact H].
  destruct (truthy ok); exact H.
Qed.

End Handler.

(** X15 -- whatever is uploaded, the handler answers in one of three ways:
    the success envelope of the pipeline, with [success] true and the
    coordinates; status 400; or status 500.  The detail of an error is
    always a text. *)
Theorem handler_status_codes
    (w : world) (h : upload_host) (filename : option string) (content : string) (s : state) :
  match fst (process_session w h filename content s) with
  | Response body =>
      dict_get "success" body = Some (JBool true) /\
      exists cup, dict_get "cup_coordinates" body = Some cup
  | HTTPError status_code detail =>
      (status_code = 400 \/ status_code = 500)%Z /\ exists text, detail = JStr text
  end.
Proof.
  destruct filename as [name|]; [|cbn; eauto].
  destruct (String.eqb_spec name EmptyString) as [->|Hname]; [cbn; eauto|].
  rewrite (process_session_run w h name content s Hname). cbn [fst].
  rewrite handle_upload_run.
  assert (Hanswer : forall folder s0,
            match response_of (fst (answer_for w folder s0)) with
            | Response body =>
                dict_get "success" body = Some (JBool true) /\
                exists cup, dict_get "cup_coordinates" body = Some cup
            | HTTPError status_code detail =>
                (status_code = 400 \/ status_code = 500)%Z /\ exists text, detail = JStr text
            end).
  { intros folder s0.
    destruct (answer_for_cases w folder s0)
      as [(cup & rot & s' & _ & ->)|(e & s' & _ & ->)]; cbn [fst response_of]; [|eauto].
    destruct (success_envelope_fields cup rot) as (Hs & Hc & _). eauto. }
  destruct (h_open_wb h _) as [msg|]; [cbn; eauto|].
  destruct (stands_at w _ _); [cbn; eauto|].
  destruct (h_unzip h content) as [msg|members]; [cbn; eauto|].
  rewrite locate_and_process_run.
  destruct (sorted _) as [|first rest]; [|apply Hanswer].
  destruct (glob w (PosixPath.join (unpack_dir w s) "*.jsonl")); [cbn; eauto|apply Hanswer].
Qed.

(** X16 -- status 400 has two causes and no other: an upload without a file
    name, refused before anything is touched, and an archive whose top level
    shows neither an entry [session_*] nor a file [*.jsonl].  In both no
    subprocess has been started. *)
Theorem bad_request_causes
    (w : world) (h : upload_host) (filename : option string) (content : string)
    (s s' : state) (detail : json) :
  process_session w h filename content s = (HTTPError 400 detail, s') ->
  spawned s' = spawned s /\
  ((filename = None \/ filename = Some EmptyString) /\
   detail = JStr "Empty filename" /\ s' = s
   \/
   (exists name, filename = Some name /\ name <> EmptyString) /\
   detail = JStr "세션 폴더를 찾을 수 없습니다" /\
   glob w (PosixPath.join (unpack_dir w s) "session_*") = [] /\
   glob w (PosixPath.join (unpack_dir w s) "*.jsonl") = []).
Proof.
  intros Hrun. destruct filename as [name|]; cycle 1.
  { cbn in Hrun. injection Hrun as <- <-. split; [reflexivity|]. left. auto. }
  destruct (String.eqb_spec name EmptyString) as [->|Hname].
  { cbn in Hrun. injection Hrun as <- <-. split; [reflexivity|]. left. auto. }
  rewrite (process_session_run w h name content s Hname), handle_upload_run in Hrun.
  assert (Hanswer : forall folder s0 s1,
            (response_of (fst (answer_for w folder s0)), s1) <> (HTTPError 400 detail, s')).
  { intros folder s0 s1.
    destruct (answer_for_cases w folder s0)
      as [(cup & rot & s2 & _ & ->)|(e & s2 & _ & ->)]; cbn [fst response_of]; discriminate. }
  destruct (h_open_wb h _) as [msg|]; [discriminate|].
  destruct (stands_at w _ _); [discriminate|].
  destruct (h_unzip h content) as [msg|members]; [discriminate|].
  rewrite locate_and_process_run in Hrun.
  destruct (sorted _) as [|first rest] eqn:Hsorted; [|destruct (Hanswer _ _ _ Hrun)].
  apply sorted_nil in Hsorted.
  destruct (glob w (PosixPath.join (unpack_dir w s) "*.jsonl")) as [|file files] eqn:Hjsonl;
    [|destruct (Hanswer _ _ _ Hrun)].
  cbn [fst snd response_of] in Hrun. injection Hrun as <- <-.
  split; [reflexivity|]. right. split; [eauto|]. auto.
Qed.



(** X19 -- whatever the answer, nothing is left inside the temporary
    directory of the upload when the handler is done. *)
Theorem temporary_directory_is_swept
    (w : world) (h : upload_host) (name content : string) (s : state) (p : string) :
  name <> EmptyString ->
  under w (upload_dir w s) p = true ->
  files (snd (process_session w h (Some name) content s)) !! p = None.
Proof.
  intros Hname Hunder. rewrite (process_session_run w h name content s Hname).
  cbn [snd swept files]. apply map_lookup_filter_None_2. right.
  intros x _. cbn [fst]. rewrite Hunder. discriminate.
Qed.


(** ** The order of [sorted] *)

Lemma ascii_compare_lt_trans a b c :
  Ascii.compare a b = Lt -> Ascii.compare b c = Lt -> Ascii.compare a c = Lt.
Proof.
  unfold Ascii.compare. rewrite !N.compare_lt_iff. apply N.lt_trans.
Qed.

Lemma string_leb_refl a : String.leb a a = true.
Proof. destruct (String.leb_total a a); assumption. Qed.

Lemma string_leb_trans a b c :
  String.leb a b = true -> String.leb b c = true -> String.leb a c = true.
Proof.
  unfold String.leb. revert b c.
  induction a as [|x a IH]; intros [|y b] [|z c]; cbn [String.compare];
    try reflexivity; try discriminate.
  destruct (Ascii.compare x y) eqn:Exy; try discriminate;
    destruct (Ascii.compare y z) eqn:Eyz; try discriminate; intros Hab Hbc.
  - apply Ascii.compare_eq_iff in Exy, Eyz. subst y z.
    replace (Ascii.compare x x) with Eq
      by (symmetry; unfold Ascii.compare; apply N.compare_refl).
    exact (IH b c Hab Hbc).
  - apply Ascii.compare_eq_iff in Exy. subst y. rewrite Eyz. reflexivity.
  - apply Ascii.compare_eq_iff in Eyz. subst z. rewrite Exy. reflexivity.
  - rewrite (ascii_compare_lt_trans x y z Exy Eyz). reflexivity.
Qed.

Lemma insert_sorted_In x l y : In y (insert_sorted x l) <-> y = x \/ In y l.
Proof.
  induction l as [|z l IH]; cbn [insert_sorted].
  - cbn. intuition.
  - destruct (String.leb x z); cbn [In]; [intuition|]. rewrite IH. cbn [In]. intuition.
Qed.

Lemma sorted_In l y : In y (sorted l) <-> In y l.
Proof.
  induction l as [|x l IH]; [reflexivity|].
  unfold sorted. cbn [fold_right]. fold (sorted l).
  rewrite insert_sorted_In, IH. cbn [In]. intuition.
Qed.

(** The head of a sorted list is its least element. *)
Lemma sorted_head_least l first rest :
  sorted l = first :: rest ->
  In first l /\ forall other, In other l -> String.leb first other = true.
Proof.
  intros Hsorted. split; [apply sorted_In; rewrite Hsorted; left; reflexivity|].
  revert first rest Hsorted. induction l as [|x l IH]; intros first rest Hsorted;
    [discriminate|].
  unfold sorted in Hsorted. cbn [fold_right] in Hsorted. fold (sorted l) in Hsorted.
  destruct (sorted l) as [|m l'] eqn:Hl.
  - apply sorted_nil in Hl. subst l. cbn in Hsorted. injection Hsorted as <- _.
    intros other [<-|[]]. apply string_leb_refl.
  - specialize (IH m l' eq_refl). cbn [insert_sorted] in Hsorted.
    destruct (String.leb x m) eqn:Hxm; injection Hsorted as <- _.
    + intros other [<-|Hin]; [apply string_leb_refl|].
      exact (string_leb_trans _ _ _ Hxm (IH other Hin)).
    + intros other [<-|Hin]; [|exact (IH other Hin)].
      destruct (String.leb_total x m) as [H|H]; [congruence|exact H].
Qed.

(** X21 -- of several entries [session_*] at the top of the archive, the
    handler runs the pipeline on the least one in the order of the strings,
    whatever order the directory lists them in. *)
Theorem least_session_folder_is_processed
    (w : world) (extract_dir : string) (s : state) :
  glob w (PosixPath.join extract_dir "session_*") <> [] ->
  exists first,
    locate_and_process w extract_dir s = answer_for w first s /\
    In first (glob w (PosixPath.join extract_dir "session_*")) /\
    forall other,
      In other (glob w (PosixPath.join extract_dir "session_*")) ->
      String.leb first other = true.
Proof.
  intros Hsome. rewrite locate_and_process_run.
  destruct (sorted (glob w (PosixPath.join extract_dir "session_*")))
    as [|first rest] eqn:Hsorted.
  - apply sorted_nil in Hsorted. contradiction.
  - exists first. split; [reflexivity|]. exact (sorted_head_least _ _ _ Hsorted).
Qed.

(** X22 -- the handler hands the pipeline the session folder itself, so the
    session is named after what lies inside that folder: when nothing in it
    begins with [session_], the bundle is packed and the result looked for
    under a name made from the clock, not under the name of the folder. *)
Theorem uploaded_folder_does_not_name_the_session
    (w : world) (extract_dir : string) (s : state) (first : string) (rest : list string) :
  sorted (glob w (PosixPath.join extract_dir "session_*")) = first :: rest ->
  files s !! first = None ->
  Glob.has_magic (listed_dir first) = false ->
  (forall n, In n (w_listdir w (listed_dir first)) ->
             file_name n /\ startswith "session_" n = false) ->
  locate_and_process w extract_dir s = answer_for w first s /\
  resolve_session w first s = (Ret (first, synthesized_name w), s) /\
  prepare w first s =
    (upload_session w first (synthesized_name w) >> upload_scripts w >>
     ret (synthesized_name w)) s.
Proof.
  intros Hsorted Hdir Hmagic Hinside.
  assert (Hname : find_session_name w first = synthesized_name w).
  { unfold find_session_name.
    assert (Hnames : forall n, In n (w_listdir w (listed_dir first)) -> file_name n)
      by (intros n Hn; apply Hinside, Hn).
    pose proof (glob_plain w first "session_*" eq_refl Hmagic Hnames) as Hs.
    pose proof (glob_plain w first "*.jsonl" eq_refl Hmagic Hnames) as Hj.
    assert (Hnone : List.find is_session_entry (w_listdir w (listed_dir first)) = None).
    { destruct (List.find is_session_entry _) as [n|] eqn:E; [|reflexivity].
      apply find_some in E as [Hin E]. unfold is_session_entry in E.
      destruct (Hinside n Hin) as [_ Hn]. congruence. }
    rewrite <- glob1_session_head, <- Hs in Hnone.
    destruct (glob w (PosixPath.join first "session_*")) as [|x xs]; [|discriminate].
    destruct (glob w (PosixPath.join first "*.jsonl")) as [|file others]; [reflexivity|].
    cbn [map] in Hj.
    assert (Hin : In (PosixPath.basename file) (w_listdir w (listed_dir first))).
    { eapply proj1, glob1_In. rewrite <- Hj. left. reflexivity. }
    destruct (Hinside _ Hin) as [_ Hn]. rewrite Hn. reflexivity. }
  assert (Hres : resolve_session w first s = (Ret (first, synthesized_name w), s)).
  { unfold resolve_session, bind, os_path_isfile.
    rewrite bool_decide_eq_false_2 by (rewrite Hdir; intros [x Hx]; discriminate).
    unfold ret. rewrite Hname. unfold checked_session_name, synthesized_name.
    reflexivity. }
  split; [rewrite locate_and_process_run, Hsorted; reflexivity|]. split; [exact Hres|].
  unfold prepare. unfold bind at 1. rewrite Hres. reflexivity.
Qed.

(** X23 -- an archive whose top level shows no entry [session_*] but a file
    [*.jsonl] is processed as a whole, and always under a name made from the
    clock: the name of a [.jsonl] file never names the session, because a
    file [session_<id>.jsonl] is itself an entry [session_*]. *)
Theorem jsonl_archive_gets_a_clock_name (w : world) (extract_dir : string) (s : state) :
  glob w (PosixPath.join extract_dir "session_*") = [] ->
  glob w (PosixPath.join extract_dir "*.jsonl") <> [] ->
  files s !! extract_dir = None ->
  Glob.has_magic (listed_dir extract_dir) = false ->
  (forall n, In n (w_listdir w (listed_dir extract_dir)) -> file_name n) ->
  locate_and_process w extract_dir s = answer_for w extract_dir s /\
  resolve_session w extract_dir s = (Ret (extract_dir, synthesized_name w), s).
Proof.
  intros Hs0 Hj0 Hdir Hmagic Hnames. split.
  - rewrite locate_and_process_run, Hs0. cbn [sorted fold_right].
    destruct (glob w (PosixPath.join extract_dir "*.jsonl")); [contradiction|reflexivity].
  - assert (Hname : find_session_name w extract_dir = synthesized_name w).
    { unfold find_session_name. rewrite Hs0.
      pose proof (glob_plain w extract_dir "session_*" eq_refl Hmagic Hnames) as Hs.
      rewrite Hs0 in Hs. cbn [map] in Hs.
      pose proof (glob_plain w extract_dir "*.jsonl" eq_refl Hmagic Hnames) as Hj.
      destruct (glob w (PosixPath.join extract_dir "*.jsonl")) as [|file others];
        [contradiction|]. cbn [map] in Hj.
      assert (Hin : In (PosixPath.basename file) (w_listdir w (listed_dir extract_dir))).
      { eapply proj1, glob1_In. rewrite <- Hj. left. reflexivity. }
      assert (Hnone : List.find is_session_entry (w_listdir w (listed_dir extract_dir)) = None).
      { rewrite <- glob1_session_head, <- Hs. reflexivity. }
      apply (find_none _ _ Hnone) in Hin. unfold is_session_entry in Hin.
      rewrite Hin. reflexivity. }
    unfold resolve_session, bind, os_path_isfile.
    rewrite bool_decide_eq_false_2 by (rewrite Hdir; intros [x Hx]; discriminate).
    unfold ret. rewrite Hname. unfold checked_session_name, synthesized_name.
    reflexivity.
Qed.

(** ** The whole run *)

(** X24 -- the run in which nothing fails.  With the configuration in
    place, the folder packed, neither script on the local disk, and the four
    subprocesses ending with status 0, the pipeline starts exactly these
    four, in this order -- the upload of the bundle, the remote unpacking,
    the model run, the download of [<name>_result.json] -- and returns the
    success envelope of the two fields of the downloaded document.  Both
    temporary files are gone and no other local file has changed. *)
Theorem pipeline_end_to_end
    (w : world) (path : string) (s : state) (root name bytes : string)
    (out1 err1 unpack_output model_output out2 err2 content : string) (members : pydict) :
  configured w s ->
  resolve_session w path s = (Ret (root, name), s) ->
  w_tar w root name = inr bytes ->
  bundle_path w s <> PosixPath.abspath (w_cwd w) (GPU_SERVER_SSH_KEY (w_config w)) ->
  (forall script,
     In script ["process_and_save_result.py"; "inference_with_pose.py"] ->
     files s !! script_local w script = None /\ w_isdir w (script_local w script) = false) ->
  download_target w (result_path w s) = result_path w s ->
  let c := w_config w in
  let n := length (spawned s) in
  let remote_tar := PosixPath.join (GPU_SERVER_WORK_DIR c) (name +:+ ".tar.gz") in
  let remote_result := PosixPath.join (GPU_SERVER_WORK_DIR c) (name +:+ "_result.json") in
  let up := upload_cmd w (normalized_key w) (bundle_path w s) remote_tar in
  let ex := ssh_cmd w (normalized_key w) (extract_cmd c name remote_tar) true in
  let model := ssh_cmd w (normalized_key w) (script_command c) true in
  let down := download_cmd w (normalized_key w) remote_result (result_path w s) in
  w_run w n up = RunExited 0 out1 err1 ->
  w_popen w (S n) ex = PopenExited unpack_output 0 ->
  w_popen w (S (S n)) model = PopenExited model_output 0 ->
  w_run w (S (S (S n))) down = RunExited 0 out2 err2 ->
  w_scp_payload w (S (S (S n))) = Some content ->
  w_json_loads w content = Some (JObj members) ->
  process_session_on_gpu_server w path s =
    (Ret (success_envelope (fst (fields_of members)) (snd (fields_of members))),
     State (delete (result_path w s) (delete (bundle_path w s) (files s)))
           (spawned s ++ [up; ex; model; down])
           (tmp_made s ++ [bundle_path w s; result_path w s])).
Proof.
  intros Hc Hres Htar Hkey Hscripts Hcanon c n remote_tar remote_result up ex model down
         Hup Hex Hmodel Hdown Hpayload Hloads.
  pose proof (upload_session_run w root name s bytes Hc Htar) as Hstage1.
  cbv zeta in Hstage1. fold c remote_tar up ex n in Hstage1.
  rewrite Hup, Hex in Hstage1. cbn [negb Z.eqb] in Hstage1.
  set (s2 := after_bundle w s [up; ex]) in *.
  assert (Hc2 : configured w s2).
  { destruct Hc as (Hh & Hk & Hf). split; [exact Hh|]. split; [exact Hk|].
    destruct Hf as [Hf|Hf]; [left|right; exact Hf].
    unfold s2, after_bundle. cbn [files]. rewrite lookup_delete_ne by exact Hkey. exact Hf. }
  assert (Hstage2 : upload_scripts w s2 = (Ret tt, s2)).
  { unfold upload_scripts, bind.
    destruct (Hscripts "process_and_save_result.py") as [Hf1 Hd1]; [cbn; auto|].
    destruct (Hscripts "inference_with_pose.py") as [Hf2 Hd2]; [cbn; auto|].
    assert (Hgone : forall p, files s !! p = None -> files s2 !! p = None).
    { intros p Hp. unfold s2, after_bundle. cbn [files]. apply lookup_delete_None. auto. }
    rewrite (upload_script_absent w _ s2 (Hgone _ Hf1) Hd1).
    apply (upload_script_absent w _ s2 (Hgone _ Hf2) Hd2). }
  assert (Hprepare : prepare w path s = (Ret name, s2)).
  { unfold prepare, bind. rewrite Hres, Hstage1, Hstage2. reflexivity. }
  assert (Hn2 : length (spawned s2) = S (S n)).
  { unfold s2, after_bundle. cbn [spawned]. rewrite length_app. cbn [length]. subst n. lia. }
  assert (Hrun : run_model w s2 =
                 (Ret (PyStr.join nl (captured_lines model_output)), started model s2)).
  { unfold run_model. rewrite (run_realtime_cases w _ s2 Hc2). fold c model.
    rewrite Hn2, Hmodel. reflexivity. }
  set (s3 := started model s2) in *.
  assert (Hstages : run_stages w path s =
                    (Ret (name, PyStr.join nl (captured_lines model_output)), s3)).
  { unfold run_stages, bind. rewrite Hprepare, Hrun. reflexivity. }
  assert (Hlocal : w_tmpname w (length (tmp_made s3)) ".json" = result_path w s).
  { unfold result_path, s3, started, s2, after_bundle. cbn [tmp_made].
    rewrite length_app. cbn [length]. f_equal. lia. }
  assert (Hn3 : length (spawned s3) = S (S (S n))).
  { unfold s3, started. cbn [spawned]. rewrite length_app, Hn2. cbn [length]. lia. }
  pose proof (fetch_result_document w name (PyStr.join nl (captured_lines model_output))
                s3 out2 err2 content members (configured_started w model s2 Hc2)) as Hfetch.
  cbv zeta in Hfetch. rewrite Hlocal, Hn3 in Hfetch. fold c remote_result down in Hfetch.
  specialize (Hfetch Hcanon Hdown Hpayload Hloads).
  rewrite pipeline_outcome. unfold parsed_result, bind. rewrite Hstages, Hfetch.
  destruct (fields_of members) as [cup rot]. cbn [fst snd]. f_equal.
  unfold s3, started, s2, after_bundle. cbn [files spawned tmp_made]. f_equal.
  - rewrite <- !List.app_assoc. reflexivity.
  - rewrite <- List.app_assoc. reflexivity.
Qed.

(** ** The settings and the guard *)

Lemma load_config_gpu int_of env st :
  load_config int_of env = Some st ->
  GPU_SERVER_HOST (gpu_server st) = os_getenv env "GPU_SERVER_HOST" "10.28.228.101" /\
  GPU_SERVER_SSH_KEY (gpu_server st)
    = os_getenv env "GPU_SERVER_SSH_KEY" "C:/Users/hyoun/image_segmentation.pem".
Proof.
  unfold load_config. intros H.
  destruct (int_of (os_getenv env "SERVER_PORT" "5000")); [|discriminate].
  destruct (int_of (os_getenv env "MAX_UPLOAD_SIZE" "104857600")); [|discriminate].
  destruct (int_of (os_getenv env "GPU_SERVER_PORT" "31788")); [|discriminate].
  injection H as <-. split; reflexivity.
Qed.

(** X25 -- a variable of the environment that is set to the empty string is
    not replaced by its default.  With [GPU_SERVER_HOST] or
    [GPU_SERVER_SSH_KEY] set but empty, the settings load and every remote
    operation then raises the configuration error without touching
    anything; with both unset, the defaults stand and the guard can fail on
    the key file only. *)
Theorem empty_variable_is_not_defaulted
    (int_of : string -> option Z) (env : gmap string string) (st : settings)
    (w : world) (s : state) :
  load_config int_of env = Some st ->
  w_config w = gpu_server st ->
  (env !! "GPU_SERVER_HOST" = Some EmptyString \/
   env !! "GPU_SERVER_SSH_KEY" = Some EmptyString ->
   let e := Exn ValueError "GPU 서버 설정이 없습니다. config.py를 확인하세요." in
   forall local remote command realtime_output,
     upload_to_gpu_server w local remote s = (Raise e, s) /\
     download_from_gpu_server w remote local s = (Raise e, s) /\
     run_on_gpu_server w command realtime_output s = (Raise e, s)) /\
  (env !! "GPU_SERVER_HOST" = None ->
   env !! "GPU_SERVER_SSH_KEY" = None ->
   GPU_SERVER_HOST (w_config w) = "10.28.228.101" /\
   GPU_SERVER_SSH_KEY (w_config w) = "C:/Users/hyoun/image_segmentation.pem" /\
   forall e s', checked_ssh_key w s = (Raise e, s') ->
                exn_class_of e = FileNotFoundError).
Proof.
  intros Hload Hw. destruct (load_config_gpu int_of env st Hload) as [Hhost Hkey].
  rewrite <- Hw in Hhost, Hkey. unfold os_getenv in Hhost, Hkey. split.
  - intros Hempty e local remote command realtime_output.
    assert (Hunset : GPU_SERVER_HOST (w_config w) = EmptyString \/
                     GPU_SERVER_SSH_KEY (w_config w) = EmptyString).
    { destruct Hempty as [E|E]; rewrite E in *; auto. }
    unfold upload_to_gpu_server, download_from_gpu_server, run_on_gpu_server, bind.
    rewrite (checked_ssh_key_unset w s Hunset). repeat split; reflexivity.
  - intros Eh Ek. rewrite Eh in Hhost. rewrite Ek in Hkey.
    split; [exact Hhost|]. split; [exact Hkey|].
    intros e s'. unfold checked_ssh_key. rewrite Hhost, Hkey.
    cbn [String.eqb Ascii.eqb Bool.eqb orb]. unfold bind, os_path_exists.
    destruct (negb _); intros H; [|discriminate].
    injection H as <- _. reflexivity.
Qed.

(** ** The further properties in the scenarios *)

Ltac by_evaluation :=
  lazymatch goal with
  | |- _ <> _ => let H := fresh in intros H; vm_compute in H; discriminate H
  | |- is_Some _ => vm_compute; eexists; reflexivity
  | |- _ => vm_compute; reflexivity
  end.

Ltac scenario_is_configured :=
  split; [by_evaluation|split; [by_evaluation|left; by_evaluation]].

Lemma success_once_model_ran_witness :
  exists envelope,
    fst (process_session_on_gpu_server (Scenario.downloaded Stages.document)
           Scenario.root Scenario.start) = Ret envelope /\
    dict_get "success" envelope = Some (JBool true).
Proof.
  destruct (run_stages (Scenario.downloaded Stages.document) Scenario.root Scenario.start)
    as [[[name output]|e] s1] eqn:E; [|vm_compute in E; discriminate].
  destruct (success_once_model_ran _ _ _ _ _ _ E) as (cup & rot & s' & Hrun & _ & Hsuccess).
  rewrite Hrun. eexists. split; [reflexivity|exact Hsuccess].
Defined.

Lemma packaging_failure_starts_nothing_witness :
  spawned (snd (process_session_on_gpu_server
                  (Stages.unreadable_folder (Scenario.downloaded Stages.document)
                     "[Errno 13] Permission denied: '/tmp/up/extracted/frames'")
                  Scenario.root Scenario.start)) = [].
Proof.
  destruct (packaging_failure_starts_nothing
              (Stages.unreadable_folder (Scenario.downloaded Stages.document)
                 "[Errno 13] Permission denied: '/tmp/up/extracted/frames'")
              Scenario.root Scenario.start Scenario.root "session_1000"
              "[Errno 13] Permission denied: '/tmp/up/extracted/frames'")
    as (Hrun & Hspawned & _).
  - by_evaluation.
  - reflexivity.
  - rewrite Hrun. cbn [snd]. rewrite Hspawned. reflexivity.
Defined.

Lemma unconfigured_pipeline_starts_nothing_witness :
  exists envelope,
    process_session_on_gpu_server
      (Scenario.transfer_meets Stages.no_host_config
         (RunExited 0 EmptyString EmptyString))
      Scenario.root Scenario.start
    = (Ret envelope, State (files Scenario.start) [] ["/tmp/tmp0.tar.gz"]) /\
    dict_get "error" envelope
      = Some (JStr "GPU 서버 설정이 없습니다. config.py를 확인하세요.").
Proof.
  pose proof (unconfigured_pipeline_starts_nothing
                (Scenario.transfer_meets Stages.no_host_config
                   (RunExited 0 EmptyString EmptyString))
                Scenario.root Scenario.start Scenario.root "session_1000" "TARBALL") as H.
  cbv zeta in H. destruct H as (Hrun & Herror & _).
  - by_evaluation.
  - reflexivity.
  - left. reflexivity.
  - eexists. split; [|exact Herror]. rewrite Hrun. reflexivity.
Defined.

Lemma failed_upload_stops_the_pipeline_witness :
  length (spawned (snd (process_session_on_gpu_server
                          (Scenario.transfer_meets Scenario.the_config
                             (RunExited 1 EmptyString Scenario.refused))
                          Scenario.root Scenario.start))) = 1.
Proof.
  pose proof (failed_upload_stops_the_pipeline
                (Scenario.transfer_meets Scenario.the_config
                   (RunExited 1 EmptyString Scenario.refused))
                Scenario.root Scenario.start Scenario.root "session_1000" "TARBALL"
                1%Z EmptyString Scenario.refused) as H.
  cbv zeta in H. destruct H as (text & Hrun & _ & Hspawned & _).
  - scenario_is_configured.
  - by_evaluation.
  - reflexivity.
  - reflexivity.
  - discriminate.
  - rewrite Hrun. cbn [snd]. rewrite Hspawned. reflexivity.
Defined.

Lemma stage1_uploads_then_unpacks_witness :
  fst (upload_session (Scenario.downloaded Stages.document) Scenario.root "session_1000"
         Scenario.start) = Ret tt /\
  length (spawned (snd (upload_session (Scenario.downloaded Stages.document) Scenario.root
                          "session_1000" Scenario.start))) = 2.
Proof.
  pose proof (stage1_uploads_then_unpacks (Scenario.downloaded Stages.document)
                Scenario.root "session_1000" Scenario.start "TARBALL"
                EmptyString EmptyString ("loading model" +:+ nl +:+ "done" +:+ nl)) as H.
  cbv zeta in H. destruct H as (Hrun & _).
  - scenario_is_configured.
  - reflexivity.
  - reflexivity.
  - reflexivity.
  - rewrite Hrun. split; reflexivity.
Defined.

Lemma absent_scripts_are_skipped_witness :
  upload_scripts (Scenario.downloaded Stages.document) Scenario.start
    = (Ret tt, Scenario.start).
Proof.
  apply absent_scripts_are_skipped.
  intros script [<-|[<-|[]]]; split; by_evaluation.
Defined.

Lemma scripts_go_up_in_order_witness :
  length (spawned (snd (upload_scripts (Scenario.downloaded Stages.document)
                          Stages.scripts_on_disk))) = 2.
Proof.
  pose proof (scripts_go_up_in_order (Scenario.downloaded Stages.document)
                Stages.scripts_on_disk) as H.
  cbv zeta in H. destruct H as (Hboth & _).
  - scenario_is_configured.
  - left. by_evaluation.
  - left. by_evaluation.
  - rewrite (Hboth EmptyString EmptyString eq_refl). reflexivity.
Defined.

Lemma batch_run_outcomes_witness :
  fst (run_on_gpu_server
         (Scenario.transfer_meets Scenario.the_config
            (RunExited 127 EmptyString "bash: nvidia-smi: command not found"))
         "nvidia-smi" false Scenario.start)
  = Raise (Exn Exception_
             "SSH 명령 실행 실패 (코드: 127): bash: nvidia-smi: command not found").
Proof.
  pose proof (batch_run_outcomes
                (Scenario.transfer_meets Scenario.the_config
                   (RunExited 127 EmptyString "bash: nvidia-smi: command not found"))
                "nvidia-smi" Scenario.start) as H.
  cbv zeta in H. destruct H as (_ & _ & Hfails & _); [scenario_is_configured|].
  rewrite (Hfails 127%Z EmptyString "bash: nvidia-smi: command not found" eq_refl);
    [reflexivity|discriminate].
Defined.

Lemma downloaded_document_wins_witness :
  fst (fetch_result (Scenario.downloaded Stages.document) "session_1000"
         "no result in this transcript" Scenario.start)
  = Ret (JArr [JFloat 1 (-1); JFloat 2 (-1); JFloat 3 (-1)], JNull).
Proof.
  pose proof (downloaded_document_wins (Scenario.downloaded Stages.document)
                "session_1000" "no result in this transcript" Scenario.start
                EmptyString EmptyString Stages.document Stages.document_members) as H.
  cbv zeta in H. destruct H as (Hrun & _).
  - scenario_is_configured.
  - by_evaluation.
  - reflexivity.
  - reflexivity.
  - by_evaluation.
  - rewrite Hrun. reflexivity.
Defined.

Lemma fallback_reads_outermost_braces_witness :
  fst (parse_output (Scenario.downloaded Stages.document)
         ("result:" +:+ nl +:+
          ("{" +:+ (dquote +:+ "cup_coordinates" +:+ dquote +:+ ": [1.0, 2.0, 3.0]}" +:+ nl +:+
                    "{" +:+ dquote +:+ "status" +:+ dquote +:+ ": 1") +:+ "}") +:+
          nl +:+ "done")
         Scenario.start)
  = Ret (zero_coordinates, JNull).
Proof.
  pose proof (fallback_reads_outermost_braces (Scenario.downloaded Stages.document)
                ("result:" +:+ nl)
                (dquote +:+ "cup_coordinates" +:+ dquote +:+ ": [1.0, 2.0, 3.0]}" +:+ nl +:+
                 "{" +:+ dquote +:+ "status" +:+ dquote +:+ ": 1")
                (nl +:+ "done") Scenario.start) as H.
  cbv zeta in H.
  replace ("result:" +:+ nl +:+
           ("{" +:+ (dquote +:+ "cup_coordinates" +:+ dquote +:+ ": [1.0, 2.0, 3.0]}" +:+ nl +:+
                     "{" +:+ dquote +:+ "status" +:+ dquote +:+ ": 1") +:+ "}") +:+
           nl +:+ "done")
    with (("result:" +:+ nl) +:+
          ("{" +:+ (dquote +:+ "cup_coordinates" +:+ dquote +:+ ": [1.0, 2.0, 3.0]}" +:+ nl +:+
                    "{" +:+ dquote +:+ "status" +:+ dquote +:+ ": 1") +:+ "}") +:+
          (nl +:+ "done")) by reflexivity.
  rewrite H; [|reflexivity|reflexivity]. reflexivity.
Defined.

Lemma clock_names_are_distinct_witness :
  synthesized_name Scenario.jsonl_only
    <> synthesized_name (Stages.later Scenario.jsonl_only 1).
Proof. apply clock_names_are_distinct. by_evaluation. Defined.

Lemma bad_request_causes_witness :
  spawned (snd (process_session (Upload.all_well ["notes.txt"] []) (Upload.host [("notes.txt", "hello")])
                  (Some "up.zip") "PK" Scenario.start)) = [].
Proof.
  destruct (process_session (Upload.all_well ["notes.txt"] []) (Upload.host [("notes.txt", "hello")])
              (Some "up.zip") "PK" Scenario.start) as [r s'] eqn:E.
  assert (Hr : r = HTTPError 400 (JStr "세션 폴더를 찾을 수 없습니다")).
  { vm_compute in E. injection E as <- _. reflexivity. }
  subst r. destruct (bad_request_causes _ _ _ _ _ _ _ E) as [Hspawned _].
  cbn [snd]. rewrite Hspawned. reflexivity.
Defined.



Lemma temporary_directory_is_swept_witness :
  files (snd (process_session (Upload.all_well ["session_1000"] ["frames.jsonl"])
                (Upload.host [("session_1000/frames.jsonl", "{}")])
                (Some "up.zip") "PK" Scenario.start))
    !! "/tmp/tmp0/extracted/session_1000/frames.jsonl" = None.
Proof.
  apply temporary_directory_is_swept; [discriminate|by_evaluation].
Defined.


Lemma least_session_folder_is_processed_witness :
  locate_and_process (Upload.all_well ["session_2000"; "session_1000"] []) Upload.extract_dir
    Scenario.start
  = answer_for (Upload.all_well ["session_2000"; "session_1000"] [])
      "/tmp/tmp0/extracted/session_1000" Scenario.start.
Proof.
  destruct (least_session_folder_is_processed
              (Upload.all_well ["session_2000"; "session_1000"] []) Upload.extract_dir
              Scenario.start) as (first & Hrun & Hin & Hleast).
  - by_evaluation.
  - rewrite Hrun. f_equal.
    specialize (Hleast "/tmp/tmp0/extracted/session_1000").
    vm_compute in Hin. destruct Hin as [<-|[<-|[]]]; [|reflexivity].
    assert (Hle : String.leb "/tmp/tmp0/extracted/session_2000"
                    "/tmp/tmp0/extracted/session_1000" = true).
    { apply Hleast. vm_compute. right. left. reflexivity. }
    vm_compute in Hle. discriminate Hle.
Defined.

Lemma uploaded_folder_does_not_name_the_session_witness :
  fst (resolve_session (Upload.all_well ["session_1000"] ["frames.jsonl"; "images"])
         "/tmp/tmp0/extracted/session_1000" Scenario.start)
  = Ret ("/tmp/tmp0/extracted/session_1000", "session_1768285041960").
Proof.
  destruct (uploaded_folder_does_not_name_the_session
              (Upload.all_well ["session_1000"] ["frames.jsonl"; "images"])
              Upload.extract_dir Scenario.start "/tmp/tmp0/extracted/session_1000" [])
    as (_ & Hname & _).
  - by_evaluation.
  - reflexivity.
  - by_evaluation.
  - intros n Hn. vm_compute in Hn.
    destruct Hn as [<-|[<-|[]]]; split; solve [split; [discriminate|reflexivity] | reflexivity].
  - rewrite Hname. reflexivity.
Defined.

Lemma empty_variable_is_not_defaulted_witness :
  exists st,
    load_config Stages.decimal Stages.empty_host_env = Some st /\
    run_on_gpu_server
      (Stages.configured_by (Scenario.downloaded Stages.document) (gpu_server st))
      "nvidia-smi" false Scenario.start
    = (Raise (Exn ValueError "GPU 서버 설정이 없습니다. config.py를 확인하세요."),
       Scenario.start).
Proof.
  destruct (load_config Stages.decimal Stages.empty_host_env) as [st|] eqn:E;
    [|vm_compute in E; discriminate].
  exists st. split; [reflexivity|].
  destruct (empty_variable_is_not_defaulted Stages.decimal Stages.empty_host_env st
              (Stages.configured_by (Scenario.downloaded Stages.document) (gpu_server st))
              Scenario.start E eq_refl) as [Hempty _].
  cbv zeta in Hempty.
  destruct (Hempty (or_introl eq_refl) EmptyString EmptyString "nvidia-smi" false)
    as (_ & _ & Hrun).
  exact Hrun.
Defined.

Lemma jsonl_archive_gets_a_clock_name_witness :
  fst (resolve_session (Upload.all_well ["frames.jsonl"; "notes.txt"] []) Upload.extract_dir
         Scenario.start)
  = Ret (Upload.extract_dir, "session_1768285041960").
Proof.
  destruct (jsonl_archive_gets_a_clock_name
              (Upload.all_well ["frames.jsonl"; "notes.txt"] []) Upload.extract_dir
              Scenario.start) as [_ Hname].
  - by_evaluation.
  - by_evaluation.
  - reflexivity.
  - by_evaluation.
  - intros n Hn. vm_compute in Hn.
    destruct Hn as [<-|[<-|[]]]; split; solve [discriminate | reflexivity].
  - rewrite Hname. reflexivity.
Defined.

Lemma pipeline_end_to_end_witness :
  fst (process_session_on_gpu_server (Scenario.downloaded Stages.document)
         Scenario.root Scenario.start)
  = Ret (success_envelope (JArr [JFloat 1 (-1); JFloat 2 (-1); JFloat 3 (-1)]) JNull) /\
  length (spawned (snd (process_session_on_gpu_server (Scenario.downloaded Stages.document)
                          Scenario.root Scenario.start))) = 4.
Proof.
  pose proof (pipeline_end_to_end (Scenario.downloaded Stages.document)
                Scenario.root Scenario.start Scenario.root "session_1000" "TARBALL"
                EmptyString EmptyString ("loading model" +:+ nl +:+ "done" +:+ nl)
                ("loading model" +:+ nl +:+ "done" +:+ nl) EmptyString EmptyString
                Stages.document Stages.document_members) as H.
  cbv zeta in H. rewrite H.
  - split; reflexivity.
  - scenario_is_configured.
  - by_evaluation.
  - reflexivity.
  - by_evaluation.
  - intros script [<-|[<-|[]]]; split; by_evaluation.
  - by_evaluation.
  - reflexivity.
  - reflexivity.
  - reflexivity.
  - reflexivity.
  - reflexivity.
  - by_evaluation.
Defined.
